(** * Authentication core of the To-Do List backend

    A shallow embedding of [backend/models/User.js], the auth routes of
    [backend/routes/auth.js] and the mail helpers of [backend/utils/email.js],
    followed by the properties of the credential life cycle: signup,
    e-mail verification, login, forgot-password, verify-otp and
    reset-password.

    Conventions of the embedding.
    - JavaScript strings are [string]s of ASCII characters; [toUpperCase],
      [toLowerCase] and [trim] are the ASCII case and white-space mappings.
    - Times are milliseconds since the epoch, in [Z].
    - The libraries the code calls are not part of the repository.  bcryptjs
      and jsonwebtoken are parameters of the development; the laws of
      bcrypt that a proof needs are stated as hypotheses.  The e-mail
      transport, the clock, [Math.random], the salts and the fresh
      [ObjectId] are inputs of every request, gathered in [env].
    - A route handler is a computation over the [users] collection that may
      throw; the writes done before a [throw] stay in the collection, as in
      the source, where nothing is rolled back by the [catch] block. *)

From Stdlib Require Import ZArith List String Ascii Bool Lia.
Import ListNotations.

Local Open Scope string_scope.
Local Open Scope Z_scope.

(** ** JavaScript values and strings *)

Module JS.

(** The values a request field may hold once the validation chain has run:
    [undefined], an integer number or a string (other JSON values are left
    out).  A field that only has validators, such as [password] or [otp],
    keeps the type the client sent; [email] and [name] go through a
    sanitizer and are strings. *)
Inductive jsval :=
| JUndefined
| JNumber (n : Z)
| JString (s : string).

Definition typeof (v : jsval) : string :=
  match v with
  | JUndefined => "undefined"
  | JNumber _ => "number"
  | JString _ => "string"
  end.

Definition in_range (lo hi c : ascii) : bool :=
  let n := nat_of_ascii c in
  (Nat.leb (nat_of_ascii lo) n && Nat.leb n (nat_of_ascii hi))%bool.

Definition is_upper (c : ascii) : bool := in_range "A" "Z" c.
Definition is_lower (c : ascii) : bool := in_range "a" "z" c.
Definition is_digit (c : ascii) : bool := in_range "0" "9" c.

(** [\w] of a JavaScript regular expression without the [u] flag. *)
Definition is_word (c : ascii) : bool :=
  (is_upper c || is_lower c || is_digit c || Ascii.eqb c "_")%bool.

(** White space removed by [String.prototype.trim], ASCII part:
    tab, line feed, vertical tab, form feed, carriage return, space. *)
Definition is_space (c : ascii) : bool :=
  let n := nat_of_ascii c in
  (Nat.leb 9 n && Nat.leb n 13 || Nat.eqb n 32)%bool.

Definition upper_char (c : ascii) : ascii :=
  if is_lower c then ascii_of_nat (nat_of_ascii c - 32) else c.

Definition lower_char (c : ascii) : ascii :=
  if is_upper c then ascii_of_nat (nat_of_ascii c + 32) else c.

Fixpoint map_string (f : ascii -> ascii) (s : string) : string :=
  match s with
  | EmptyString => EmptyString
  | String c r => String (f c) (map_string f r)
  end.

Definition toUpperCase : string -> string := map_string upper_char.
Definition toLowerCase : string -> string := map_string lower_char.

Fixpoint trimStart (s : string) : string :=
  match s with
  | String c r => if is_space c then trimStart r else s
  | EmptyString => EmptyString
  end.

(** [trimEnd] keeps a character when it is not a space or when something
    is left after it. *)
Fixpoint trimEnd (s : string) : string :=
  match s with
  | EmptyString => EmptyString
  | String c r =>
      match trimEnd r with
      | EmptyString => if is_space c then EmptyString else String c EmptyString
      | r' => String c r'
      end
  end.

Definition trim (s : string) : string := trimEnd (trimStart s).

(** [s.split(sep)[0]]: the part of [s] before the first [sep], all of [s]
    when [sep] does not occur. *)
Fixpoint split_head (sep : ascii) (s : string) : string :=
  match s with
  | EmptyString => EmptyString
  | String c r => if Ascii.eqb c sep then EmptyString else String c (split_head sep r)
  end.

Definition digit_char (d : Z) : ascii := ascii_of_nat (48 + Z.to_nat d).

Fixpoint digits (fuel : nat) (n : Z) (acc : string) : string :=
  match fuel with
  | O => acc
  | S fuel' =>
      let acc' := String (digit_char (n mod 10)) acc in
      if n / 10 =? 0 then acc' else digits fuel' (n / 10) acc'
  end.

(** The decimal text of a natural number. *)
Definition decimal (n : Z) : string := digits (S (Z.to_nat (Z.log2 n))) n "".

(** The value of a string of decimal digits, [None] when some character is
    not a digit. *)
Fixpoint parse_digits (acc : Z) (s : string) : option Z :=
  match s with
  | EmptyString => Some acc
  | String c r =>
      if is_digit c
      then parse_digits (10 * acc + (Z.of_nat (nat_of_ascii c) - 48)) r
      else None
  end.

Fixpoint all_chars (p : ascii -> bool) (s : string) : bool :=
  match s with
  | EmptyString => true
  | String c r => (p c && all_chars p r)%bool
  end.

(** ** Doubles in the unit interval and [Math.floor (1000 + r * 9000)]

    A finite non-negative double is [mant * 2^(-expo)] with a significand
    [mant] below [2^53].  Products and sums are rounded to the nearest value
    with 53 significant bits, ties to even; for the magnitudes met here no
    result is subnormal or overflows. *)
Record double := mkDouble { mant : Z; expo : Z }.

(** What [Math.random] may return: a double [r] with [0 <= r < 1]. *)
Definition unit_double (r : double) : Prop :=
  0 <= mant r < 2 ^ 53 /\ 0 <= expo r <= 1074 /\ mant r < 2 ^ expo r.

(** [n] without its [s] low bits, rounded to nearest, ties to even. *)
Definition rne (n s : Z) : Z :=
  let q := n / 2 ^ s in
  let r := n mod 2 ^ s in
  if 2 * r <? 2 ^ s then q
  else if 2 ^ s <? 2 * r then q + 1
  else if Z.even q then q else q + 1.

(** The integer with at most 53 significant bits nearest to [n >= 0]. *)
Definition round53 (n : Z) : Z :=
  let s := Z.log2 n - 52 in
  if s <=? 0 then n else rne n s * 2 ^ s.

(** [Number.prototype.toString] on the double nearest to an integer [n].
    Up to [2^53] the double is [n] and the text is its decimal digits.
    From there on the text has the fewest digits [s], followed by [e]
    zeros, that read back as the same double, the nearest to it when two
    numbers of that length do; from [10^21] on it is written with an
    exponent, and a number that overflows reads [Infinity]. *)
Definition decimal_length (n : Z) : Z := Z.of_nat (String.length (decimal n)).

Definition reads_as (v s e : Z) : bool := round53 (s * 10 ^ e) =? v.

Definition shortest_with (v k : Z) : option (Z * Z) :=
  let e := decimal_length v - k in
  let lo := v / 10 ^ e in
  let hi := lo + 1 in
  match reads_as v lo e, reads_as v hi e with
  | true, true =>
      let below := v - lo * 10 ^ e in
      let above := hi * 10 ^ e - v in
      if below <? above then Some (lo, e)
      else if above <? below then Some (hi, e)
      else if Z.even lo then Some (lo, e) else Some (hi, e)
  | true, false => Some (lo, e)
  | false, true => Some (hi, e)
  | false, false => None
  end.

Fixpoint shortest (fuel : nat) (v k : Z) : Z * Z :=
  match fuel with
  | O => (v, 0)
  | S fuel' =>
      match shortest_with v k with
      | Some r => r
      | None => shortest fuel' v (k + 1)
      end
  end.

Fixpoint strip_zeros (fuel : nat) (s e : Z) : Z * Z :=
  match fuel with
  | O => (s, e)
  | S fuel' =>
      if ((0 <? s) && (s mod 10 =? 0))%bool then strip_zeros fuel' (s / 10) (e + 1)
      else (s, e)
  end.

Fixpoint zeros (n : nat) : string :=
  match n with
  | O => EmptyString
  | S n' => String "0" (zeros n')
  end.

Definition exponent_form (s e : Z) : string :=
  let n := decimal_length s + e in
  match decimal s with
  | String c EmptyString => String c ("e+" ++ decimal (n - 1))
  | String c r => String c ("." ++ r ++ "e+" ++ decimal (n - 1))
  | EmptyString => EmptyString
  end.

Definition double_text (v : Z) : string :=
  if v <? 2 ^ 53 then decimal v
  else if 2 ^ 1024 <=? v then "Infinity"
  else
    let (s0, e0) := shortest (Z.to_nat (decimal_length v)) v 1 in
    let (s, e) := strip_zeros (Z.to_nat (decimal_length v)) s0 e0 in
    if decimal_length s + e <=? 21 then decimal s ++ zeros (Z.to_nat e)
    else exponent_form s e.

Definition Number_toString (n : Z) : string :=
  if n <? 0 then String "-" (double_text (round53 (- n)))
  else double_text (round53 n).

(** A string of four decimal digits that reads as a number from 1000 to
    9999. *)
Definition is_otp (s : string) : bool :=
  (Nat.eqb (String.length s) 4 && all_chars is_digit s &&
   match parse_digits 0 s with
   | Some n => (1000 <=? n) && (n <=? 9999)
   | None => false
   end)%bool.

Definition leading_zero (s : string) : bool :=
  match s with
  | String c _ => Ascii.eqb c "0"
  | EmptyString => false
  end.

(** The number of low bits that [round53] drops. *)
Definition dropped_bits (n : Z) : Z := Z.max 0 (Z.log2 n - 52).

Definition floor_1000_plus_9000_times (r : double) : Z :=
  let u := 2 ^ expo r in
  let p := round53 (mant r * 9000) in
  let s := round53 (1000 * u + p) in
  s / u.

End JS.

(** ** Regular expressions, for the [match] validator of the schema *)

Module Regex.

Inductive regex :=
| Zero
| One
| Sym (p : ascii -> bool)
| Seq (a b : regex)
| Or (a b : regex)
| Rep (a : regex).

Fixpoint nullable (r : regex) : bool :=
  match r with
  | Zero => false
  | One => true
  | Sym _ => false
  | Seq a b => nullable a && nullable b
  | Or a b => nullable a || nullable b
  | Rep _ => true
  end.

(** The words of [r] that start with [c], without that [c]. *)
Fixpoint deriv (c : ascii) (r : regex) : regex :=
  match r with
  | Zero => Zero
  | One => Zero
  | Sym p => if p c then One else Zero
  | Seq a b =>
      if nullable a then Or (Seq (deriv c a) b) (deriv c b)
      else Seq (deriv c a) b
  | Or a b => Or (deriv c a) (deriv c b)
  | Rep a => Seq (deriv c a) (Rep a)
  end.

(** [/^r$/.test(s)] *)
Fixpoint test (r : regex) (s : string) : bool :=
  match s with
  | EmptyString => nullable r
  | String c s' => test (deriv c r) s'
  end.

Definition plus (r : regex) : regex := Seq r (Rep r).
Definition opt (r : regex) : regex := Or One r.
Definition chr (c : ascii) : regex := Sym (Ascii.eqb c).

End Regex.

(** ** Results and the handler monad *)

Inductive result (A : Type) :=
| Val (a : A)
| Throw (msg : string).

Arguments Val {A} a.
Arguments Throw {A} msg.

(** A computation over a state [S] that returns or throws; the state
    reached when it throws is kept. *)
Definition M (S A : Type) : Type := S -> S * result A.

Definition ret {S A} (a : A) : M S A := fun s => (s, Val a).

Definition throw {S A} (msg : string) : M S A := fun s => (s, Throw msg).

Definition bind {S A B} (m : M S A) (k : A -> M S B) : M S B :=
  fun s =>
    match m s with
    | (s', Val a) => k a s'
    | (s', Throw msg) => (s', Throw msg)
    end.

Definition lift {S A} (r : result A) : M S A := fun s => (s, r).

(** [try { m } catch (error) { h error.message }] *)
Definition try_catch {S A} (m : M S A) (h : string -> A) : S -> S * A :=
  fun s =>
    match m s with
    | (s', Val a) => (s', a)
    | (s', Throw msg) => (s', h msg)
    end.

Declare Scope js_scope.
Delimit Scope js_scope with js.
Notation "x <- m ;; k" := (bind m (fun x => k))
  (at level 61, m at next level, right associativity) : js_scope.
Notation "m ;;; k" := (bind m (fun _ => k))
  (at level 61, right associativity) : js_scope.

(** ** The User schema (models/User.js) *)

Inductive path :=
| Pemail
| Ppassword
| Pname
| PisVerified
| PverificationOTP
| PverificationOTPExpire
| PresetPasswordOTP
| PresetPasswordExpire.

Definition path_eqb (p q : path) : bool :=
  match p, q with
  | Pemail, Pemail
  | Ppassword, Ppassword
  | Pname, Pname
  | PisVerified, PisVerified
  | PverificationOTP, PverificationOTP
  | PverificationOTPExpire, PverificationOTPExpire
  | PresetPasswordOTP, PresetPasswordOTP
  | PresetPasswordExpire, PresetPasswordExpire => true
  | _, _ => false
  end.

(** A document of the [users] collection.  A field that is [undefined]
    (never set, unset, or left out by the projection of a query) is [None].
    [modified] lists the paths assigned since the document was loaded or
    saved; it is empty for the documents in the collection. *)
Record user := mkUser {
  _id : nat;
  email : string;
  password : option string;
  name : string;
  isVerified : bool;
  verificationOTP : option string;
  verificationOTPExpire : option Z;
  resetPasswordOTP : option string;
  resetPasswordExpire : option Z;
  createdAt : Z;
  modified : list path
}.

Definition collection := list user.

(** What a request reads from outside the collection. *)
Record env := mkEnv {
  Date_now : Z;                (** [Date.now()] in the OTP methods and in [jwt.sign] *)
  created_now : Z;             (** [Date.now] of the [createdAt] default *)
  Math_random : JS.double;     (** [Math.random()] *)
  genSalt : string;            (** [bcrypt.genSalt(10)] of the pre-save hook *)
  otp_salt : string;           (** the salt drawn by [bcrypt.hashSync(otp, 10)] *)
  ObjectId : nat;              (** the [_id] given to a new document *)
  sendMail : result string     (** [transporter.sendMail]: the message id, or the error thrown *)
}.

(** The JSON body of a response and its HTTP status. *)
Inductive payload :=
| NoData
| Registered (mail : string) (verified : bool)
| Session (token : string) (id : nat) (mail nm : string)
| NeedsVerification (mail : string)
| SentTo (mail : string).

Record response := mkResponse {
  status : Z;
  success : bool;
  message : string;
  data : payload;
  error : option string
}.

Definition json (st : Z) (ok : bool) (msg : string) : response :=
  mkResponse st ok msg NoData None.

Definition json_data (st : Z) (ok : bool) (msg : string) (d : payload) : response :=
  mkResponse st ok msg d None.

Definition json_error (st : Z) (msg err : string) : response :=
  mkResponse st false msg NoData (Some err).

(** What the helpers of utils/email.js return. *)
Module Email.
Record result := mkResult {
  success : bool;
  messageId : option string;
  error : option string
}.
End Email.

(** *** Schema: setters, casts and validators *)

Definition isModified (p : path) (u : user) : bool :=
  existsb (path_eqb p) (modified u).

Definition markModified (p : path) (u : user) : list path :=
  if isModified p u then modified u else p :: modified u.

(** A [String] path casts a number to the text that [toString] gives
    it. *)
Definition cast_string (v : JS.jsval) : option string :=
  match v with
  | JS.JUndefined => None
  | JS.JNumber n => Some (JS.Number_toString n)
  | JS.JString s => Some s
  end.

(** [email: { lowercase: true, trim: true }]; the setters also run on the
    [email] of a query filter. *)
Definition email_setter (s : string) : string := JS.trim (JS.toLowerCase s).

(** [/^\w+([\.-]?\w+)*@\w+([\.-]?\w+)*(\.\w{2,3})+$/] *)
Definition email_regex : Regex.regex :=
  let w := Regex.Sym JS.is_word in
  let sep := Regex.Sym (fun c => Ascii.eqb c "." || Ascii.eqb c "-")%bool in
  let words := Regex.Seq (Regex.plus w)
                 (Regex.Rep (Regex.Seq (Regex.opt sep) (Regex.plus w))) in
  let tld := Regex.Seq (Regex.chr ".") (Regex.Seq w (Regex.Seq w (Regex.opt w))) in
  Regex.Seq words (Regex.Seq (Regex.chr "@") (Regex.Seq words (Regex.plus tld))).

Definition validate_email (u : user) : option string :=
  if String.eqb (email u) "" then Some "email: Email is required"
  else if Regex.test email_regex (email u) then None
  else Some "email: Please enter a valid email".

Definition validate_password (u : user) : option string :=
  match password u with
  | None => Some "password: Password is required"
  | Some p =>
      if String.eqb p "" then Some "password: Password is required"
      else if (Nat.ltb (String.length p) 6)
      then Some "password: Password must be at least 6 characters"
      else None
  end.

Definition validate_name (u : user) : option string :=
  if String.eqb (name u) "" then Some "name: Name is required"
  else None.

(** The message of a ValidationError names every path that failed, in the
    order in which the paths were validated. *)
Definition failures (checks : list (option string)) : list string :=
  flat_map (fun c => match c with Some e => [e] | None => [] end) checks.

Definition ValidationError (checks : list (option string)) : option string :=
  match failures checks with
  | [] => None
  | errs => Some ("User validation failed: " ++ String.concat ", " errs)
  end.

(** The validators of a new document ([User.create]): a required path
    that was left [undefined] comes first, then the paths set, in the
    order of the object passed. *)
Definition validate (u : user) : option string :=
  ValidationError
    [ match password u with None => validate_password u | Some _ => None end;
      validate_email u;
      match password u with Some _ => validate_password u | None => None end;
      validate_name u ].

(** The validators that [doc.save()] runs on a document that a query has
    loaded or that [User.create] has returned: those of the paths loaded,
    then those of the paths modified since.  Every query of the routes
    loads [email] and [name].  [password] is [select: false]: the queries
    of the routes that save do not load it.  The document that
    [User.create] returns does hold it, as the bcrypt hash that the
    pre-save hook has put there, a string of 60 characters that
    [required] and [minlength] accept; so the validators of [password]
    are run when the path was modified, and left out otherwise. *)
Definition validate_loaded (u : user) : option string :=
  ValidationError
    [ validate_email u;
      validate_name u;
      if isModified Ppassword u then validate_password u else None ].

(** An assignment [this.p = v] marks [p] as modified.  (Mongoose leaves a
    path unmodified when the value assigned equals the one loaded; the
    paths where a handler can do that, the OTP fields and [isVerified],
    have neither validator nor hook, and what [save] writes is the same.) *)
Definition set_password (v : option string) (u : user) : user :=
  mkUser (_id u) (email u) v (name u) (isVerified u)
    (verificationOTP u) (verificationOTPExpire u)
    (resetPasswordOTP u) (resetPasswordExpire u) (createdAt u)
    (markModified Ppassword u).

Definition set_isVerified (v : bool) (u : user) : user :=
  mkUser (_id u) (email u) (password u) (name u) v
    (verificationOTP u) (verificationOTPExpire u)
    (resetPasswordOTP u) (resetPasswordExpire u) (createdAt u)
    (markModified PisVerified u).

Definition set_verificationOTP (v : option string) (u : user) : user :=
  mkUser (_id u) (email u) (password u) (name u) (isVerified u)
    v (verificationOTPExpire u)
    (resetPasswordOTP u) (resetPasswordExpire u) (createdAt u)
    (markModified PverificationOTP u).

Definition set_verificationOTPExpire (v : option Z) (u : user) : user :=
  mkUser (_id u) (email u) (password u) (name u) (isVerified u)
    (verificationOTP u) v
    (resetPasswordOTP u) (resetPasswordExpire u) (createdAt u)
    (markModified PverificationOTPExpire u).

Definition set_resetPasswordOTP (v : option string) (u : user) : user :=
  mkUser (_id u) (email u) (password u) (name u) (isVerified u)
    (verificationOTP u) (verificationOTPExpire u)
    v (resetPasswordExpire u) (createdAt u)
    (markModified PresetPasswordOTP u).

Definition set_resetPasswordExpire (v : option Z) (u : user) : user :=
  mkUser (_id u) (email u) (password u) (name u) (isVerified u)
    (verificationOTP u) (verificationOTPExpire u)
    (resetPasswordOTP u) v (createdAt u)
    (markModified PresetPasswordExpire u).

Definition clean (u : user) : user :=
  mkUser (_id u) (email u) (password u) (name u) (isVerified u)
    (verificationOTP u) (verificationOTPExpire u)
    (resetPasswordOTP u) (resetPasswordExpire u) (createdAt u) [].

(** *** Queries *)

(** The projection of a query: the paths declared [select: false] are left
    out unless the query asks for them with [.select('+path')]. *)
Definition selected (sel : list path) (p : path) : bool := existsb (path_eqb p) sel.

Definition project (sel : list path) (d : user) : user :=
  mkUser (_id d) (email d)
    (if selected sel Ppassword then password d else None)
    (name d) (isVerified d)
    (if selected sel PverificationOTP then verificationOTP d else None)
    (if selected sel PverificationOTPExpire then verificationOTPExpire d else None)
    (if selected sel PresetPasswordOTP then resetPasswordOTP d else None)
    (if selected sel PresetPasswordExpire then resetPasswordExpire d else None)
    (createdAt d) [].

(** The stored document that the filter [{ email }] matches. *)
Definition stored (mail : string) (db : collection) : option user :=
  find (fun d => String.eqb (email d) (email_setter mail)) db.

(** [User.findOne({ email }).select(sel)] *)
Definition User_findOne (mail : string) (sel : list path) : M collection (option user) :=
  fun db => (db, Val (option_map (project sel) (stored mail db))).

(** The [_id] index: no two documents of the collection share an [_id]. *)
Fixpoint unique_ids (db : collection) : bool :=
  match db with
  | [] => true
  | d :: rest => negb (existsb (fun x => Nat.eqb (_id x) (_id d)) rest) && unique_ids rest
  end.

Fixpoint delete_by_id (id : nat) (db : collection) : collection :=
  match db with
  | [] => []
  | d :: rest => if Nat.eqb (_id d) id then rest else d :: delete_by_id id rest
  end.

(** [User.findByIdAndDelete(id)] *)
Definition User_findByIdAndDelete (id : nat) : M collection unit :=
  fun db => (delete_by_id id db, Val tt).

(** The stored document after the modified paths of [mem] are written:
    a path set to [undefined] is unset. *)
Definition merge (mem d : user) : user :=
  mkUser (_id d)
    (if isModified Pemail mem then email mem else email d)
    (if isModified Ppassword mem then password mem else password d)
    (if isModified Pname mem then name mem else name d)
    (if isModified PisVerified mem then isVerified mem else isVerified d)
    (if isModified PverificationOTP mem then verificationOTP mem else verificationOTP d)
    (if isModified PverificationOTPExpire mem
     then verificationOTPExpire mem else verificationOTPExpire d)
    (if isModified PresetPasswordOTP mem then resetPasswordOTP mem else resetPasswordOTP d)
    (if isModified PresetPasswordExpire mem
     then resetPasswordExpire mem else resetPasswordExpire d)
    (createdAt d) [].

Fixpoint update_by_id (mem : user) (db : collection) : option collection :=
  match db with
  | [] => None
  | d :: rest =>
      if Nat.eqb (_id d) (_id mem) then Some (merge mem d :: rest)
      else option_map (cons d) (update_by_id mem rest)
  end.

(** ** A stand-in for bcrypt, to run the model on concrete requests

    It keeps the shape of a bcrypt hash (60 characters) and compares by
    hashing again; it ignores the salt. *)
Module ToyBcrypt.

Fixpoint pad (n : nat) (s : string) : string :=
  match n with
  | O => EmptyString
  | S n' =>
      match s with
      | EmptyString => String "." (pad n' EmptyString)
      | String c r => String c (pad n' r)
      end
  end.

Definition hash (plain salt : string) : string := pad 60 ("$2a$10$" ++ plain).

Definition compare (plain hashed : string) : bool := String.eqb hashed (hash plain "").

Definition sign (id : nat) (now : Z) : string :=
  "jwt." ++ JS.Number_toString (Z.of_nat id) ++ "." ++ JS.Number_toString now.

End ToyBcrypt.

(** ** Concrete requests and documents, for the examples *)

Module Example.

(** A request served while the SMTP transport is down: the clock reads
    1000000, [Math.random()] returns 0.25, so that the code is 3250. *)
Definition ev_down : env :=
  mkEnv 1000000 999999 (JS.mkDouble 1 2) "salt1" "salt2" 7%nat
    (Throw "connect ECONNREFUSED 127.0.0.1:587").

(** The same request with a transport that delivers. *)
Definition ev_ok : env :=
  mkEnv 1000000 999999 (JS.mkDouble 1 2) "salt1" "salt2" 7%nat
    (Val "<1@todolist.com>").

(** The account of [a@x.com] right after signup. *)
Definition alice : user :=
  mkUser 7%nat "a@x.com" (Some (ToyBcrypt.hash "pass123" "salt1")) "A" false
    (Some (ToyBcrypt.hash "3250" "salt2")) (Some 1600000) None None 999999 [].

(** The same account, verified, with a reset challenge for the code 3250
    that expires at 1600000. *)
Definition alice_resetting : user :=
  mkUser 7%nat "a@x.com" (Some (ToyBcrypt.hash "pass123" "salt1")) "A" true
    None None (Some (ToyBcrypt.hash "3250" "salt2")) (Some 1600000) 999999 [].

Definition at_time (now : Z) (ev : env) : env :=
  mkEnv now (created_now ev) (Math_random ev) (genSalt ev) (otp_salt ev)
    (ObjectId ev) (sendMail ev).

End Example.

(** ** More JavaScript strings, and jsonwebtoken *)

(** [s.split(sep)] for a separator of one character. *)
Fixpoint String_split (sep : ascii) (s : string) : list string :=
  match s with
  | EmptyString => [EmptyString]
  | String c r =>
      if Ascii.eqb c sep then EmptyString :: String_split sep r
      else match String_split sep r with
           | h :: t => String c h :: t
           | [] => [String c EmptyString]
           end
  end.

(** What [jwt.verify] answers: the [id] of the payload, or an error with
    its [name]. *)
Inductive jwt_result :=
| JwtOk (id : nat)
| JwtError (name : string).

(** ** A stand-in for jsonwebtoken

    A token spells the [id] and the time of issue in a self-delimiting
    binary code; [verify] reads them back and compares the clock, in
    seconds, with the time of issue plus the lifetime. *)
Module ToyJwt.

Fixpoint enc_pos (p : positive) : string :=
  match p with
  | xH => String "h" EmptyString
  | xO q => String "0" (enc_pos q)
  | xI q => String "1" (enc_pos q)
  end.

Definition enc (z : Z) : string :=
  match z with
  | Z0 => String "z" EmptyString
  | Zpos p => String "p" (enc_pos p)
  | Zneg p => String "n" (enc_pos p)
  end.

Fixpoint dec_pos (s : string) : option (positive * string) :=
  match s with
  | EmptyString => None
  | String c r =>
      if Ascii.eqb c "h" then Some (xH, r)
      else if Ascii.eqb c "0" then
        match dec_pos r with Some (q, r') => Some (xO q, r') | None => None end
      else if Ascii.eqb c "1" then
        match dec_pos r with Some (q, r') => Some (xI q, r') | None => None end
      else None
  end.

Definition dec (s : string) : option (Z * string) :=
  match s with
  | EmptyString => None
  | String c r =>
      if Ascii.eqb c "z" then Some (0, r)
      else if Ascii.eqb c "p" then
        match dec_pos r with Some (q, r') => Some (Zpos q, r') | None => None end
      else if Ascii.eqb c "n" then
        match dec_pos r with Some (q, r') => Some (Zneg q, r') | None => None end
      else None
  end.

Definition sign (id : nat) (now : Z) : string := enc (Z.of_nat id) ++ enc now.

Definition verify (expire : Z) (token : string) (now : Z) : jwt_result :=
  match dec token with
  | Some (id, rest) =>
      match dec rest with
      | Some (iat, EmptyString) =>
          if id <? 0 then JwtError "JsonWebTokenError"
          else if now / 1000 <? iat / 1000 + expire then JwtOk (Z.to_nat id)
          else JwtError "TokenExpiredError"
      | _ => JwtError "JsonWebTokenError"
      end
  | None => JwtError "JsonWebTokenError"
  end.

End ToyJwt.

(** ** Reading a pattern: what every matched string is made of *)

(** [r] matches no string at all. *)
Fixpoint matches_nothing (r : Regex.regex) : bool :=
  match r with
  | Regex.Zero => true
  | Regex.One => false
  | Regex.Sym _ => false
  | Regex.Seq a b => matches_nothing a || matches_nothing b
  | Regex.Or a b => matches_nothing a && matches_nothing b
  | Regex.Rep _ => false
  end.

(** Every character class of [r] lies within [P]. *)
Fixpoint reads_only (P : ascii -> bool) (r : Regex.regex) : Prop :=
  match r with
  | Regex.Zero | Regex.One => True
  | Regex.Sym p => forall c, p c = true -> P c = true
  | Regex.Seq a b | Regex.Or a b => reads_only P a /\ reads_only P b
  | Regex.Rep a => reads_only P a
  end.

(** Every string that [r] matches goes through a character class that
    lies within [Q]. *)
Fixpoint has_to_read (Q : ascii -> bool) (r : Regex.regex) : Prop :=
  match r with
  | Regex.Zero => True
  | Regex.One => False
  | Regex.Sym p => forall c, p c = true -> Q c = true
  | Regex.Seq a b => has_to_read Q a \/ has_to_read Q b
  | Regex.Or a b => has_to_read Q a /\ has_to_read Q b
  | Regex.Rep _ => False
  end.

Fixpoint some_char (p : ascii -> bool) (s : string) : bool :=
  match s with
  | EmptyString => false
  | String c r => p c || some_char p r
  end.

(** The characters an e-mail of the schema is made of. *)
Definition email_char (c : ascii) : bool :=
  JS.is_word c || Ascii.eqb c "." || Ascii.eqb c "-" || Ascii.eqb c "@".

(** ** Reading a pattern: the strings it matches, when they are few *)

(** The strings of at most [n] characters that [r] matches. *)
Fixpoint words (n : nat) (r : Regex.regex) : list string :=
  (if Regex.nullable r then [""] else []) ++
  match n with
  | O => []
  | S n' =>
      flat_map
        (fun k =>
           let c := ascii_of_nat k in
           if matches_nothing (Regex.deriv c r) then []
           else map (String c) (words n' (Regex.deriv c r)))
        (seq 0 256)
  end.

(** [r] matches no string of more than [n] characters. *)
Fixpoint bounded (n : nat) (r : Regex.regex) : bool :=
  forallb
    (fun k =>
       let d := Regex.deriv (ascii_of_nat k) r in
       if matches_nothing d then true
       else match n with
            | O => false
            | S n' => bounded n' d
            end)
    (seq 0 256).

(** ** The patterns of middleware/validation.js *)

Module Validation.

(** The character class [[lo-hi]]. *)
Definition range (lo hi : ascii) : Regex.regex := Regex.Sym (JS.in_range lo hi).

(** [/^([0-1]?[0-9]|2[0-3]):[0-5][0-9]$/], which [taskValidation] and
    [taskUpdateValidation] ask of [time]. *)
Definition time_regex : Regex.regex :=
  let hours :=
    Regex.Or (Regex.Seq (Regex.opt (range "0" "1")) (range "0" "9"))
             (Regex.Seq (Regex.chr "2") (range "0" "3")) in
  Regex.Seq hours
    (Regex.Seq (Regex.chr ":") (Regex.Seq (range "0" "5") (range "0" "9"))).

End Validation.

(** The time [h:m] of a 24-hour clock, with two digits for the hour and
    with one. *)
Definition digit (n : nat) : ascii := ascii_of_nat (48 + n).

Definition two_digits (n : nat) : string :=
  String (digit (n / 10)) (String (digit (n mod 10)) "").

Definition clock (h m : nat) : string := two_digits h ++ ":" ++ two_digits m.

Definition short_clock (h m : nat) : string := String (digit h) (":" ++ two_digits m).

(** The times from 0:00 to 23:59, in both writings. *)
Definition clocks : list string :=
  flat_map
    (fun h =>
       flat_map
         (fun m => clock h m :: (if Nat.ltb h 10 then [short_clock h m] else []))
         (seq 0 60))
    (seq 0 24).

(** ** More concrete documents, for the examples *)

Module Sample.

(** A second account, verified, with no challenge. *)
Definition bob : user :=
  mkUser 8%nat "b@x.com" (Some (ToyBcrypt.hash "bobpass1" "salt3")) "Bob" true
    None None None None 999000 [].

(** The token lifetime of the default configuration, 7 days, in seconds. *)
Definition seven_days : Z := 7 * 24 * 60 * 60.

Definition ev_at (now : Z) : env := Example.at_time now Example.ev_ok.

End Sample.

From Stdlib Require Import Permutation.

(** ** Quotients and products of doubles

    The doubles met here are non-negative and are written
    [mant * 2^(-expo)], as above. *)

Module JSNumber.

(** The integer nearest to [n / d], ties to even. *)
Definition rne_div (n d : Z) : Z :=
  let q := n / d in
  let r := n mod d in
  if 2 * r <? d then q
  else if d <? 2 * r then q + 1
  else if Z.even q then q else q + 1.

(** The [k] with [2^k <= a / b < 2^(k+1)], for [0 < a] and [0 < b]. *)
Definition log2_quotient (a b : Z) : Z :=
  let d := Z.log2 a - Z.log2 b in
  if (if 0 <=? d then b * 2 ^ d <=? a else b <=? a * 2 ^ (- d)) then d else d - 1.

(** [a / b] on two integers with [0 <= a < 2^53] and [0 < b < 2^53]: the
    quotient rounded to 53 significant bits. *)
Definition divide (a b : Z) : JS.double :=
  if a =? 0 then JS.mkDouble 0 0
  else
    let e := 52 - log2_quotient a b in
    JS.mkDouble (rne_div (a * 2 ^ e) b) e.

(** [x * n] for an integer [0 <= n < 2^53]. *)
Definition times (x : JS.double) (n : Z) : JS.double :=
  JS.mkDouble (JS.round53 (JS.mant x * n)) (JS.expo x).

(** [Math.floor(x)] *)
Definition Math_floor (x : JS.double) : Z := JS.mant x / 2 ^ JS.expo x.

(** [Math.round(x)]: the integer nearest to [x], ties upwards. *)
Definition Math_round (x : JS.double) : Z :=
  (2 * JS.mant x + 2 ^ JS.expo x) / 2 ^ (JS.expo x + 1).

End JSNumber.

(** ** Tasks (models/Task.js)

    The [createdAt] and [updatedAt] that the [timestamps] option of the
    schema adds are left out, and so is the text of the [error] field of
    a 500 response, which is the message of the exception caught.
    [progress] is an integer, as the client of the repository sends it. *)

Module Task.

(** A document of the [tasks] collection. *)
Record task := mkTask {
  _id : nat;
  userId : nat;
  name : string;
  time : string;
  date : string;
  deadline : string;
  progress : Z;
  completed : bool;
  icon : string;
  color : string
}.

(** The [required] validator of a String path: neither [undefined] nor
    the empty string. *)
Definition required (v : option string) : bool :=
  match v with
  | Some s => negb (String.eqb s "")
  | None => false
  end.

(** [min: 0, max: 100] *)
Definition valid_progress (p : Z) : bool := (0 <=? p) && (p <=? 100).

(** [enum: ['purple', 'blue', 'orange', 'green', 'pink']] *)
Definition color_enum : list string := ["purple"; "blue"; "orange"; "green"; "pink"].

Definition valid_color (c : string) : bool := existsb (String.eqb c) color_enum.

(** The [data] of a response of the task routes. *)
Inductive payload :=
| NoData
| One (t : task)
| Many (count : nat) (l : list task)
| Deleted (deletedCount : nat)
| Summary (totalTasks completedTasks inProgressTasks pendingTasks : nat)
    (completionPercentage : Z).

Record response := mkResponse {
  status : Z;
  success : bool;
  message : option string;
  data : payload
}.

End Task.

(** The fields of [req.body] in POST and PUT of a task; [None] is
    [undefined].  [completed] is the value that the client sent: the
    validation chain checks it with [isBoolean()], which lets through the
    booleans, the numbers 0 and 1 and the strings [true], [false], [1]
    and [0], and does not convert it. *)
Module TaskBody.
Inductive value :=
| VBool (b : bool)
| VNumber (n : Z)
| VString (s : string).

Record t := mk {
  name : option string;
  time : option string;
  date : option string;
  progress : option Z;
  completed : option value;
  icon : option string;
  color : option string
}.
End TaskBody.

(** What JavaScript takes for true in [v ? a : b] and [v || d]. *)
Definition truthy (v : TaskBody.value) : bool :=
  match v with
  | TaskBody.VBool b => b
  | TaskBody.VNumber n => negb (n =? 0)
  | TaskBody.VString s => negb (String.eqb s "")
  end.

(** The cast of a Boolean path: [true], ['true'], [1], ['1'] and ['yes']
    are true, [false], ['false'], [0], ['0'] and ['no'] are false, and
    anything else is a CastError. *)
Definition castBoolean (v : TaskBody.value) : option bool :=
  match v with
  | TaskBody.VBool b => Some b
  | TaskBody.VNumber n =>
      if n =? 1 then Some true else if n =? 0 then Some false else None
  | TaskBody.VString s =>
      if existsb (String.eqb s) ["true"; "1"; "yes"] then Some true
      else if existsb (String.eqb s) ["false"; "0"; "no"] then Some false
      else None
  end.

(** The fields of [req.query] in GET /api/tasks. *)
Module TaskQuery.
Record t := mk {
  completed : option string;
  date : option string;
  sortBy : option string;
  order : option string
}.
End TaskQuery.

Definition tasks := list Task.task.

(** A value in a template literal. *)
Definition template (v : option string) : string :=
  match v with
  | Some s => s
  | None => "undefined"
  end.

(** [v || d] on a string, a number and the value of [completed], each of
    which may be [undefined]. *)
Definition or_string (v : option string) (d : string) : string :=
  match v with
  | Some s => if String.eqb s "" then d else s
  | None => d
  end.

Definition or_number (v : option Z) (d : Z) : Z :=
  match v with
  | Some n => if n =? 0 then d else n
  | None => d
  end.

Definition or_value (v : option TaskBody.value) (d : bool) : TaskBody.value :=
  match v with
  | Some x => if truthy x then x else TaskBody.VBool d
  | None => TaskBody.VBool d
  end.

(** The icon that POST /api/tasks gives a task without one, as the bytes
    of the source. *)
Definition route_icon : string := "ðŸ“".

(** *** Queries and writes *)

Definition Task_matches (id uid : nat) (t : Task.task) : bool :=
  Nat.eqb (Task._id t) id && Nat.eqb (Task.userId t) uid.

(** The filter [{ _id, userId }]; as [_id], [None] stands for a string
    that is no ObjectId, which the query refuses with a CastError. *)
Definition Task_findOne (id : option nat) (uid : nat) : M tasks (option Task.task) :=
  match id with
  | Some i => fun db => (db, Val (find (Task_matches i uid) db))
  | None => throw "CastError"
  end.

Fixpoint Task_remove (p : Task.task -> bool) (db : tasks) : tasks :=
  match db with
  | [] => []
  | t :: rest => if p t then rest else t :: Task_remove p rest
  end.

(** [Task.findOneAndDelete({ _id, userId })] *)
Definition Task_findOneAndDelete (id : option nat) (uid : nat)
  : M tasks (option Task.task) :=
  match id with
  | Some i =>
      fun db => (Task_remove (Task_matches i uid) db, Val (find (Task_matches i uid) db))
  | None => throw "CastError"
  end.

(** All the ids of [$in] cast to ObjectIds, or none. *)
Fixpoint cast_ids (ids : list (option nat)) : option (list nat) :=
  match ids with
  | [] => Some []
  | Some i :: rest => option_map (cons i) (cast_ids rest)
  | None :: _ => None
  end.

Definition Task_in (ids : list nat) (uid : nat) (t : Task.task) : bool :=
  existsb (Nat.eqb (Task._id t)) ids && Nat.eqb (Task.userId t) uid.

(** [Task.deleteMany({ _id: { $in: taskIds }, userId })], which returns
    [deletedCount]. *)
Definition Task_deleteMany (taskIds : list (option nat)) (uid : nat) : M tasks nat :=
  match cast_ids taskIds with
  | Some ids =>
      fun db =>
        (filter (fun t => negb (Task_in ids uid t)) db,
         Val (List.length (filter (Task_in ids uid) db)))
  | None => throw "CastError"
  end.

(** The validators of the schema on a document: [save] runs them on every
    path of a document that a query has loaded, changed or not. *)
Definition Task_validate (doc : Task.task) : bool :=
  Task.required (Some (Task.name doc)) &&
  Task.required (Some (Task.time doc)) &&
  Task.required (Some (Task.date doc)) &&
  Task.required (Some (Task.deadline doc)) &&
  Task.valid_progress (Task.progress doc) &&
  Task.valid_color (Task.color doc).

(** [Task.create]: the name is trimmed, [completed] is cast to a boolean,
    every path is validated, a value that could not be cast being an
    error of validation too, and the document is inserted unless its
    [_id] is taken. *)
Definition Task_create (uid : nat) (name time date : option string)
    (deadline : string) (progress : Z) (completed : TaskBody.value)
    (icon color : string) (ev : env) : M tasks Task.task :=
  fun db =>
    match option_map JS.trim name, time, date, castBoolean completed with
    | Some name', Some time', Some date', Some completed' =>
        let t := Task.mkTask (ObjectId ev) uid name' time' date' deadline
                   progress completed' icon color in
        if Task_validate t
        then
          if existsb (fun x => Nat.eqb (Task._id x) (ObjectId ev)) db
          then (db, Throw "MongoServerError")
          else ((db ++ [t])%list, Val t)
        else (db, Throw "ValidationError")
    | _, _, _, _ => (db, Throw "ValidationError")
    end.

Fixpoint Task_updateOne (doc : Task.task) (db : tasks) : tasks :=
  match db with
  | [] => []
  | t :: rest =>
      if Nat.eqb (Task._id t) (Task._id doc) then doc :: rest
      else t :: Task_updateOne doc rest
  end.

(** [doc.save()] on a document that a query has loaded: the document is
    validated and written. *)
Definition Task_save (doc : Task.task) : M tasks Task.task :=
  fun db =>
    if Task_validate doc then (Task_updateOne doc db, Val doc)
    else (db, Throw "ValidationError").

(** Assignments to the paths of a loaded document; the setter of [name]
    trims. *)
Definition Task_set_name (v : string) (t : Task.task) : Task.task :=
  Task.mkTask (Task._id t) (Task.userId t) (JS.trim v) (Task.time t) (Task.date t)
    (Task.deadline t) (Task.progress t) (Task.completed t) (Task.icon t) (Task.color t).

Definition Task_set_time (v : string) (t : Task.task) : Task.task :=
  Task.mkTask (Task._id t) (Task.userId t) (Task.name t) v (Task.date t)
    (Task.deadline t) (Task.progress t) (Task.completed t) (Task.icon t) (Task.color t).

Definition Task_set_date (v : string) (t : Task.task) : Task.task :=
  Task.mkTask (Task._id t) (Task.userId t) (Task.name t) (Task.time t) v
    (Task.deadline t) (Task.progress t) (Task.completed t) (Task.icon t) (Task.color t).

Definition Task_set_deadline (v : string) (t : Task.task) : Task.task :=
  Task.mkTask (Task._id t) (Task.userId t) (Task.name t) (Task.time t) (Task.date t)
    v (Task.progress t) (Task.completed t) (Task.icon t) (Task.color t).

Definition Task_set_progress (v : Z) (t : Task.task) : Task.task :=
  Task.mkTask (Task._id t) (Task.userId t) (Task.name t) (Task.time t) (Task.date t)
    (Task.deadline t) v (Task.completed t) (Task.icon t) (Task.color t).

Definition Task_set_completed (v : bool) (t : Task.task) : Task.task :=
  Task.mkTask (Task._id t) (Task.userId t) (Task.name t) (Task.time t) (Task.date t)
    (Task.deadline t) (Task.progress t) v (Task.icon t) (Task.color t).

(** [task.completed = v] for a value of the body: the value is cast, and
    one that cannot be cast leaves the path as it is and is remembered as
    an error of validation, which [save] throws. *)
Definition Task_cast_completed (v : TaskBody.value) (t : Task.task) : Task.task :=
  match castBoolean v with
  | Some c => Task_set_completed c t
  | None => t
  end.

Definition castError (v : option TaskBody.value) : bool :=
  match v with
  | Some x => match castBoolean x with Some _ => false | None => true end
  | None => false
  end.

Definition Task_set_icon (v : string) (t : Task.task) : Task.task :=
  Task.mkTask (Task._id t) (Task.userId t) (Task.name t) (Task.time t) (Task.date t)
    (Task.deadline t) (Task.progress t) (Task.completed t) v (Task.color t).

Definition Task_set_color (v : string) (t : Task.task) : Task.task :=
  Task.mkTask (Task._id t) (Task.userId t) (Task.name t) (Task.time t) (Task.date t)
    (Task.deadline t) (Task.progress t) (Task.completed t) (Task.icon t) v.

(** [if (v !== undefined) task.path = v] *)
Definition assign {A} (set : A -> Task.task -> Task.task) (v : option A)
    (t : Task.task) : Task.task :=
  match v with
  | Some a => set a t
  | None => t
  end.

(** [toggleComplete] of the schema, on a document loaded as [old]. *)
Definition toggleComplete (old : Task.task) : M tasks Task.task :=
  let t1 := Task_set_completed (negb (Task.completed old)) old in
  let t2 := Task_set_progress (if Task.completed t1 then 100 else 0) t1 in
  Task_save t2.

(** ** The client (the script of the page)

    The parts of the script that compute what is sent to the task routes
    and what is shown of their answers; [Math.random()] is an argument. *)

Module Frontend.

Definition icons : list string := ["💼"; "🛒"; "📚"; "🎯"; "💻"; "📱"; "🎨"; "📝"].

Definition colors : list string := ["purple"; "blue"; "orange"; "green"; "pink"].

(** [array[Math.floor(Math.random() * array.length)]]; [None] is
    [undefined]. *)
Definition random_element (array : list string) (random : JS.double) : option string :=
  nth_error array
    (Z.to_nat (JSNumber.Math_floor (JSNumber.times random (Z.of_nat (List.length array))))).

Definition getRandomIcon (random : JS.double) : option string :=
  random_element icons random.

Definition getRandomColor (random : JS.double) : option string :=
  random_element colors random.

(** The body that [handleAddTask] posts. *)
Definition handleAddTask (taskName taskTime taskDate : string)
    (random1 random2 : JS.double) : TaskBody.t :=
  TaskBody.mk (Some taskName) (Some taskTime) (Some taskDate) None None
    (getRandomIcon random1) (getRandomColor random2).

(** The body that [saveUpdatedTask] puts for the task selected. *)
Definition saveUpdatedTask (selectedTaskForUpdate : Task.task) : TaskBody.t :=
  let isCompleted := Task.progress selectedTaskForUpdate =? 100 in
  TaskBody.mk (Some (Task.name selectedTaskForUpdate))
    (Some (Task.time selectedTaskForUpdate))
    (Some (Task.date selectedTaskForUpdate))
    (Some (Task.progress selectedTaskForUpdate))
    (Some (TaskBody.VBool isCompleted)) None None.

(** The number that [updateCompletionPercentage] shows, followed by [%],
    for the tasks the client holds. *)
Definition updateCompletionPercentage (tasks : list Task.task) : Z :=
  match tasks with
  | [] => 100
  | _ =>
      let totalProgress :=
        fold_left (fun sum task => sum + or_number (Some (Task.progress task)) 0) tasks 0 in
      JSNumber.Math_round (JSNumber.divide totalProgress (Z.of_nat (List.length tasks)))
  end.

(** The two counts that [updateSummaryBlocks] shows over the total. *)
Definition updateSummaryBlocks (tasks : list Task.task) : nat * nat * nat :=
  (List.length tasks,
   List.length (filter Task.completed tasks),
   List.length (filter (fun task => negb (Task.completed task)) tasks)).

End Frontend.

(** ** Concrete tasks, for the examples *)

Module TaskSample.

(** Two tasks of the account with [_id] 7 and one of the account with
    [_id] 8. *)
Definition report : Task.task :=
  Task.mkTask 21 7 "Write report" "09:30" "2026-03-01" "2026-03-01 09:30" 40 false
    "*" "blue".

Definition shopping : Task.task :=
  Task.mkTask 22 8 "Shopping" "18:00" "2026-03-02" "2026-03-02 18:00" 0 false
    "*" "green".

Definition call : Task.task :=
  Task.mkTask 23 7 "Call" "8:15" "2026-03-01" "2026-03-01 8:15" 100 true "*" "pink".

Definition db : tasks := [report; shopping; call].

(** A request for which the new [_id] is 24. *)
Definition ev : env :=
  mkEnv 1000000 999999 (JS.mkDouble 1 2) "salt1" "salt2" 24%nat (Val "<1@todolist.com>").

(** A sort that leaves the documents in the order of the collection. *)
Definition unsorted (sortBy : string) (direction : Z) (l : list Task.task)
  : result (list Task.task) := Val l.

(** A body that completes a task, a body that sends [completed] as the
    string [false], and a body for a new task. *)
Definition complete : TaskBody.t :=
  TaskBody.mk None None None (Some 60) (Some (TaskBody.VBool true)) None None.

Definition not_completed : TaskBody.t :=
  TaskBody.mk None None None None (Some (TaskBody.VString "false")) None None.

Definition new_task : TaskBody.t :=
  TaskBody.mk (Some "  Plan trip ") (Some "7:45") (Some "2026-03-05") None None None None.

End TaskSample.

(** ** The backend, over bcryptjs and jsonwebtoken *)

Section Backend.

Local Open Scope js_scope.

(** [bcrypt.hash(plain, salt)], and [bcrypt.compare(plain, hash)] on two
    strings. *)
Variable bcrypt_hash : string -> string -> string.
Variable bcrypt_compare : string -> string -> bool.

(** [jwt.sign({ id }, secret, { expiresIn })] at a given time. *)
Variable jwt_sign : nat -> Z -> string.

(** bcrypt accepts the password a hash was made from, with any salt. *)
Hypothesis bcrypt_compare_hash :
  forall plain salt, bcrypt_compare plain (bcrypt_hash plain salt) = true.

(** A bcrypt hash is 60 characters long. *)
Hypothesis bcrypt_hash_length :
  forall plain salt, String.length (bcrypt_hash plain salt) = 60%nat.

Definition js_of (o : option string) : JS.jsval :=
  match o with
  | Some s => JS.JString s
  | None => JS.JUndefined
  end.

(** [bcrypt.compare] rejects with [Illegal arguments] unless both
    arguments are strings. *)
Definition bcrypt_compare_js (s h : JS.jsval) : result bool :=
  match s, h with
  | JS.JString plain, JS.JString hashed => Val (bcrypt_compare plain hashed)
  | _, _ => Throw ("Illegal arguments: " ++ JS.typeof s ++ ", " ++ JS.typeof h)
  end.

(** *** Hooks and methods of the schema *)

(** [userSchema.pre('save')]: hash the password when it was modified. *)
Definition pre_save (salt : string) (u : user) : result user :=
  if negb (isModified Ppassword u) then Val u
  else
    match password u with
    | Some plain =>
        Val (mkUser (_id u) (email u) (Some (bcrypt_hash plain salt)) (name u)
               (isVerified u) (verificationOTP u) (verificationOTPExpire u)
               (resetPasswordOTP u) (resetPasswordExpire u) (createdAt u)
               (modified u))
    | None => Throw "Illegal arguments: undefined, string"
    end.

(** [userSchema.methods.comparePassword] *)
Definition comparePassword (u : user) (candidatePassword : JS.jsval) : result bool :=
  match bcrypt_compare_js candidatePassword (js_of (password u)) with
  | Val b => Val b
  | Throw _ => Throw "Password comparison failed"
  end.

(** [Date.now() > expire]; the comparison with [undefined] is false. *)
Definition now_after (now : Z) (expire : option Z) : bool :=
  match expire with
  | Some t => t <? now
  | None => false
  end.

(** The 4-digit code: [Math.floor(1000 + Math.random() * 9000).toString()] *)
Definition new_otp (ev : env) : string :=
  JS.Number_toString (JS.floor_1000_plus_9000_times (Math_random ev)).

(** [userSchema.methods.generateResetOTP]: the code, and [this] afterwards. *)
Definition generateResetOTP (u : user) (ev : env) : string * user :=
  let otp := new_otp ev in
  let u1 := set_resetPasswordOTP (Some (bcrypt_hash otp (otp_salt ev))) u in
  let u2 := set_resetPasswordExpire (Some (Date_now ev + 10 * 60 * 1000)) u1 in
  (otp, u2).

(** [userSchema.methods.verifyResetOTP] *)
Definition verifyResetOTP (u : user) (candidateOTP : JS.jsval) (now : Z) : bool :=
  if now_after now (resetPasswordExpire u) then false
  else
    match bcrypt_compare_js candidateOTP (js_of (resetPasswordOTP u)) with
    | Val b => b
    | Throw _ => false
    end.

(** [userSchema.methods.generateVerificationOTP] *)
Definition generateVerificationOTP (u : user) (ev : env) : string * user :=
  let otp := new_otp ev in
  let u1 := set_verificationOTP (Some (bcrypt_hash otp (otp_salt ev))) u in
  let u2 := set_verificationOTPExpire (Some (Date_now ev + 10 * 60 * 1000)) u1 in
  (otp, u2).

(** [userSchema.methods.verifyVerificationOTP] *)
Definition verifyVerificationOTP (u : user) (candidateOTP : JS.jsval) (now : Z) : bool :=
  if now_after now (verificationOTPExpire u) then false
  else
    match bcrypt_compare_js candidateOTP (js_of (verificationOTP u)) with
    | Val b => b
    | Throw _ => false
    end.

(** *** Writes *)

(** [doc.save()] on a loaded document: validate the paths loaded and the
    paths modified, run the pre-save hook, write the modified paths. *)
Definition save (u : user) (ev : env) : M collection user :=
  fun db =>
    match validate_loaded u with
    | Some err => (db, Throw err)
    | None =>
        match pre_save (genSalt ev) u with
        | Throw err => (db, Throw err)
        | Val u' =>
            match update_by_id u' db with
            | Some db' => (db', Val (clean u'))
            | None => (db, Throw "No document found for query")
            end
        end
    end.

(** [User.create({ email, password, name, isVerified })]: a new document
    goes through the setters, the validators and the pre-save hook, and is
    inserted unless its [_id] or its [email] (unique index) is taken. *)
Definition User_create (mail : string) (pw : JS.jsval) (nm : string)
    (verified : bool) (ev : env) : M collection user :=
  fun db =>
    let u := mkUser (ObjectId ev) (email_setter mail) (cast_string pw) (JS.trim nm)
               verified None None None None (created_now ev)
               [Pemail; Ppassword; Pname; PisVerified] in
    match validate u with
    | Some err => (db, Throw err)
    | None =>
        match pre_save (genSalt ev) u with
        | Throw err => (db, Throw err)
        | Val u' =>
            if existsb (fun d => Nat.eqb (_id d) (_id u') || String.eqb (email d) (email u'))%bool db
            then (db, Throw "E11000 duplicate key error collection: users")
            else ((db ++ [clean u'])%list, Val (clean u'))
        end
    end.

(** *** The mail helpers (utils/email.js) *)

(** [sendVerificationEmail]: its [catch] block also returns [success: true]. *)
Definition sendVerificationEmail (mail otp userName : string) (ev : env) : Email.result :=
  match sendMail ev with
  | Val id => Email.mkResult true (Some id) None
  | Throw msg => Email.mkResult true None (Some msg)
  end.

(** [sendPasswordResetEmail] *)
Definition sendPasswordResetEmail (mail otp userName : string) (ev : env) : Email.result :=
  match sendMail ev with
  | Val id => Email.mkResult true (Some id) None
  | Throw msg => Email.mkResult false None (Some msg)
  end.

(** [generateToken(userId)] of middleware/auth.js *)
Definition generateToken (userId : nat) (ev : env) : string :=
  jwt_sign userId (Date_now ev).

(** *** The routes (routes/auth.js)

    Each handler takes the fields of [req.body] and the [env] of the
    request, and maps the collection to the collection afterwards and the
    response sent. *)

(** [!v] on a string that may be [undefined]. *)
Definition falsy (o : option string) : bool :=
  match o with
  | Some s => String.eqb s ""
  | None => true
  end.

(** [req.body.name || email.split('@')[0].toUpperCase()] *)
Definition signup_name (mail : string) (nm : option string) : string :=
  if falsy nm then JS.toUpperCase (JS.split_head "@" mail)
  else match nm with Some s => s | None => "" end.

(** [POST /api/auth/signup], with the helper that sends the code. *)
Definition signup_with (send : string -> string -> string -> env -> Email.result)
    (mail : string) (pw : JS.jsval) (nm : option string) (ev : env)
  : collection -> collection * response :=
  try_catch
    (existingUser <- User_findOne mail [] ;;
     match existingUser with
     | Some _ => ret (json 400 false "User with this email already exists")
     | None =>
         let name := signup_name mail nm in
         user <- User_create mail pw name false ev ;;
         let (otp, user) := generateVerificationOTP user ev in
         user <- save user ev ;;
         let emailResult := send mail otp name ev in
         if negb (Email.success emailResult) then
           User_findByIdAndDelete (_id user) ;;;
           ret (json 500 false
                  "Error sending verification email. Please check your email address and try again.")
         else
           ret (json_data 201 true
                  "User registered. Please check your email for the verification code."
                  (Registered (email user) false))
     end)
    (json_error 500 "Error creating user").

Definition signup := signup_with sendVerificationEmail.

(** [POST /api/auth/verify-email]; the welcome mail is sent without being
    awaited and changes neither the collection nor the response. *)
Definition verify_email (mail : string) (otp : JS.jsval) (ev : env)
  : collection -> collection * response :=
  try_catch
    (user <- User_findOne mail [PverificationOTP; PverificationOTPExpire] ;;
     match user with
     | None => ret (json 400 false "Invalid email")
     | Some user =>
         if isVerified user then ret (json 400 false "User already verified")
         else if negb (verifyVerificationOTP user otp (Date_now ev))
         then ret (json 400 false "Invalid or expired OTP")
         else
           let user := set_isVerified true user in
           let user := set_verificationOTP None user in
           let user := set_verificationOTPExpire None user in
           user <- save user ev ;;
           let token := generateToken (_id user) ev in
           ret (json_data 200 true "Email verified successfully"
                  (Session token (_id user) (email user) (name user)))
     end)
    (json_error 500 "Error verifying email").

(** [POST /api/auth/login] *)
Definition login (mail : string) (pw : JS.jsval) (ev : env)
  : collection -> collection * response :=
  try_catch
    (user <- User_findOne mail [Ppassword] ;;
     match user with
     | None => ret (json 401 false "Invalid email or password")
     | Some user =>
         isPasswordValid <- lift (comparePassword user pw) ;;
         if negb isPasswordValid then ret (json 401 false "Invalid email or password")
         else if negb (isVerified user) then
           ret (json_data 403 false "Email not verified. Please verify your email."
                  (NeedsVerification (email user)))
         else
           let token := generateToken (_id user) ev in
           ret (json_data 200 true "Login successful"
                  (Session token (_id user) (email user) (name user)))
     end)
    (json_error 500 "Error logging in").

(** [POST /api/auth/forgot-password] *)
Definition forgot_password (mail : string) (ev : env)
  : collection -> collection * response :=
  try_catch
    (user <- User_findOne mail [] ;;
     match user with
     | None =>
         ret (json 200 true "If an account exists with this email, an OTP has been sent")
     | Some user =>
         let (otp, user) := generateResetOTP user ev in
         user <- save user ev ;;
         let emailResult := sendPasswordResetEmail mail otp (name user) ev in
         if negb (Email.success emailResult) then
           ret (json 500 false "Error sending email. Please try again later.")
         else
           ret (json_data 200 true "OTP sent to your email. Valid for 10 minutes."
                  (SentTo mail))
     end)
    (json_error 500 "Error processing request").

(** [POST /api/auth/verify-otp] *)
Definition verify_otp (mail : string) (otp : JS.jsval) (ev : env)
  : collection -> collection * response :=
  try_catch
    (user <- User_findOne mail [PresetPasswordOTP; PresetPasswordExpire] ;;
     match user with
     | None => ret (json 400 false "Invalid or expired OTP")
     | Some user =>
         if falsy (resetPasswordOTP user) then ret (json 400 false "Invalid or expired OTP")
         else if negb (verifyResetOTP user otp (Date_now ev))
         then ret (json 400 false "Invalid or expired OTP")
         else ret (json 200 true "OTP verified successfully")
     end)
    (json_error 500 "Error verifying OTP").

(** [POST /api/auth/reset-password] *)
Definition reset_password (mail : string) (otp newPassword : JS.jsval) (ev : env)
  : collection -> collection * response :=
  try_catch
    (user <- User_findOne mail [PresetPasswordOTP; PresetPasswordExpire] ;;
     match user with
     | None => ret (json 400 false "Invalid or expired OTP")
     | Some user =>
         if falsy (resetPasswordOTP user) then ret (json 400 false "Invalid or expired OTP")
         else if negb (verifyResetOTP user otp (Date_now ev))
         then ret (json 400 false "Invalid or expired OTP")
         else
           let user := set_password (cast_string newPassword) user in
           let user := set_resetPasswordOTP None user in
           let user := set_resetPasswordExpire None user in
           save user ev ;;;
           ret (json 200 true
                  "Password reset successful. You can now login with your new password.")
     end)
    (json_error 500 "Error resetting password").


(** The stored document after a successful reset-password: the new hash,
    no reset challenge, everything else as it was. *)
Definition after_reset (d : user) (hashed : string) : user :=
  mkUser (_id d) (email d) (Some hashed) (name d) (isVerified d)
    (verificationOTP d) (verificationOTPExpire d) None None (createdAt d) [].

(** The stored document after forgot-password: a new reset challenge,
    everything else as it was. *)
Definition with_reset_challenge (d : user) (hashed : string) (expire : Z) : user :=
  mkUser (_id d) (email d) (password d) (name d) (isVerified d)
    (verificationOTP d) (verificationOTPExpire d) (Some hashed) (Some expire)
    (createdAt d) [].

(** The stored document after a successful verify-email: verified, no
    verification challenge, everything else as it was. *)
Definition after_verify (d : user) : user :=
  mkUser (_id d) (email d) (password d) (name d) true None None
    (resetPasswordOTP d) (resetPasswordExpire d) (createdAt d) [].

(** What [save] makes of a stored document: the document with the [_id] of
    [mem] takes the modified paths of [mem]. *)
Definition written (mem x : user) : user :=
  if Nat.eqb (_id x) (_id mem) then merge mem x else x.

(** The unique index on [email]. *)
Fixpoint unique_emails (db : collection) : bool :=
  match db with
  | [] => true
  | d :: rest =>
      negb (existsb (fun x => String.eqb (email x) (email d)) rest) && unique_emails rest
  end.

(** What the schema asks of a stored account: an e-mail that matches the
    pattern, a name, and a bcrypt hash as password. *)
Definition valid_account (d : user) : bool :=
  Regex.test email_regex (email d) &&
  negb (String.eqb (name d) "") &&
  match password d with
  | Some hashed => Nat.eqb (String.length hashed) 60
  | None => false
  end.

Definition well_formed (db : collection) : bool :=
  unique_ids db && unique_emails db && forallb valid_account db.

(** The collection with the account [d] replaced by [new]. *)
Definition replace_account (d new : user) (db : collection) : collection :=
  map (fun x => if Nat.eqb (_id x) (_id d) then new else x) db.

(** *** The authentication gate (middleware/auth.js) and account deletion *)

(** [jwt.verify(token, secret)] at a given time, and the lifetime of a
    token in seconds ([config.jwtExpire], 7 days unless configured). *)
Variable jwt_verify : string -> Z -> jwt_result.
Variable jwtExpire : Z.

(** A token is accepted, with the [id] it was signed for, until the clock
    (in seconds) reaches the time of issue plus the lifetime; from then on
    it is refused as expired. *)
Hypothesis jwt_verify_sign :
  forall id iat now,
    now / 1000 < iat / 1000 + jwtExpire ->
    jwt_verify (jwt_sign id iat) now = JwtOk id.

Hypothesis jwt_verify_expired :
  forall id iat now,
    iat / 1000 + jwtExpire <= now / 1000 ->
    jwt_verify (jwt_sign id iat) now = JwtError "TokenExpiredError".

(** A token is not empty and holds no space. *)
Hypothesis jwt_sign_shape :
  forall id iat,
    jwt_sign id iat <> "" /\
    JS.all_chars (fun c => negb (Ascii.eqb c " ")) (jwt_sign id iat) = true.

(** [User.findById(id)] *)
Definition User_findById (id : nat) (db : collection) : option user :=
  find (fun d => Nat.eqb (_id d) id) db.

(** The token of the request: the second piece of an [Authorization]
    header that starts with [Bearer]. *)
Definition bearer_token (authorization : option string) : option string :=
  match authorization with
  | Some header =>
      if negb (String.eqb header "") && String.prefix "Bearer" header
      then nth_error (String_split " " header) 1
      else None
  | None => None
  end.

(** [protect]: [deny] stands for the response sent without calling
    [next()], [next] for the rest of the route with [req.user] set. *)
Definition protect {A : Type} (authorization : option string) (ev : env)
    (db : collection) (deny : response -> A) (next : user -> A) : A :=
  match bearer_token authorization with
  | None => deny (json 401 false "Not authorized to access this route. Please login.")
  | Some token =>
      if String.eqb token ""
      then deny (json 401 false "Not authorized to access this route. Please login.")
      else
        match jwt_verify token (Date_now ev) with
        | JwtOk id =>
            match User_findById id db with
            | Some d => next (project [] d)
            | None => deny (json 401 false "User not found. Please login again.")
            end
        | JwtError name =>
            if String.eqb name "JsonWebTokenError"
            then deny (json 401 false "Invalid token. Please login again.")
            else if String.eqb name "TokenExpiredError"
            then deny (json 401 false "Token expired. Please login again.")
            else deny (json 500 false "Authentication failed")
        end
  end.

(** [DELETE /api/auth/delete] *)
Definition delete_account (authorization : option string) (ev : env)
  : collection -> collection * response :=
  fun db =>
    protect authorization ev db
      (fun r => (db, r))
      (fun req_user =>
         try_catch
           (User_findByIdAndDelete (_id req_user) ;;;
            ret (json 200 true "Account deleted successfully"))
           (json_error 500 "Error deleting account") db).

(** *** The task routes (routes/tasks.js)

    Each handler takes the parameters of the request and [req.user], which
    [protect] has set, and maps the [tasks] collection to the collection
    afterwards and the response sent. *)

(** [Task.find(query).sort({ [sortBy]: direction })] puts the documents
    found in some order, or fails (on a field name that MongoDB refuses). *)
Variable Task_sort : string -> Z -> list Task.task -> result (list Task.task).

Hypothesis Task_sort_Permutation :
  forall sortBy direction l l',
    Task_sort sortBy direction l = Val l' -> Permutation l l'.

Definition task_json (st : Z) (ok : bool) (msg : string) : Task.response :=
  Task.mkResponse st ok (Some msg) Task.NoData.

Definition task_json_data (st : Z) (msg : string) (d : Task.payload) : Task.response :=
  Task.mkResponse st true (Some msg) d.

(** The filter that GET /api/tasks builds from [req.query]. *)
Definition tasks_query (q : TaskQuery.t) (uid : nat) (t : Task.task) : bool :=
  Nat.eqb (Task.userId t) uid &&
  match TaskQuery.completed q with
  | Some c => Bool.eqb (Task.completed t) (String.eqb c "true")
  | None => true
  end &&
  match TaskQuery.date q with
  | Some d => String.eqb d "" || String.eqb (Task.date t) d
  | None => true
  end.

(** [GET /api/tasks] *)
Definition get_tasks (q : TaskQuery.t) (req_user : user)
  : tasks -> tasks * Task.response :=
  try_catch
    (let sortBy := match TaskQuery.sortBy q with Some s => s | None => "createdAt" end in
     let order := match TaskQuery.order q with Some s => s | None => "desc" end in
     found <- (fun db =>
                 (db, Task_sort sortBy (if String.eqb order "asc" then 1 else -1)
                        (filter (tasks_query q (_id req_user)) db))) ;;
     ret (Task.mkResponse 200 true None (Task.Many (List.length found) found)))
    (fun _ => task_json 500 false "Error fetching tasks").

(** [GET /api/tasks/:id] *)
Definition get_task (id : option nat) (req_user : user)
  : tasks -> tasks * Task.response :=
  try_catch
    (task <- Task_findOne id (_id req_user) ;;
     match task with
     | None => ret (task_json 404 false "Task not found")
     | Some t => ret (Task.mkResponse 200 true None (Task.One t))
     end)
    (fun _ => task_json 500 false "Error fetching task").

(** [POST /api/tasks] *)
Definition create_task (b : TaskBody.t) (ev : env) (req_user : user)
  : tasks -> tasks * Task.response :=
  try_catch
    (let deadline :=
       (template (TaskBody.date b) ++ " " ++ template (TaskBody.time b))%string in
     task <- Task_create (_id req_user) (TaskBody.name b) (TaskBody.time b)
               (TaskBody.date b) deadline
               (or_number (TaskBody.progress b) 0)
               (or_value (TaskBody.completed b) false)
               (or_string (TaskBody.icon b) route_icon)
               (or_string (TaskBody.color b) "purple") ev ;;
     ret (task_json_data 201 "Task created successfully" (Task.One task)))
    (fun _ => task_json 500 false "Error creating task").

(** The assignments of PUT /api/tasks/:id to the document it has loaded. *)
Definition update_fields (b : TaskBody.t) (task : Task.task) : Task.task :=
  let task := assign Task_set_name (TaskBody.name b) task in
  let task := assign Task_set_time (TaskBody.time b) task in
  let task := assign Task_set_date (TaskBody.date b) task in
  let task := assign Task_set_progress (TaskBody.progress b) task in
  let task := assign Task_cast_completed (TaskBody.completed b) task in
  let task := assign Task_set_icon (TaskBody.icon b) task in
  let task := assign Task_set_color (TaskBody.color b) task in
  let task :=
    match TaskBody.time b, TaskBody.date b with
    | None, None => task
    | _, _ =>
        Task_set_deadline (Task.date task ++ " " ++ Task.time task)%string task
    end in
  match TaskBody.completed b with
  | Some c => Task_set_progress (if truthy c then 100 else Task.progress task) task
  | None => task
  end.

(** [PUT /api/tasks/:id] *)
Definition update_task (id : option nat) (b : TaskBody.t) (req_user : user)
  : tasks -> tasks * Task.response :=
  try_catch
    (task <- Task_findOne id (_id req_user) ;;
     match task with
     | None => ret (task_json 404 false "Task not found")
     | Some old =>
         let task := update_fields b old in
         saved <- (if castError (TaskBody.completed b) then throw "ValidationError"
                   else Task_save task) ;;
         ret (task_json_data 200 "Task updated successfully" (Task.One saved))
     end)
    (fun _ => task_json 500 false "Error updating task").

(** [DELETE /api/tasks/:id] *)
Definition delete_task (id : option nat) (req_user : user)
  : tasks -> tasks * Task.response :=
  try_catch
    (task <- Task_findOneAndDelete id (_id req_user) ;;
     match task with
     | None => ret (task_json 404 false "Task not found")
     | Some t => ret (task_json_data 200 "Task deleted successfully" (Task.One t))
     end)
    (fun _ => task_json 500 false "Error deleting task").

(** [POST /api/tasks/bulk-delete]; [taskIds] is [None] when the field is
    missing or is no array. *)
Definition bulk_delete (taskIds : option (list (option nat))) (req_user : user)
  : tasks -> tasks * Task.response :=
  try_catch
    (match taskIds with
     | None | Some [] => ret (task_json 400 false "Please provide an array of task IDs")
     | Some ids =>
         deletedCount <- Task_deleteMany ids (_id req_user) ;;
         ret (task_json_data 200
                (JS.Number_toString (Z.of_nat deletedCount) ++ " task(s) deleted successfully")
                (Task.Deleted deletedCount))
     end)
    (fun _ => task_json 500 false "Error deleting tasks").

(** [GET /api/tasks/stats/summary] *)
Definition stats_summary (req_user : user) : tasks -> tasks * Task.response :=
  try_catch
    (allTasks <- (fun db => (db, Val (filter (fun t => Nat.eqb (Task.userId t) (_id req_user)) db))) ;;
     let totalTasks := List.length allTasks in
     let completedTasks := List.length (filter Task.completed allTasks) in
     let inProgressTasks :=
       List.length (filter (fun t => negb (Task.completed t) && (0 <? Task.progress t)) allTasks) in
     let pendingTasks :=
       List.length (filter (fun t => negb (Task.completed t) && (Task.progress t =? 0)) allTasks) in
     let completionPercentage :=
       if (0 <? totalTasks)%nat
       then JSNumber.Math_round
              (JSNumber.times (JSNumber.divide (Z.of_nat completedTasks) (Z.of_nat totalTasks)) 100)
       else 0 in
     ret (Task.mkResponse 200 true None
            (Task.Summary totalTasks completedTasks inProgressTasks pendingTasks
               completionPercentage)))
    (fun _ => task_json 500 false "Error fetching statistics").

(** [router.use(protect)]: a task route behind the authentication gate. *)
Definition protected (authorization : option string) (ev : env) (users : collection)
    (route : user -> tasks -> tasks * Task.response) : tasks -> tasks * Task.response :=
  fun db =>
    protect authorization ev users
      (fun r => (db, task_json (status r) (success r) (message r)))
      (fun req_user => route req_user db).

(** The requests that the router of routes/tasks.js serves. *)
Inductive task_request :=
| GetTasks (q : TaskQuery.t)
| GetTask (id : option nat)
| CreateTask (b : TaskBody.t)
| UpdateTask (id : option nat) (b : TaskBody.t)
| DeleteTask (id : option nat)
| BulkDelete (taskIds : option (list (option nat)))
| StatsSummary.

Definition task_route (r : task_request) (ev : env) (req_user : user)
  : tasks -> tasks * Task.response :=
  match r with
  | GetTasks q => get_tasks q req_user
  | GetTask id => get_task id req_user
  | CreateTask b => create_task b ev req_user
  | UpdateTask id b => update_task id b req_user
  | DeleteTask id => delete_task id req_user
  | BulkDelete taskIds => bulk_delete taskIds req_user
  | StatsSummary => stats_summary req_user
  end.

(** A request to /api/tasks: the gate, then the route. *)
Definition tasks_router (authorization : option string) (r : task_request) (ev : env)
    (users : collection) : tasks -> tasks * Task.response :=
  protected authorization ev users (task_route r ev).

(** The tasks of a user, and the tasks of everybody else. *)
Definition owned (uid : nat) (t : Task.task) : bool := Nat.eqb (Task.userId t) uid.

Definition tasks_of (uid : nat) (db : tasks) : tasks := filter (owned uid) db.

Definition tasks_of_others (uid : nat) (db : tasks) : tasks :=
  filter (fun t => negb (owned uid t)) db.

(** The [_id] index of the [tasks] collection. *)
Fixpoint Task_unique_ids (db : tasks) : bool :=
  match db with
  | [] => true
  | t :: rest =>
      negb (existsb (fun x => Nat.eqb (Task._id x) (Task._id t)) rest) && Task_unique_ids rest
  end.

(** What the schema and the routes ask of a stored task. *)
Definition task_ok (t : Task.task) : bool :=
  String.eqb (Task.deadline t) (Task.date t ++ " " ++ Task.time t) &&
  negb (String.eqb (Task.name t) "") &&
  negb (String.eqb (Task.time t) "") &&
  negb (String.eqb (Task.date t) "") &&
  Task.valid_progress (Task.progress t) &&
  Task.valid_color (Task.color t).

Definition tasks_well_formed (db : tasks) : bool :=
  Task_unique_ids db && forallb task_ok db.

(** The tasks that a response carries. *)
Definition tasks_sent (r : Task.response) : list Task.task :=
  match Task.data r with
  | Task.One t => [t]
  | Task.Many _ l => l
  | _ => []
  end.

(** ** Facts about the JavaScript primitives *)

Local Open Scope list_scope.

(** *** Rounding *)

Lemma pow2_pos (s : Z) : 0 <= s -> 0 < 2 ^ s.
Proof. intros; apply Z.pow_pos_nonneg; lia. Qed.

Lemma rne_lower (n s a : Z) : 0 <= s -> a * 2 ^ s <= n -> a <= JS.rne n s.
Proof.
  intros Hs Ha. pose proof (pow2_pos s Hs) as Hd.
  pose proof (Z.div_mod n (2 ^ s) ltac:(lia)) as Hn.
  pose proof (Z.mod_pos_bound n (2 ^ s) Hd) as Hr.
  unfold JS.rne.
  destruct (2 * (n mod 2 ^ s) <? 2 ^ s); [nia|].
  destruct (2 ^ s <? 2 * (n mod 2 ^ s)); [nia|].
  destruct (Z.even (n / 2 ^ s)); nia.
Qed.

Lemma rne_upper_half (n s b : Z) :
  0 <= s -> 2 * n < (2 * b + 1) * 2 ^ s -> JS.rne n s <= b.
Proof.
  intros Hs Hb. pose proof (pow2_pos s Hs) as Hd.
  pose proof (Z.div_mod n (2 ^ s) ltac:(lia)) as Hn.
  pose proof (Z.mod_pos_bound n (2 ^ s) Hd) as Hr.
  unfold JS.rne.
  destruct (2 * (n mod 2 ^ s) <? 2 ^ s) eqn:E1; [apply Z.ltb_lt in E1; nia|].
  apply Z.ltb_ge in E1.
  destruct (2 ^ s <? 2 * (n mod 2 ^ s)) eqn:E2; [apply Z.ltb_lt in E2; nia|].
  apply Z.ltb_ge in E2.
  destruct (Z.even (n / 2 ^ s)); nia.
Qed.

Lemma rne_upper (n s b : Z) : 0 <= s -> n <= b * 2 ^ s -> JS.rne n s <= b.
Proof.
  intros Hs Hb. pose proof (pow2_pos s Hs). apply rne_upper_half; [assumption|nia].
Qed.

Lemma round53_rne (n : Z) :
  JS.round53 n = JS.rne n (JS.dropped_bits n) * 2 ^ JS.dropped_bits n.
Proof.
  unfold JS.round53, JS.dropped_bits.
  destruct (Z.log2 n - 52 <=? 0) eqn:E.
  - apply Z.leb_le in E. rewrite Z.max_l by lia.
    unfold JS.rne. rewrite Z.pow_0_r, Z.div_1_r, Z.mod_1_r. simpl. lia.
  - apply Z.leb_gt in E. rewrite Z.max_r by lia. reflexivity.
Qed.

Lemma dropped_bits_le (n t : Z) : 0 <= t -> n < 2 ^ 53 * 2 ^ t -> JS.dropped_bits n <= t.
Proof.
  intros Ht Hn. unfold JS.dropped_bits.
  destruct (Z.le_gt_cases n 0) as [Hle|Hpos].
  - rewrite (Z.log2_nonpos n Hle). lia.
  - rewrite <- Z.pow_add_r in Hn by lia.
    apply Z.log2_lt_pow2 in Hn; lia.
Qed.

Lemma dropped_bits_ge (n t : Z) : 0 <= t -> 2 ^ 52 * 2 ^ t <= n -> t <= JS.dropped_bits n.
Proof.
  intros Ht Hn. unfold JS.dropped_bits.
  rewrite <- Z.pow_add_r in Hn by lia.
  assert (0 < n) by (pose proof (pow2_pos (52 + t)); lia).
  apply Z.log2_le_pow2 in Hn; lia.
Qed.

(** A multiple of [2^t] is a multiple of [2^s] for [s <= t]. *)
Lemma multiple_pow2 (c s t : Z) : 0 <= s <= t -> c * 2 ^ t = (c * 2 ^ (t - s)) * 2 ^ s.
Proof.
  intros H. rewrite <- Z.mul_assoc, <- Z.pow_add_r by lia. f_equal. f_equal. lia.
Qed.

Lemma dropped_bits_nonneg (n : Z) : 0 <= JS.dropped_bits n.
Proof. unfold JS.dropped_bits; lia. Qed.

(** Rounding does not cross a value that is representable at the
    precision of [n]. *)
Lemma round53_le (n c t : Z) :
  0 <= t -> n < 2 ^ 53 * 2 ^ t -> n <= c * 2 ^ t -> JS.round53 n <= c * 2 ^ t.
Proof.
  intros Ht Hn Hc. pose proof (dropped_bits_le n t Ht Hn) as Hs.
  pose proof (dropped_bits_nonneg n) as Hs0.
  rewrite round53_rne, (multiple_pow2 c (JS.dropped_bits n) t) in * by lia.
  pose proof (pow2_pos (JS.dropped_bits n) Hs0).
  apply Z.mul_le_mono_nonneg_r; [lia|]. apply rne_upper; lia.
Qed.

Lemma round53_ge (n c t : Z) :
  0 <= t -> n < 2 ^ 53 * 2 ^ t -> c * 2 ^ t <= n -> c * 2 ^ t <= JS.round53 n.
Proof.
  intros Ht Hn Hc. pose proof (dropped_bits_le n t Ht Hn) as Hs.
  pose proof (dropped_bits_nonneg n) as Hs0.
  rewrite round53_rne, (multiple_pow2 c (JS.dropped_bits n) t) in * by lia.
  pose proof (pow2_pos (JS.dropped_bits n) Hs0).
  apply Z.mul_le_mono_nonneg_r; [lia|]. apply rne_lower; lia.
Qed.

(** In the binade whose unit is [2^t], a value less than half a unit
    above [c * 2^t] rounds to at most [c * 2^t]. *)
Lemma round53_le_half (n c t : Z) :
  0 <= t -> 2 ^ 52 * 2 ^ t <= n < 2 ^ 53 * 2 ^ t ->
  2 * n < (2 * c + 1) * 2 ^ t -> JS.round53 n <= c * 2 ^ t.
Proof.
  intros Ht [Hlo Hhi] Hc.
  assert (JS.dropped_bits n = t) as Hs
    by (pose proof (dropped_bits_le n t Ht Hhi); pose proof (dropped_bits_ge n t Ht Hlo); lia).
  rewrite round53_rne, Hs. pose proof (pow2_pos t Ht).
  apply Z.mul_le_mono_nonneg_r; [lia|]. apply rne_upper_half; lia.
Qed.

Lemma round53_exact (n : Z) : n < 2 ^ 53 -> JS.round53 n = n.
Proof.
  intros Hn. unfold JS.round53.
  destruct (Z.le_gt_cases n 0) as [Hle|Hpos].
  - rewrite (Z.log2_nonpos n Hle). reflexivity.
  - apply Z.log2_lt_pow2 in Hn; [|assumption].
    destruct (Z.log2 n - 52 <=? 0) eqn:E; [reflexivity|apply Z.leb_gt in E; lia].
Qed.

(** *** The four-digit code *)

(** [Math.floor(1000 + Math.random() * 9000)] lies between 1000 and 9999,
    roundings included. *)
Lemma floor_1000_plus_9000_times_range (r : JS.double) :
  JS.unit_double r -> 1000 <= JS.floor_1000_plus_9000_times r <= 9999.
Proof.
  destruct r as [m e]. unfold JS.unit_double, JS.floor_1000_plus_9000_times. cbn [JS.mant JS.expo].
  intros [[Hm0 Hm53] [[He0 He] Hm]].
  pose proof (pow2_pos e He0) as HU.
  assert (1000 * 2 ^ e <= JS.round53 (1000 * 2 ^ e + JS.round53 (m * 9000))
          < 10000 * 2 ^ e) as [Hlo Hhi].
  2:{ split.
      - apply Z.div_le_lower_bound; lia.
      - assert (JS.round53 (1000 * 2 ^ e + JS.round53 (m * 9000)) / 2 ^ e < 10000);
          [apply Z.div_lt_upper_bound; lia | lia]. }
  destruct (Z.lt_ge_cases e 39) as [Hsmall|Hbig].
  - (* every intermediate value is below 2^53: nothing is rounded *)
    assert (2 ^ e * 2 ^ 14 <= 2 ^ 53) as Hp
      by (rewrite <- Z.pow_add_r by lia; apply Z.pow_le_mono_r; lia).
    rewrite (round53_exact (m * 9000)) by lia.
    rewrite round53_exact by lia. lia.
  - set (t := e - 39). set (g := 2 ^ t).
    assert (0 <= t) as Ht by (unfold t; lia).
    assert (0 < g) as Hg by (apply pow2_pos; assumption).
    assert (2 ^ e = 2 ^ 39 * g) as HUg
      by (unfold g, t; rewrite <- Z.pow_add_r by lia; f_equal; lia).
    assert (g <= 2 ^ 14 \/ 2 ^ 53 * 2 <= 2 ^ e) as Hcase.
    { destruct (Z.le_gt_cases e 53).
      - left. unfold g, t. apply Z.pow_le_mono_r; lia.
      - right. change (2 ^ 53 * 2) with (2 ^ 54). apply Z.pow_le_mono_r; lia. }
    rewrite HUg in *. fold g in HUg.
    set (P := m * 9000) in *. set (P' := JS.round53 P) in *.
    assert (0 <= P') as HP0.
    { pose proof (round53_ge P 0 t Ht) as H. fold g in H. unfold P in *.
      change (2 ^ 53) with 9007199254740992 in *.
      change (2 ^ 39) with 549755813888 in *. lia. }
    assert (P' <= 9000 * 2 ^ 39 * g) as HP1.
    { pose proof (round53_le P (9000 * 2 ^ 39) t Ht) as H. fold g in H. unfold P in *.
      change (2 ^ 53) with 9007199254740992 in *.
      change (2 ^ 39) with 549755813888 in *. lia. }
    set (S := 1000 * (2 ^ 39 * g) + P') in *.
    split.
    + pose proof (round53_ge S (1000 * 2 ^ 39) t Ht) as H. fold g in H. unfold S in *.
      change (2 ^ 53) with 9007199254740992 in *.
      change (2 ^ 39) with 549755813888 in *. lia.
    + destruct (Z.lt_ge_cases S (2 ^ 52 * g)) as [HS|HS].
      * (* the sum is below 8192: it rounds to at most 8192 *)
        pose proof (round53_le S (2 ^ 52) t Ht) as H. fold g in H.
        change (2 ^ 53) with 9007199254740992 in *.
        change (2 ^ 52) with 4503599627370496 in *.
        change (2 ^ 39) with 549755813888 in *. lia.
      * (* the sum is in the binade of 10000, whose unit is g *)
        assert (P' <= (9000 * 2 ^ 39 - 1) * g) as HP2.
        { destruct (Z.lt_ge_cases P (2 ^ 52 * g)) as [HP|HP].
          - pose proof (round53_le P (2 ^ 52) t Ht) as H. fold g in H. fold P' in H.
            change (2 ^ 53) with 9007199254740992 in *.
            change (2 ^ 52) with 4503599627370496 in *.
            change (2 ^ 39) with 549755813888 in *. lia.
          - pose proof (round53_le_half P (9000 * 2 ^ 39 - 1) t Ht) as H.
            fold g in H. fold P' in H. unfold P in *.
            change (2 ^ 53) with 9007199254740992 in *.
            change (2 ^ 52) with 4503599627370496 in *.
            change (2 ^ 39) with 549755813888 in *.
            change (2 ^ 14) with 16384 in *. lia. }
        pose proof (round53_le_half S (10000 * 2 ^ 39 - 1) t Ht) as H. fold g in H.
        unfold S in *.
        change (2 ^ 53) with 9007199254740992 in *.
        change (2 ^ 52) with 4503599627370496 in *.
        change (2 ^ 39) with 549755813888 in *. lia.
Qed.

Lemma Number_toString_four_digits (n : Z) :
  1000 <= n <= 9999 ->
  JS.is_otp (JS.Number_toString n) = true /\
  JS.leading_zero (JS.Number_toString n) = false /\
  JS.parse_digits 0 (JS.Number_toString n) = Some n.
Proof.
  intros Hn.
  assert (forallb
            (fun k => let v := 1000 + Z.of_nat k in
                      JS.is_otp (JS.Number_toString v) &&
                      negb (JS.leading_zero (JS.Number_toString v)) &&
                      match JS.parse_digits 0 (JS.Number_toString v) with
                      | Some w => w =? v
                      | None => false
                      end)%bool
            (seq 0 (Z.to_nat 9000)) = true) as Hall by (vm_compute; reflexivity).
  rewrite forallb_forall in Hall.
  specialize (Hall (Z.to_nat (n - 1000))).
  rewrite in_seq in Hall. specialize (Hall ltac:(lia)).
  cbv zeta in Hall. replace (1000 + Z.of_nat (Z.to_nat (n - 1000))) with n in Hall by lia.
  apply andb_true_iff in Hall. destruct Hall as [H1 H3].
  apply andb_true_iff in H1. destruct H1 as [H1 H2].
  apply negb_true_iff in H2. split; [exact H1|]. split; [exact H2|].
  destruct (JS.parse_digits 0 (JS.Number_toString n)); [|discriminate].
  apply Z.eqb_eq in H3. congruence.
Qed.

Lemma is_otp_length (s : string) : JS.is_otp s = true -> String.length s = 4%nat.
Proof.
  unfold JS.is_otp. intros H.
  apply andb_true_iff in H. destruct H as [H _].
  apply andb_true_iff in H. destruct H as [H _].
  apply Nat.eqb_eq in H. exact H.
Qed.

Lemma new_otp_is_otp (ev : env) :
  JS.unit_double (Math_random ev) -> JS.is_otp (new_otp ev) = true.
Proof.
  intros H. unfold new_otp.
  apply Number_toString_four_digits, floor_1000_plus_9000_times_range, H.
Qed.

(** A bcrypt hash is never the four-character code it was made from. *)
Lemma hash_differs_from_otp (otp salt : string) :
  JS.is_otp otp = true -> bcrypt_hash otp salt <> otp.
Proof.
  intros H E. apply is_otp_length in H.
  pose proof (bcrypt_hash_length otp salt) as L. rewrite E, H in L. discriminate.
Qed.

(** ** Facts about the collection *)

Lemma stored_email (mail : string) (db : collection) (d : user) :
  stored mail db = Some d -> In d db /\ email d = email_setter mail.
Proof.
  unfold stored. intros H. apply find_some in H. destruct H as [Hin He].
  apply String.eqb_eq in He. auto.
Qed.

Lemma merge_email (mem d : user) :
  isModified Pemail mem = false -> email (merge mem d) = email d.
Proof. intros H. unfold merge. cbn. rewrite H. reflexivity. Qed.

(** Saving a loaded document rewrites the stored document it was loaded
    from, and the same filter finds the rewritten document. *)
Lemma update_by_id_stored (mem : user) (mail : string) (db : collection) (d : user) :
  unique_ids db = true -> stored mail db = Some d ->
  _id mem = _id d -> isModified Pemail mem = false ->
  exists db', update_by_id mem db = Some db' /\ stored mail db' = Some (merge mem d).
Proof.
  intros Hu Hs Hid Hmod. unfold stored in *.
  induction db as [|x rest IH]; [discriminate|].
  cbn [find] in Hs. cbn [unique_ids] in Hu. apply andb_true_iff in Hu.
  destruct Hu as [Hx Hrest]. apply negb_true_iff in Hx.
  cbn [update_by_id].
  destruct (String.eqb (email x) (email_setter mail)) eqn:Ex.
  - injection Hs as ->. rewrite Hid, Nat.eqb_refl.
    eexists; split; [reflexivity|]. cbn [find].
    rewrite (merge_email _ _ Hmod), Ex. reflexivity.
  - assert (Nat.eqb (_id x) (_id mem) = false) as Hne.
    { apply Nat.eqb_neq. intros E. apply find_some in Hs. destruct Hs as [Hin _].
      assert (existsb (fun y => Nat.eqb (_id y) (_id x)) rest = true) as C.
      { apply existsb_exists. exists d. split; [exact Hin|]. apply Nat.eqb_eq. congruence. }
      congruence. }
    rewrite Hne. destruct (IH Hrest Hs) as [db' [Hup Hf]].
    rewrite Hup. eexists; split; [reflexivity|]. cbn [find]. rewrite Ex. exact Hf.
Qed.

Lemma delete_by_id_app (id : nat) (db : collection) (u : user) :
  existsb (fun d => Nat.eqb (_id d) id) db = false -> _id u = id ->
  delete_by_id id (db ++ [u]) = db.
Proof.
  intros Hfree Hu. induction db as [|x rest IH]; cbn.
  - rewrite Hu, Nat.eqb_refl. reflexivity.
  - cbn in Hfree. apply orb_false_iff in Hfree. destruct Hfree as [Hx Hrest].
    rewrite Hx. f_equal. apply IH, Hrest.
Qed.

Lemma update_by_id_app (mem : user) (db : collection) (u : user) :
  existsb (fun d => Nat.eqb (_id d) (_id mem)) db = false -> _id u = _id mem ->
  update_by_id mem (db ++ [u]) = Some (db ++ [merge mem u]).
Proof.
  intros Hfree Hu. induction db as [|x rest IH]; cbn.
  - rewrite Hu, Nat.eqb_refl. reflexivity.
  - cbn in Hfree. apply orb_false_iff in Hfree. destruct Hfree as [Hx Hrest].
    rewrite Hx, (IH Hrest). reflexivity.
Qed.

(** What a successful [User.create] has done: the document appended is the
    one returned, with the setters applied and the password hashed. *)
(** *** Validation *)

Lemma validate_loaded_None (u : user) :
  validate_email u = None -> validate_name u = None ->
  (isModified Ppassword u = true -> validate_password u = None) ->
  validate_loaded u = None.
Proof.
  intros He Hn Hp. unfold validate_loaded. rewrite He, Hn.
  destruct (isModified Ppassword u); [rewrite (Hp eq_refl)|]; reflexivity.
Qed.

Lemma validate_loaded_inv (u : user) :
  validate_loaded u = None -> validate_email u = None /\ validate_name u = None.
Proof.
  unfold validate_loaded, ValidationError. intros H.
  destruct (validate_email u); [discriminate|].
  destruct (validate_name u); [|split; reflexivity].
  cbn in H. discriminate.
Qed.

Lemma validate_inv (u : user) :
  validate u = None ->
  validate_email u = None /\ validate_password u = None /\ validate_name u = None.
Proof.
  unfold validate, ValidationError. intros H.
  destruct (password u) eqn:Hp, (validate_email u), (validate_password u), (validate_name u);
    try discriminate; repeat split; reflexivity.
Qed.

Lemma validate_email_same (u v : user) :
  email u = email v -> validate_email u = validate_email v.
Proof. unfold validate_email. intros ->. reflexivity. Qed.

Lemma validate_name_same (u v : user) :
  name u = name v -> validate_name u = validate_name v.
Proof. unfold validate_name. intros ->. reflexivity. Qed.

(** A stored account as the schema wants it passes the validators of the
    paths that every query loads. *)
Lemma valid_account_validators (d : user) :
  valid_account d = true -> validate_email d = None /\ validate_name d = None.
Proof.
  unfold valid_account, validate_email, validate_name. intros H.
  apply andb_true_iff in H. destruct H as [H _].
  apply andb_true_iff in H. destruct H as [He Hn].
  apply negb_true_iff in Hn. rewrite He, Hn.
  destruct (String.eqb_spec (email d) "") as [E|E]; [|split; reflexivity].
  rewrite E in He. vm_compute in He. discriminate.
Qed.

Lemma User_create_inv (mail : string) (pw : JS.jsval) (nm : string) (v : bool)
    (ev : env) (db db1 : collection) (u : user) :
  User_create mail pw nm v ev db = (db1, Val u) ->
  db1 = db ++ [u] /\
  existsb (fun d => Nat.eqb (_id d) (ObjectId ev)) db = false /\
  exists plain,
    cast_string pw = Some plain /\
    u = mkUser (ObjectId ev) (email_setter mail) (Some (bcrypt_hash plain (genSalt ev)))
          (JS.trim nm) v None None None None (created_now ev) [].
Proof.
  unfold User_create. intros H.
  match type of H with (match ?v with _ => _ end) = _ =>
    destruct v; [discriminate|] end.
  unfold pre_save in H. cbn [isModified modified existsb path_eqb orb negb password] in H.
  destruct (cast_string pw) as [plain|]; [|discriminate].
  cbn [_id email name isVerified verificationOTP verificationOTPExpire
       resetPasswordOTP resetPasswordExpire createdAt modified clean] in H.
  match type of H with (if ?c then _ else _) = _ => destruct c eqn:Ec; [discriminate|] end.
  injection H as <- <-. split; [reflexivity|]. split.
  - clear - Ec. induction db as [|x rest IH]; [reflexivity|].
    cbn in *. apply orb_false_iff in Ec. destruct Ec as [Hx Hr].
    apply orb_false_iff in Hx. destruct Hx as [Hx _]. rewrite Hx. exact (IH Hr).
  - exists plain. split; reflexivity.
Qed.

Lemma User_create_throw (mail : string) (pw : JS.jsval) (nm : string) (v : bool)
    (ev : env) (db db1 : collection) (msg : string) :
  User_create mail pw nm v ev db = (db1, Throw msg) -> db1 = db.
Proof.
  unfold User_create. intros H.
  repeat match type of H with
         | (match ?v with _ => _ end) = _ => destruct v
         | (if ?c then _ else _) = _ => destruct c
         end; congruence.
Qed.

(** The document that [User.create] returns has passed the validators. *)
Lemma User_create_valid (mail : string) (pw : JS.jsval) (nm : string) (v : bool)
    (ev : env) (db db1 : collection) (u : user) :
  User_create mail pw nm v ev db = (db1, Val u) ->
  validate_email u = None /\ validate_name u = None.
Proof.
  intros H. destruct (User_create_inv _ _ _ _ _ _ _ _ H) as [_ [_ [plain [_ Hu]]]].
  unfold User_create in H. cbv zeta in H.
  match type of H with (match validate ?x with _ => _ end) = _ =>
    destruct (validate x) eqn:Hv; [discriminate|] end.
  apply validate_inv in Hv. destruct Hv as [He [_ Hn]]. subst u.
  split; [rewrite <- He|rewrite <- Hn]; reflexivity.
Qed.

(** ** Facts about the routes *)

(** Signup once [User.create] has succeeded: the outcome is decided by what
    the mail helper reports. *)
Lemma signup_with_created (send : string -> string -> string -> env -> Email.result)
    (mail : string) (pw : JS.jsval) (nm : option string) (ev : env)
    (db db1 : collection) (u : user) :
  stored mail db = None ->
  User_create mail pw (signup_name mail nm) false ev db = (db1, Val u) ->
  signup_with send mail pw nm ev db =
    if Email.success (send mail (new_otp ev) (signup_name mail nm) ev)
    then (db ++ [clean (snd (generateVerificationOTP u ev))],
          json_data 201 true
            "User registered. Please check your email for the verification code."
            (Registered (email u) false))
    else (db,
          json 500 false
            "Error sending verification email. Please check your email address and try again.").
Proof.
  intros Hs Hc. destruct (User_create_valid _ _ _ _ _ _ _ _ Hc) as [Hve Hvn].
  destruct (User_create_inv _ _ _ _ _ _ _ _ Hc) as [-> [Hfree [plain [Hp ->]]]].
  unfold signup_with, try_catch, bind, User_findOne. rewrite Hs. cbn [option_map].
  rewrite Hc. cbn [generateVerificationOTP].
  unfold save, pre_save.
  rewrite validate_loaded_None by (try exact Hve; try exact Hvn; discriminate).
  cbn [isModified modified set_verificationOTP set_verificationOTPExpire
       markModified existsb path_eqb orb negb].
  rewrite update_by_id_app by (cbn; auto).
  unfold User_findByIdAndDelete, ret.
  cbn [clean _id email snd].
  destruct (Email.success (send mail (new_otp ev) (signup_name mail nm) ev));
    cbn [negb].
  - reflexivity.
  - rewrite delete_by_id_app by (cbn; auto). reflexivity.
Qed.

Lemma signup_with_not_created (send : string -> string -> string -> env -> Email.result)
    (mail : string) (pw : JS.jsval) (nm : option string) (ev : env)
    (db db1 : collection) (msg : string) :
  stored mail db = None ->
  User_create mail pw (signup_name mail nm) false ev db = (db1, Throw msg) ->
  signup_with send mail pw nm ev db = (db, json_error 500 "Error creating user" msg).
Proof.
  intros Hs Hc. pose proof (User_create_throw _ _ _ _ _ _ _ _ Hc) as ->.
  unfold signup_with, try_catch, bind, User_findOne. rewrite Hs. cbn [option_map].
  rewrite Hc. reflexivity.
Qed.

Lemma signup_with_duplicate (send : string -> string -> string -> env -> Email.result)
    (mail : string) (pw : JS.jsval) (nm : option string) (ev : env)
    (db : collection) (d : user) :
  stored mail db = Some d ->
  signup_with send mail pw nm ev db
  = (db, json 400 false "User with this email already exists").
Proof.
  intros Hs. unfold signup_with, try_catch, bind, User_findOne. rewrite Hs. reflexivity.
Qed.

Lemma sendVerificationEmail_success (mail otp userName : string) (ev : env) :
  Email.success (sendVerificationEmail mail otp userName ev) = true.
Proof. unfold sendVerificationEmail. destruct (sendMail ev); reflexivity. Qed.

Lemma stored_app_new (mail : string) (db : collection) (u : user) :
  stored mail db = None -> email u = email_setter mail ->
  stored mail (db ++ [u]) = Some u.
Proof.
  unfold stored. intros Hn He. induction db as [|x rest IH]; cbn in *.
  - rewrite He, String.eqb_refl. reflexivity.
  - destruct (String.eqb (email x) (email_setter mail)); [discriminate|]. exact (IH Hn).
Qed.

(** Login, once the account is found and the password compared. *)
Lemma login_found (mail : string) (pw : JS.jsval) (ev : env) (db : collection) (d : user) :
  stored mail db = Some d ->
  login mail pw ev db =
    (db,
     match bcrypt_compare_js pw (js_of (password d)) with
     | Throw _ => json_error 500 "Error logging in" "Password comparison failed"
     | Val false => json 401 false "Invalid email or password"
     | Val true =>
         if isVerified d
         then json_data 200 true "Login successful"
                (Session (generateToken (_id d) ev) (_id d) (email d) (name d))
         else json_data 403 false "Email not verified. Please verify your email."
                (NeedsVerification (email d))
     end).
Proof.
  intros Hs. unfold login, try_catch, bind, User_findOne, lift, comparePassword.
  rewrite Hs.
  cbn [option_map project password isVerified _id email name
       selected existsb path_eqb orb].
  destruct (bcrypt_compare_js pw (js_of (password d))) as [[|]|]; cbn [negb];
    [destruct (isVerified d)|..]; reflexivity.
Qed.

Lemma login_not_found (mail : string) (pw : JS.jsval) (ev : env) (db : collection) :
  stored mail db = None ->
  login mail pw ev db = (db, json 401 false "Invalid email or password").
Proof.
  intros Hs. unfold login, try_catch, bind, User_findOne. rewrite Hs. reflexivity.
Qed.

Lemma verifyResetOTP_project (d : user) (c : JS.jsval) (now : Z) :
  verifyResetOTP (project [PresetPasswordOTP; PresetPasswordExpire] d) c now
  = verifyResetOTP d c now.
Proof. reflexivity. Qed.

Lemma verifyVerificationOTP_project (d : user) (c : JS.jsval) (now : Z) :
  verifyVerificationOTP (project [PverificationOTP; PverificationOTPExpire] d) c now
  = verifyVerificationOTP d c now.
Proof. reflexivity. Qed.

(** verify-otp never writes: its response is a function of the stored
    document. *)
Lemma verify_otp_found (mail : string) (otp : JS.jsval) (ev : env)
    (db : collection) (d : user) :
  stored mail db = Some d ->
  verify_otp mail otp ev db =
    (db,
     if falsy (resetPasswordOTP d) then json 400 false "Invalid or expired OTP"
     else if verifyResetOTP d otp (Date_now ev)
          then json 200 true "OTP verified successfully"
          else json 400 false "Invalid or expired OTP").
Proof.
  intros Hs. unfold verify_otp, try_catch, bind, User_findOne. rewrite Hs.
  cbn [option_map]. rewrite verifyResetOTP_project.
  change (resetPasswordOTP (project [PresetPasswordOTP; PresetPasswordExpire] d))
    with (resetPasswordOTP d).
  destruct (falsy (resetPasswordOTP d)); [reflexivity|].
  destruct (verifyResetOTP d otp (Date_now ev)); reflexivity.
Qed.

Lemma verify_otp_not_found (mail : string) (otp : JS.jsval) (ev : env) (db : collection) :
  stored mail db = None ->
  verify_otp mail otp ev db = (db, json 400 false "Invalid or expired OTP").
Proof.
  intros Hs. unfold verify_otp, try_catch, bind, User_findOne. rewrite Hs. reflexivity.
Qed.

Lemma reset_password_not_found (mail : string) (otp np : JS.jsval) (ev : env)
    (db : collection) :
  stored mail db = None ->
  reset_password mail otp np ev db = (db, json 400 false "Invalid or expired OTP").
Proof.
  intros Hs. unfold reset_password, try_catch, bind, User_findOne. rewrite Hs. reflexivity.
Qed.

Lemma reset_password_rejected (mail : string) (otp np : JS.jsval) (ev : env)
    (db : collection) (d : user) :
  stored mail db = Some d ->
  falsy (resetPasswordOTP d) = true \/ verifyResetOTP d otp (Date_now ev) = false ->
  reset_password mail otp np ev db = (db, json 400 false "Invalid or expired OTP").
Proof.
  intros Hs Hr. unfold reset_password, try_catch, bind, User_findOne. rewrite Hs.
  cbn [option_map]. rewrite verifyResetOTP_project.
  change (resetPasswordOTP (project [PresetPasswordOTP; PresetPasswordExpire] d))
    with (resetPasswordOTP d).
  destruct (falsy (resetPasswordOTP d)); [reflexivity|].
  destruct Hr as [Hr|Hr]; [discriminate|]. rewrite Hr. reflexivity.
Qed.

Lemma reset_password_accepted (mail : string) (otp : JS.jsval) (np : string) (ev : env)
    (db : collection) (d : user) :
  unique_ids db = true ->
  stored mail db = Some d ->
  valid_account d = true ->
  falsy (resetPasswordOTP d) = false ->
  verifyResetOTP d otp (Date_now ev) = true ->
  (6 <= String.length np)%nat ->
  exists db',
    reset_password mail otp (JS.JString np) ev db
    = (db', json 200 true
              "Password reset successful. You can now login with your new password.") /\
    stored mail db' = Some (after_reset d (bcrypt_hash np (genSalt ev))).
Proof.
  intros Hu Hs Hva Hf Hv Hlen.
  destruct (valid_account_validators d Hva) as [Hve Hvn].
  unfold reset_password, try_catch, bind, User_findOne. rewrite Hs.
  cbn [option_map]. rewrite verifyResetOTP_project.
  change (resetPasswordOTP (project [PresetPasswordOTP; PresetPasswordExpire] d))
    with (resetPasswordOTP d).
  rewrite Hf, Hv. cbn [negb cast_string].
  assert (String.eqb np "" = false) as Hne
    by (destruct np; [cbn in Hlen; lia|reflexivity]).
  assert (Nat.ltb (String.length np) 6 = false) as Hlt by (apply Nat.ltb_ge; exact Hlen).
  unfold save, pre_save.
  rewrite validate_loaded_None;
    [|exact Hve|exact Hvn|intros _; unfold validate_password; cbn [password set_password
        set_resetPasswordOTP set_resetPasswordExpire]; rewrite Hne, Hlt; reflexivity].
  cbn [isModified modified project set_password set_resetPasswordOTP
       set_resetPasswordExpire markModified existsb path_eqb orb negb password].
  match goal with
  | |- context [update_by_id ?mem db] =>
      destruct (update_by_id_stored mem mail db d Hu Hs eq_refl eq_refl) as [db' [Hup Hst]];
      rewrite Hup
  end.
  exists db'. split; [reflexivity|]. rewrite Hst. reflexivity.
Qed.

Lemma verify_email_rejected (mail : string) (otp : JS.jsval) (ev : env)
    (db : collection) (d : user) :
  stored mail db = Some d -> isVerified d = false ->
  verifyVerificationOTP d otp (Date_now ev) = false ->
  verify_email mail otp ev db = (db, json 400 false "Invalid or expired OTP").
Proof.
  intros Hs Hv Hr. unfold verify_email, try_catch, bind, User_findOne. rewrite Hs.
  cbn [option_map]. rewrite verifyVerificationOTP_project.
  change (isVerified (project [PverificationOTP; PverificationOTPExpire] d))
    with (isVerified d).
  rewrite Hv, Hr. reflexivity.
Qed.

Lemma verifyResetOTP_expired (u : user) (c : JS.jsval) (now t : Z) :
  resetPasswordExpire u = Some t -> t < now -> verifyResetOTP u c now = false.
Proof.
  intros He Ht. unfold verifyResetOTP, now_after. rewrite He.
  apply Z.ltb_lt in Ht. rewrite Ht. reflexivity.
Qed.

Lemma verifyVerificationOTP_expired (u : user) (c : JS.jsval) (now t : Z) :
  verificationOTPExpire u = Some t -> t < now -> verifyVerificationOTP u c now = false.
Proof.
  intros He Ht. unfold verifyVerificationOTP, now_after. rewrite He.
  apply Z.ltb_lt in Ht. rewrite Ht. reflexivity.
Qed.

Lemma verifyResetOTP_live (u : user) (code hashed : string) (now t : Z) :
  resetPasswordExpire u = Some t -> resetPasswordOTP u = Some hashed -> now <= t ->
  verifyResetOTP u (JS.JString code) now = bcrypt_compare code hashed.
Proof.
  intros He Hh Ht. unfold verifyResetOTP, now_after. rewrite He, Hh.
  apply Z.ltb_ge in Ht. rewrite Ht. reflexivity.
Qed.

Lemma verifyVerificationOTP_live (u : user) (code hashed : string) (now t : Z) :
  verificationOTPExpire u = Some t -> verificationOTP u = Some hashed -> now <= t ->
  verifyVerificationOTP u (JS.JString code) now = bcrypt_compare code hashed.
Proof.
  intros He Hh Ht. unfold verifyVerificationOTP, now_after. rewrite He, Hh.
  apply Z.ltb_ge in Ht. rewrite Ht. reflexivity.
Qed.

Lemma bcrypt_compare_js_undefined (c : JS.jsval) :
  exists msg, bcrypt_compare_js c JS.JUndefined = Throw msg.
Proof. destruct c; eexists; reflexivity. Qed.

Lemma falsy_hash (plain salt : string) : falsy (Some (bcrypt_hash plain salt)) = false.
Proof.
  cbn. pose proof (bcrypt_hash_length plain salt) as L.
  destruct (bcrypt_hash plain salt); [discriminate|reflexivity].
Qed.

(** forgot-password for a known e-mail: the reset challenge is written to
    the stored document whatever the transport does; only the response
    depends on the delivery. *)
Lemma forgot_password_found (mail : string) (ev : env) (db : collection) (d : user) :
  unique_ids db = true ->
  stored mail db = Some d ->
  valid_account d = true ->
  exists db',
    forgot_password mail ev db
    = (db',
       match sendMail ev with
       | Val _ => json_data 200 true "OTP sent to your email. Valid for 10 minutes."
                    (SentTo mail)
       | Throw _ => json 500 false "Error sending email. Please try again later."
       end) /\
    stored mail db'
    = Some (with_reset_challenge d (bcrypt_hash (new_otp ev) (otp_salt ev))
              (Date_now ev + 600000)).
Proof.
  intros Hu Hs Hva.
  destruct (valid_account_validators d Hva) as [Hve Hvn].
  unfold forgot_password, try_catch, bind, User_findOne. rewrite Hs.
  cbn [option_map generateResetOTP].
  unfold save, pre_save.
  rewrite validate_loaded_None by (try exact Hve; try exact Hvn; discriminate).
  cbn [isModified modified project set_resetPasswordOTP
       set_resetPasswordExpire markModified existsb path_eqb orb negb].
  match goal with
  | |- context [update_by_id ?mem db] =>
      destruct (update_by_id_stored mem mail db d Hu Hs eq_refl eq_refl) as [db' [Hup Hst]];
      rewrite Hup
  end.
  exists db'. split.
  - unfold sendPasswordResetEmail, ret. destruct (sendMail ev); reflexivity.
  - rewrite Hst. reflexivity.
Qed.

Lemma forgot_password_not_found (mail : string) (ev : env) (db : collection) :
  stored mail db = None ->
  forgot_password mail ev db
  = (db, json 200 true "If an account exists with this email, an OTP has been sent").
Proof.
  intros Hs. unfold forgot_password, try_catch, bind, User_findOne. rewrite Hs. reflexivity.
Qed.

(** ** The claims *)

(** Signup and the report of the mail helper.  For a signup whose e-mail
    matches no account and whose document [User.create] accepts: if the
    helper reports failure, the route deletes the account it has just
    created, so that the collection is as before, and answers 500 "Error
    sending verification email..."; [sendVerificationEmail] reports success
    even when the transport throws, and then signup answers 201 and the
    unverified account, with its verification challenge, stays. *)
Lemma signup_by_helper_report (mail : string) (pw : JS.jsval) (nm : option string)
    (ev : env) (db db1 : collection) (u : user) :
  stored mail db = None ->
  User_create mail pw (signup_name mail nm) false ev db = (db1, Val u) ->
  (forall send,
      Email.success (send mail (new_otp ev) (signup_name mail nm) ev) = false ->
      signup_with send mail pw nm ev db
      = (db, json 500 false
               "Error sending verification email. Please check your email address and try again.")) /\
  (forall err,
      sendMail ev = Throw err ->
      Email.success (sendVerificationEmail mail (new_otp ev) (signup_name mail nm) ev) = true /\
      signup mail pw nm ev db
      = (db ++ [clean (snd (generateVerificationOTP u ev))],
         json_data 201 true
           "User registered. Please check your email for the verification code."
           (Registered (email_setter mail) false)) /\
      stored mail (fst (signup mail pw nm ev db))
      = Some (clean (snd (generateVerificationOTP u ev))) /\
      isVerified (clean (snd (generateVerificationOTP u ev))) = false /\
      verificationOTP (clean (snd (generateVerificationOTP u ev)))
      = Some (bcrypt_hash (new_otp ev) (otp_salt ev))).
Proof.
  intros Hs Hc.
  destruct (User_create_inv _ _ _ _ _ _ _ _ Hc) as [_ [_ [plain [_ Hu]]]].
  split.
  - intros send Hsend. rewrite (signup_with_created send _ _ _ _ _ _ _ Hs Hc), Hsend.
    reflexivity.
  - intros err _.
    assert (signup mail pw nm ev db
            = (db ++ [clean (snd (generateVerificationOTP u ev))],
               json_data 201 true
                 "User registered. Please check your email for the verification code."
                 (Registered (email_setter mail) false))) as Hrun.
    { unfold signup.
      rewrite (signup_with_created sendVerificationEmail _ _ _ _ _ _ _ Hs Hc).
      rewrite sendVerificationEmail_success. rewrite Hu. reflexivity. }
    split; [apply sendVerificationEmail_success|].
    split; [exact Hrun|]. rewrite Hrun. cbn [fst].
    split; [|rewrite Hu; split; reflexivity].
    apply stored_app_new; [exact Hs|]. rewrite Hu. reflexivity.
Qed.

(** C3 (amended). OTP verification returns false when the hashed code of
    the challenge is absent, and returns false whenever
    [now > challenge.expiresAt]; the expiry test comes first, so this holds
    whatever the hash comparison would answer.  While [now <= expiresAt]
    the answer is that of bcrypt: a correct code verifies at
    [expiresAt - 1] and still at [expiresAt] itself, and the same code is
    rejected at [expiresAt + 1], where reset-password, verify-otp and
    verify-email answer 400 "Invalid or expired OTP". *)
Theorem otp_verify_expiry (u : user) (c : JS.jsval) (now : Z) :
  (resetPasswordOTP u = None -> verifyResetOTP u c now = false) /\
  (verificationOTP u = None -> verifyVerificationOTP u c now = false) /\
  (forall t, resetPasswordExpire u = Some t -> t < now -> verifyResetOTP u c now = false) /\
  (forall t, verificationOTPExpire u = Some t -> t < now ->
             verifyVerificationOTP u c now = false) /\
  (forall t code salt,
      resetPasswordExpire u = Some t ->
      resetPasswordOTP u = Some (bcrypt_hash code salt) ->
      verifyResetOTP u (JS.JString code) (t - 1) = true /\
      verifyResetOTP u (JS.JString code) t = true /\
      verifyResetOTP u (JS.JString code) (t + 1) = false) /\
  (forall t code salt,
      verificationOTPExpire u = Some t ->
      verificationOTP u = Some (bcrypt_hash code salt) ->
      verifyVerificationOTP u (JS.JString code) (t - 1) = true /\
      verifyVerificationOTP u (JS.JString code) t = true /\
      verifyVerificationOTP u (JS.JString code) (t + 1) = false) /\
  (forall t mail np ev db,
      stored mail db = Some u -> resetPasswordExpire u = Some t -> Date_now ev = t + 1 ->
      reset_password mail c np ev db = (db, json 400 false "Invalid or expired OTP") /\
      verify_otp mail c ev db = (db, json 400 false "Invalid or expired OTP")) /\
  (forall t mail ev db,
      stored mail db = Some u -> isVerified u = false ->
      verificationOTPExpire u = Some t -> Date_now ev = t + 1 ->
      verify_email mail c ev db = (db, json 400 false "Invalid or expired OTP")).
Proof.
  split; [|split; [|split; [|split; [|split; [|split; [|split]]]]]].
  - intros H. unfold verifyResetOTP. rewrite H. cbn [js_of].
    destruct (bcrypt_compare_js_undefined c) as [msg ->].
    destruct (now_after now (resetPasswordExpire u)); reflexivity.
  - intros H. unfold verifyVerificationOTP. rewrite H. cbn [js_of].
    destruct (bcrypt_compare_js_undefined c) as [msg ->].
    destruct (now_after now (verificationOTPExpire u)); reflexivity.
  - intros t. apply verifyResetOTP_expired.
  - intros t. apply verifyVerificationOTP_expired.
  - intros t code salt He Hh.
    rewrite (verifyResetOTP_live u code _ (t - 1) t He Hh) by lia.
    rewrite (verifyResetOTP_live u code _ t t He Hh) by lia.
    rewrite bcrypt_compare_hash. repeat split.
    apply (verifyResetOTP_expired u _ (t + 1) t He). lia.
  - intros t code salt He Hh.
    rewrite (verifyVerificationOTP_live u code _ (t - 1) t He Hh) by lia.
    rewrite (verifyVerificationOTP_live u code _ t t He Hh) by lia.
    rewrite bcrypt_compare_hash. repeat split.
    apply (verifyVerificationOTP_expired u _ (t + 1) t He). lia.
  - intros t mail np ev db Hs He Hn.
    assert (verifyResetOTP u c (Date_now ev) = false) as Hv
      by (apply (verifyResetOTP_expired u c _ t He); lia).
    split.
    + apply reset_password_rejected with (d := u); auto.
    + rewrite (verify_otp_found _ _ _ _ _ Hs), Hv.
      destruct (falsy (resetPasswordOTP u)); reflexivity.
  - intros t mail ev db Hs Hv He Hn. apply verify_email_rejected with (d := u); auto.
    apply (verifyVerificationOTP_expired u c _ t He). lia.
Qed.

(** C4. For an account with [isVerified = false] and a login request that
    carries the correct password, login answers 403 "Email not verified",
    with the e-mail of the account in its data; this is not the 401 answer
    of invalid credentials, no session token is part of it, and the
    collection is unchanged. *)
Theorem login_unverified (mail plain salt : string) (ev : env) (db : collection) (d : user) :
  stored mail db = Some d ->
  isVerified d = false ->
  password d = Some (bcrypt_hash plain salt) ->
  login mail (JS.JString plain) ev db
  = (db, json_data 403 false "Email not verified. Please verify your email."
           (NeedsVerification (email d))) /\
  snd (login mail (JS.JString plain) ev db) <> json 401 false "Invalid email or password" /\
  (forall token id e n,
      data (snd (login mail (JS.JString plain) ev db)) <> Session token id e n).
Proof.
  intros Hs Hv Hp.
  assert (login mail (JS.JString plain) ev db
          = (db, json_data 403 false "Email not verified. Please verify your email."
                   (NeedsVerification (email d)))) as Hrun.
  { rewrite (login_found _ _ _ _ _ Hs), Hp. cbn [js_of bcrypt_compare_js].
    rewrite bcrypt_compare_hash, Hv. reflexivity. }
  rewrite Hrun. cbn [snd]. repeat split; discriminate.
Qed.


(** C6 (amended). [comparePassword] answers what bcrypt answers on two
    strings; on an internal comparison error (an argument that is not a
    string) it does not return false: it raises "Password comparison
    failed" to its caller, and login then answers 500 "Error logging in"
    and leaves the collection unchanged. *)
Theorem comparePassword_raises (u : user) (c : JS.jsval) :
  (forall plain hashed,
      c = JS.JString plain -> password u = Some hashed ->
      comparePassword u c = Val (bcrypt_compare plain hashed)) /\
  ((forall plain, c <> JS.JString plain) \/ password u = None ->
   comparePassword u c = Throw "Password comparison failed") /\
  (forall mail ev db,
      stored mail db = Some u -> (forall plain, c <> JS.JString plain) ->
      login mail c ev db
      = (db, json_error 500 "Error logging in" "Password comparison failed")).
Proof.
  split; [|split].
  - intros plain hashed -> Hp. unfold comparePassword. rewrite Hp. reflexivity.
  - intros [Hc|Hp]; unfold comparePassword.
    + destruct c as [|n|s]; try reflexivity. exfalso. exact (Hc s eq_refl).
    + rewrite Hp. destruct c; reflexivity.
  - intros mail ev db Hs Hc. rewrite (login_found _ _ _ _ _ Hs).
    destruct c as [|n|s]; try reflexivity. exfalso. exact (Hc s eq_refl).
Qed.

(** C7 (amended). For a stored account with a reset challenge that has
    not expired, reset-password with the code of the challenge (and a new
    password the schema accepts) answers 200, replaces the stored password
    by the bcrypt hash of the new password and clears the reset challenge.
    Afterwards the new password verifies, and any other password, the old
    one included, verifies exactly when bcrypt accepts it for the new hash:
    login rejects it with 401 when bcrypt does not, and accepts it when
    bcrypt does, as it does for an old password equal to the new one.  A
    second reset-password with the same code answers 400 "Invalid or
    expired OTP" and changes nothing. *)
Theorem reset_password_replaces_hash (mail code salt np : string) (ev : env)
    (db : collection) (d : user) (t : Z) :
  unique_ids db = true ->
  stored mail db = Some d ->
  valid_account d = true ->
  resetPasswordOTP d = Some (bcrypt_hash code salt) ->
  resetPasswordExpire d = Some t ->
  Date_now ev < t ->
  (6 <= String.length np)%nat ->
  exists db',
    reset_password mail (JS.JString code) (JS.JString np) ev db
    = (db', json 200 true
              "Password reset successful. You can now login with your new password.") /\
    stored mail db' = Some (after_reset d (bcrypt_hash np (genSalt ev))) /\
    comparePassword (after_reset d (bcrypt_hash np (genSalt ev))) (JS.JString np)
    = Val true /\
    (forall old ev',
        comparePassword (after_reset d (bcrypt_hash np (genSalt ev))) (JS.JString old)
        = Val (bcrypt_compare old (bcrypt_hash np (genSalt ev))) /\
        (bcrypt_compare old (bcrypt_hash np (genSalt ev)) = false ->
         login mail (JS.JString old) ev' db'
         = (db', json 401 false "Invalid email or password")) /\
        (bcrypt_compare old (bcrypt_hash np (genSalt ev)) = true ->
         isVerified d = true ->
         status (snd (login mail (JS.JString old) ev' db')) = 200)) /\
    (forall ev', isVerified d = true ->
        status (snd (login mail (JS.JString np) ev' db')) = 200) /\
    (forall np2 ev2,
        reset_password mail (JS.JString code) np2 ev2 db'
        = (db', json 400 false "Invalid or expired OTP")).
Proof.
  intros Hu Hs Hva Hh He Ht Hlen.
  assert (verifyResetOTP d (JS.JString code) (Date_now ev) = true) as Hv
    by (rewrite (verifyResetOTP_live d code _ _ t He Hh) by lia; apply bcrypt_compare_hash).
  assert (falsy (resetPasswordOTP d) = false) as Hf by (rewrite Hh; apply falsy_hash).
  destruct (reset_password_accepted mail (JS.JString code) np ev db d Hu Hs Hva Hf Hv Hlen)
    as [db' [Hrun Hst]].
  exists db'. split; [exact Hrun|]. split; [exact Hst|].
  split; [|split; [|split]].
  - unfold comparePassword. cbn [after_reset password js_of bcrypt_compare_js].
    rewrite bcrypt_compare_hash. reflexivity.
  - intros old ev'. split; [|split].
    + unfold comparePassword. cbn [after_reset password js_of bcrypt_compare_js].
      reflexivity.
    + intros Hold. rewrite (login_found _ _ _ _ _ Hst).
      cbn [after_reset password js_of bcrypt_compare_js].
      rewrite Hold. reflexivity.
    + intros Hold Hver. rewrite (login_found _ _ _ _ _ Hst).
      cbn [after_reset password js_of bcrypt_compare_js isVerified].
      rewrite Hold, Hver. reflexivity.
  - intros ev' Hver. rewrite (login_found _ _ _ _ _ Hst).
    cbn [after_reset password js_of bcrypt_compare_js isVerified].
    rewrite bcrypt_compare_hash, Hver. reflexivity.
  - intros np2 ev2. apply reset_password_rejected with (d := after_reset d (bcrypt_hash np (genSalt ev))).
    + exact Hst.
    + left. reflexivity.
Qed.

(** C8. Every code issued, for verification or for password reset, is a
    string of four decimal digits that reads as a number from 1000 to 9999
    and does not start with a zero; the challenge that the methods set, and
    that forgot-password (on a stored account that passes the validators
    of the schema) and signup write to the stored document, holds the
    bcrypt hash of the code, which differs from the code; and the challenge
    expires exactly 10 minutes (600000 ms) after [Date.now()]. *)
Theorem otp_issue (u : user) (ev : env) :
  JS.unit_double (Math_random ev) ->
  let otp := JS.Number_toString (JS.floor_1000_plus_9000_times (Math_random ev)) in
  (String.length otp = 4%nat /\
   JS.all_chars JS.is_digit otp = true /\
   (exists n, JS.parse_digits 0 otp = Some n /\ 1000 <= n <= 9999) /\
   JS.leading_zero otp = false) /\
  (fst (generateResetOTP u ev) = otp /\
   resetPasswordOTP (snd (generateResetOTP u ev)) = Some (bcrypt_hash otp (otp_salt ev)) /\
   resetPasswordOTP (snd (generateResetOTP u ev)) <> Some otp /\
   resetPasswordExpire (snd (generateResetOTP u ev)) = Some (Date_now ev + 600000)) /\
  (fst (generateVerificationOTP u ev) = otp /\
   verificationOTP (snd (generateVerificationOTP u ev))
     = Some (bcrypt_hash otp (otp_salt ev)) /\
   verificationOTP (snd (generateVerificationOTP u ev)) <> Some otp /\
   verificationOTPExpire (snd (generateVerificationOTP u ev))
     = Some (Date_now ev + 600000)) /\
  (forall mail db d,
      unique_ids db = true -> stored mail db = Some d -> valid_account d = true ->
      stored mail (fst (forgot_password mail ev db))
      = Some (with_reset_challenge d (bcrypt_hash otp (otp_salt ev))
                (Date_now ev + 600000))) /\
  (forall mail pw nm db,
      status (snd (signup mail pw nm ev db)) = 201 ->
      exists d,
        fst (signup mail pw nm ev db) = db ++ [d] /\
        verificationOTP d = Some (bcrypt_hash otp (otp_salt ev)) /\
        verificationOTPExpire d = Some (Date_now ev + 600000)).
Proof.
  intros Hr otp.
  pose proof (floor_1000_plus_9000_times_range _ Hr) as Hrange.
  destruct (Number_toString_four_digits _ Hrange) as [Hotp [Hzero Hparse]].
  fold otp in Hotp, Hzero, Hparse.
  assert (forall salt, Some (bcrypt_hash otp salt) <> Some otp) as Hne
    by (intros salt E; injection E; apply hash_differs_from_otp; exact Hotp).
  split; [|split; [|split; [|split]]].
  - split; [exact (is_otp_length _ Hotp)|].
    unfold JS.is_otp in Hotp.
    apply andb_true_iff in Hotp. destruct Hotp as [Hotp _].
    apply andb_true_iff in Hotp. destruct Hotp as [_ Hdig].
    split; [exact Hdig|].
    split; [exists (JS.floor_1000_plus_9000_times (Math_random ev)); auto|exact Hzero].
  - cbn. fold otp. repeat split; auto.
  - cbn. fold otp. repeat split; auto.
  - intros mail db d Hu Hs Hva.
    destruct (forgot_password_found mail ev db d Hu Hs Hva) as [db' [Hrun Hst]].
    rewrite Hrun. exact Hst.
  - intros mail pw nm db Hst. unfold signup in *.
    destruct (stored mail db) as [d|] eqn:Hs.
    + rewrite (signup_with_duplicate _ _ _ _ _ _ _ Hs) in Hst. discriminate.
    + destruct (User_create mail pw (signup_name mail nm) false ev db)
        as [db1 [d|msg]] eqn:Hc.
      * rewrite (signup_with_created _ _ _ _ _ _ _ _ Hs Hc), sendVerificationEmail_success.
        eexists. split; [reflexivity|]. split; reflexivity.
      * rewrite (signup_with_not_created _ _ _ _ _ _ _ _ Hs Hc) in Hst. discriminate.
Qed.

(** C9 (amended). When a signup request supplies no name and an account is
    created, the name of the account is the part of the request's e-mail
    before the [@] converted to upper case (and trimmed by the schema). *)
Theorem signup_default_name (mail : string) (pw : JS.jsval) (nm : option string)
    (ev : env) (db : collection) :
  falsy nm = true ->
  status (snd (signup mail pw nm ev db)) = 201 ->
  exists u,
    fst (signup mail pw nm ev db) = db ++ [u] /\
    email u = email_setter mail /\
    name u = JS.trim (JS.toUpperCase (JS.split_head "@" mail)).
Proof.
  intros Hnm Hst. unfold signup in *.
  destruct (stored mail db) as [d|] eqn:Hs.
  - rewrite (signup_with_duplicate _ _ _ _ _ _ _ Hs) in Hst. discriminate.
  - destruct (User_create mail pw (signup_name mail nm) false ev db) as [db1 [u|msg]] eqn:Hc.
    + rewrite (signup_with_created _ _ _ _ _ _ _ _ Hs Hc), sendVerificationEmail_success.
      destruct (User_create_inv _ _ _ _ _ _ _ _ Hc) as [_ [_ [plain [_ Hu]]]].
      eexists. split; [reflexivity|]. rewrite Hu. cbn.
      unfold signup_name. rewrite Hnm. split; reflexivity.
    + rewrite (signup_with_not_created _ _ _ _ _ _ _ _ Hs Hc) in Hst. discriminate.
Qed.

(** C10. verify-otp is read-only: whatever the request and whether it is
    accepted or not, the collection afterwards is the collection before, so
    every later request is answered as if verify-otp had not been called;
    in particular a code that verify-otp has accepted is accepted again by
    verify-otp, and by reset-password as long as the challenge has not
    expired, for a stored account that passes the validators of the
    schema. *)
Theorem verify_otp_read_only (mail : string) (otp : JS.jsval) (ev : env) (db : collection) :
  fst (verify_otp mail otp ev db) = db /\
  (status (snd (verify_otp mail otp ev db)) = 200 ->
   forall ev2, Date_now ev2 = Date_now ev ->
     status (snd (verify_otp mail otp ev2 (fst (verify_otp mail otp ev db)))) = 200) /\
  (status (snd (verify_otp mail otp ev db)) = 200 ->
   unique_ids db = true ->
   forall d np ev2,
     stored mail db = Some d ->
     valid_account d = true ->
     (forall t, resetPasswordExpire d = Some t -> Date_now ev2 <= t) ->
     (6 <= String.length np)%nat ->
     status (snd (reset_password mail otp (JS.JString np) ev2
                    (fst (verify_otp mail otp ev db)))) = 200).
Proof.
  assert (fst (verify_otp mail otp ev db) = db) as Hfst.
  { destruct (stored mail db) as [d|] eqn:Hs.
    - rewrite (verify_otp_found _ _ _ _ _ Hs). reflexivity.
    - rewrite (verify_otp_not_found _ _ _ _ Hs). reflexivity. }
  split; [exact Hfst|]. rewrite Hfst. split.
  - intros Hok ev2 Hnow.
    destruct (stored mail db) as [d|] eqn:Hs.
    + rewrite (verify_otp_found _ _ _ _ _ Hs) in Hok.
      rewrite (verify_otp_found _ _ _ _ _ Hs), Hnow. exact Hok.
    + rewrite (verify_otp_not_found _ _ _ _ Hs) in Hok. discriminate.
  - intros Hok Hu d np ev2 Hs Hva Hexp Hlen.
    rewrite (verify_otp_found _ _ _ _ _ Hs) in Hok. cbn [snd] in Hok.
    destruct (falsy (resetPasswordOTP d)) eqn:Hf; [discriminate|].
    destruct (verifyResetOTP d otp (Date_now ev)) eqn:Hv; [|discriminate].
    assert (verifyResetOTP d otp (Date_now ev2) = true) as Hv2.
    { unfold verifyResetOTP in *.
      destruct (now_after (Date_now ev) (resetPasswordExpire d)); [discriminate|].
      assert (now_after (Date_now ev2) (resetPasswordExpire d) = false) as ->; [|exact Hv].
      unfold now_after. destruct (resetPasswordExpire d) as [t|]; [|reflexivity].
      apply Z.ltb_ge. apply Hexp. reflexivity. }
    destruct (reset_password_accepted mail otp np ev2 db d Hu Hs Hva Hf Hv2 Hlen)
      as [db' [Hrun _]].
    rewrite Hrun. reflexivity.
Qed.

(** ** More facts about the collection *)

Lemma written_id (mem x : user) : _id (written mem x) = _id x.
Proof. unfold written. destruct (Nat.eqb (_id x) (_id mem)); reflexivity. Qed.

Lemma written_email (mem x : user) :
  isModified Pemail mem = false -> email (written mem x) = email x.
Proof.
  intros H. unfold written. destruct (Nat.eqb (_id x) (_id mem)); [|reflexivity].
  apply merge_email, H.
Qed.

(** With unique [_id]s, [save] rewrites the document of that [_id] and
    nothing else. *)
Lemma update_by_id_map (mem : user) (db db' : collection) :
  unique_ids db = true -> update_by_id mem db = Some db' -> db' = map (written mem) db.
Proof.
  revert db'. induction db as [|d rest IH]; intros db' Hu Hup; [discriminate|].
  cbn [unique_ids] in Hu. apply andb_true_iff in Hu. destruct Hu as [Hd Hrest].
  apply negb_true_iff in Hd. cbn [update_by_id] in Hup. cbn [map]. unfold written at 1.
  destruct (Nat.eqb (_id d) (_id mem)) eqn:E.
  - injection Hup as <-. f_equal. apply Nat.eqb_eq in E.
    clear IH Hrest. induction rest as [|x rest IH]; [reflexivity|].
    cbn in Hd. apply orb_false_iff in Hd. destruct Hd as [Hx Hr].
    cbn [map]. unfold written at 1. rewrite <- E, Hx. f_equal. exact (IH Hr).
  - destruct (update_by_id mem rest) as [rest'|]; [|discriminate].
    injection Hup as <-. f_equal. exact (IH _ Hrest eq_refl).
Qed.

Lemma unique_ids_map (f : user -> user) (db : collection) :
  (forall x, _id (f x) = _id x) -> unique_ids (map f db) = unique_ids db.
Proof.
  intros Hf. induction db as [|d rest IH]; [reflexivity|].
  cbn [map unique_ids]. rewrite IH. f_equal. f_equal.
  rewrite Hf. clear IH. induction rest as [|x rest IH]; [reflexivity|].
  cbn. rewrite Hf, IH. reflexivity.
Qed.

Lemma unique_emails_map (f : user -> user) (db : collection) :
  (forall x, email (f x) = email x) -> unique_emails (map f db) = unique_emails db.
Proof.
  intros Hf. induction db as [|d rest IH]; [reflexivity|].
  cbn [map unique_emails]. rewrite IH. f_equal. f_equal.
  rewrite Hf. clear IH. induction rest as [|x rest IH]; [reflexivity|].
  cbn. rewrite Hf, IH. reflexivity.
Qed.

(** What [save] does: nothing when it throws; otherwise it rewrites the
    document it was given, after the pre-save hook. *)
Lemma save_inv (u : user) (ev : env) (db db' : collection) (r : result user) :
  unique_ids db = true ->
  save u ev db = (db', r) ->
  (db' = db /\ exists msg, r = Throw msg) \/
  (exists u', pre_save (genSalt ev) u = Val u' /\ validate_loaded u = None /\
              db' = map (written u') db /\ r = Val (clean u')).
Proof.
  intros Hu Hs. unfold save in Hs.
  destruct (validate_loaded u) as [err|] eqn:Hv.
  - injection Hs as <- <-. left. eauto.
  - destruct (pre_save (genSalt ev) u) as [u'|err] eqn:Hp.
    + destruct (update_by_id u' db) as [db1|] eqn:Hup.
      * injection Hs as <- <-. right. exists u'. repeat split.
        apply update_by_id_map; assumption.
      * injection Hs as <- <-. left. eauto.
    + injection Hs as <- <-. left. eauto.
Qed.

Lemma pre_save_inv (salt : string) (u u' : user) :
  pre_save salt u = Val u' ->
  _id u' = _id u /\ modified u' = modified u /\
  (isModified Ppassword u = false -> u' = u) /\
  (isModified Ppassword u = true ->
   exists plain, password u = Some plain /\ password u' = Some (bcrypt_hash plain salt)).
Proof.
  unfold pre_save. destruct (isModified Ppassword u) eqn:Hm; cbn [negb].
  - destruct (password u) as [plain|]; [|discriminate].
    intros H. injection H as <-. cbn. repeat split; try discriminate. eauto.
  - intros H. injection H as <-. repeat split; try discriminate.
Qed.

Lemma valid_account_written (u' x : user) (salt : string) (u : user) :
  pre_save salt u = Val u' ->
  isModified Pemail u = false -> isModified Pname u = false ->
  valid_account x = true -> valid_account (written u' x) = true.
Proof.
  intros Hp He Hn Hx. destruct (pre_save_inv _ _ _ Hp) as [_ [Hmod [Hsame Hhash]]].
  unfold written. destruct (Nat.eqb (_id x) (_id u')); [|exact Hx].
  unfold valid_account, merge, isModified in *. cbn. rewrite Hmod, He, Hn.
  destruct (existsb (path_eqb Ppassword) (modified u)) eqn:Hm; [|exact Hx].
  destruct (Hhash eq_refl) as [plain [_ ->]].
  rewrite bcrypt_hash_length.
  apply andb_true_iff in Hx. destruct Hx as [Hx _]. rewrite Hx. reflexivity.
Qed.

(** [save] keeps the collection well-formed as long as it does not touch
    the e-mail or the name. *)
Lemma save_well_formed (u : user) (ev : env) (db : collection) :
  well_formed db = true ->
  isModified Pemail u = false -> isModified Pname u = false ->
  well_formed (fst (save u ev db)) = true.
Proof.
  intros Hwf He Hn. destruct (save u ev db) as [db' r] eqn:Hs. cbn [fst].
  unfold well_formed in Hwf.
  apply andb_true_iff in Hwf. destruct Hwf as [Hwf Hvalid].
  apply andb_true_iff in Hwf. destruct Hwf as [Hid Hem].
  destruct (save_inv _ _ _ _ _ Hid Hs) as [[-> _]|[u' [Hp [_ [-> _]]]]].
  - unfold well_formed. rewrite Hid, Hem, Hvalid. reflexivity.
  - destruct (pre_save_inv _ _ _ Hp) as [_ [Hmod _]].
    unfold well_formed.
    rewrite (unique_ids_map _ _ (written_id u')), Hid.
    rewrite unique_emails_map, Hem
      by (intros x; apply written_email; unfold isModified in *; rewrite Hmod; exact He).
    cbn [andb]. rewrite forallb_forall in *. intros y Hy.
    apply in_map_iff in Hy. destruct Hy as [x [<- Hx]].
    apply (valid_account_written u' x _ u Hp He Hn). apply Hvalid, Hx.
Qed.

Lemma existsb_app_one (p : user -> bool) (db : collection) (u : user) :
  existsb p (db ++ [u]) = existsb p db || p u.
Proof. rewrite existsb_app. cbn. rewrite orb_false_r. reflexivity. Qed.

Lemma unique_ids_app (db : collection) (u : user) :
  unique_ids db = true ->
  existsb (fun d => Nat.eqb (_id d) (_id u)) db = false ->
  unique_ids (db ++ [u]) = true.
Proof.
  intros Hu Hfree. induction db as [|d rest IH]; [reflexivity|].
  cbn in *. apply andb_true_iff in Hu. destruct Hu as [Hd Hrest].
  apply orb_false_iff in Hfree. destruct Hfree as [Hdu Hr].
  rewrite (IH Hrest Hr), andb_true_r, existsb_app_one.
  apply negb_true_iff in Hd. rewrite Hd. cbn. rewrite Nat.eqb_sym, Hdu. reflexivity.
Qed.

Lemma unique_emails_app (db : collection) (u : user) :
  unique_emails db = true ->
  existsb (fun d => String.eqb (email d) (email u)) db = false ->
  unique_emails (db ++ [u]) = true.
Proof.
  intros Hu Hfree. induction db as [|d rest IH]; [reflexivity|].
  cbn in *. apply andb_true_iff in Hu. destruct Hu as [Hd Hrest].
  apply orb_false_iff in Hfree. destruct Hfree as [Hdu Hr].
  rewrite (IH Hrest Hr), andb_true_r, existsb_app_one.
  apply negb_true_iff in Hd. rewrite Hd. cbn. rewrite String.eqb_sym, Hdu. reflexivity.
Qed.

Lemma existsb_delete_by_id (p : user -> bool) (id : nat) (db : collection) :
  existsb p db = false -> existsb p (delete_by_id id db) = false.
Proof.
  induction db as [|d rest IH]; [reflexivity|]. cbn. intros H.
  apply orb_false_iff in H. destruct H as [Hd Hr].
  destruct (Nat.eqb (_id d) id); [exact Hr|]. cbn. rewrite Hd. exact (IH Hr).
Qed.

Lemma delete_by_id_well_formed (id : nat) (db : collection) :
  well_formed db = true -> well_formed (delete_by_id id db) = true.
Proof.
  unfold well_formed. induction db as [|d rest IH]; [reflexivity|].
  cbn [unique_ids unique_emails forallb delete_by_id]. intros H.
  apply andb_true_iff in H. destruct H as [H Hv].
  apply andb_true_iff in H. destruct H as [Hi He].
  apply andb_true_iff in Hi. destruct Hi as [Hi1 Hi2].
  apply andb_true_iff in He. destruct He as [He1 He2].
  apply andb_true_iff in Hv. destruct Hv as [Hv1 Hv2].
  assert (unique_ids rest && unique_emails rest && forallb valid_account rest = true) as Hrest
    by (rewrite Hi2, He2, Hv2; reflexivity).
  destruct (Nat.eqb (_id d) id); [exact Hrest|].
  specialize (IH Hrest).
  apply andb_true_iff in IH. destruct IH as [IH IHv].
  apply andb_true_iff in IH. destruct IH as [IHi IHe].
  cbn [unique_ids unique_emails forallb]. rewrite IHi, IHe, IHv, Hv1.
  apply negb_true_iff in Hi1, He1.
  rewrite (existsb_delete_by_id _ id rest Hi1), (existsb_delete_by_id _ id rest He1).
  reflexivity.
Qed.

(** [User.create] keeps the collection well-formed: it refuses a document
    the schema rejects, a taken [_id] and a taken e-mail. *)
Lemma User_create_well_formed (mail : string) (pw : JS.jsval) (nm : string) (v : bool)
    (ev : env) (db : collection) :
  well_formed db = true -> well_formed (fst (User_create mail pw nm v ev db)) = true.
Proof.
  intros Hwf. unfold User_create.
  match goal with |- context [validate ?u] => destruct (validate u) eqn:Hv end;
    [exact Hwf|].
  apply validate_inv in Hv. destruct Hv as [Hve [Hvp Hvn]].
  unfold pre_save. cbn [isModified modified existsb path_eqb orb negb password].
  destruct (cast_string pw) as [plain|]; [|exact Hwf].
  cbn [_id email name isVerified verificationOTP verificationOTPExpire
       resetPasswordOTP resetPasswordExpire createdAt modified clean].
  match goal with |- context [if ?c then _ else _] => destruct c eqn:Ec end;
    [exact Hwf|].
  cbn [fst]. unfold well_formed in *.
  apply andb_true_iff in Hwf. destruct Hwf as [Hwf Hvalid].
  apply andb_true_iff in Hwf. destruct Hwf as [Hid Hem].
  assert (existsb (fun d => Nat.eqb (_id d) (ObjectId ev)) db = false /\
          existsb (fun d => String.eqb (email d) (email_setter mail)) db = false) as [F1 F2].
  { clear - Ec. induction db as [|x rest IH]; [split; reflexivity|].
    cbn in *. apply orb_false_iff in Ec. destruct Ec as [Hx Hr].
    apply orb_false_iff in Hx. destruct Hx as [Hx1 Hx2].
    destruct (IH Hr) as [I1 I2]. rewrite Hx1, Hx2, I1, I2. split; reflexivity. }
  rewrite unique_ids_app, unique_emails_app by assumption.
  rewrite forallb_app, Hvalid. cbn [andb forallb].
  unfold valid_account. cbn [email name password clean].
  rewrite bcrypt_hash_length.
  unfold validate_email in Hve. cbn [email] in Hve.
  destruct (String.eqb (email_setter mail) ""); [discriminate|].
  destruct (Regex.test email_regex (email_setter mail)); [|discriminate].
  unfold validate_name in Hvn. cbn [name] in Hvn.
  destruct (String.eqb (JS.trim nm) ""); [discriminate|]. reflexivity.
Qed.

Lemma unique_ids_In_eq (db : collection) (x d : user) :
  unique_ids db = true -> In x db -> In d db -> _id x = _id d -> x = d.
Proof.
  induction db as [|y rest IH]; [contradiction|].
  cbn [unique_ids]. intros Hu Hx Hd Hid.
  apply andb_true_iff in Hu. destruct Hu as [Hy Hrest]. apply negb_true_iff in Hy.
  assert (forall z, In z rest -> _id z <> _id y) as Hfresh.
  { intros z Hz E.
    assert (existsb (fun w => Nat.eqb (_id w) (_id y)) rest = true) as C
      by (apply existsb_exists; exists z; split; [exact Hz|apply Nat.eqb_eq, E]).
    congruence. }
  destruct Hx as [<-|Hx], Hd as [<-|Hd].
  - reflexivity.
  - exfalso. apply (Hfresh d Hd). congruence.
  - exfalso. apply (Hfresh x Hx). congruence.
  - apply IH; assumption.
Qed.

(** With unique [_id]s, saving a document loaded from [d] replaces [d] and
    leaves every other account as it was. *)
Lemma map_written_replace (mem d : user) (db : collection) :
  unique_ids db = true -> In d db -> _id mem = _id d ->
  map (written mem) db = replace_account d (merge mem d) db.
Proof.
  intros Hu Hd Hid. unfold replace_account. apply map_ext_in. intros x Hx.
  unfold written. rewrite Hid. destruct (Nat.eqb (_id x) (_id d)) eqn:E; [|reflexivity].
  apply Nat.eqb_eq in E. rewrite (unique_ids_In_eq db x d Hu Hx Hd E). reflexivity.
Qed.

Lemma update_by_id_In (mem d : user) (db : collection) :
  In d db -> _id mem = _id d -> exists db', update_by_id mem db = Some db'.
Proof.
  intros Hd Hid. induction db as [|x rest IH]; [contradiction|].
  cbn [update_by_id]. destruct (Nat.eqb (_id x) (_id mem)) eqn:E; [eauto|].
  destruct Hd as [->|Hd]; [rewrite Hid, Nat.eqb_refl in E; discriminate|].
  destruct (IH Hd) as [db' ->]. cbn. eauto.
Qed.

Lemma stored_replace_account (mail : string) (d new : user) (db : collection) :
  stored mail db = Some d -> email new = email d ->
  stored mail (replace_account d new db) = Some new.
Proof.
  unfold stored, replace_account. intros Hs He.
  induction db as [|x rest IH]; [discriminate|].
  cbn [find map] in *.
  destruct (String.eqb (email x) (email_setter mail)) eqn:Ex.
  - injection Hs as ->. rewrite Nat.eqb_refl, He, Ex. reflexivity.
  - destruct (Nat.eqb (_id x) (_id d)).
    + apply find_some in Hs. destruct Hs as [_ Hd]. rewrite He, Hd. reflexivity.
    + rewrite Ex. exact (IH Hs).
Qed.

(** An account other than the one replaced is found as before. *)
Lemma stored_replace_account_other (mail : string) (d new : user) (db : collection) :
  unique_ids db = true -> In d db -> email new = email d ->
  email_setter mail <> email d ->
  stored mail (replace_account d new db) = stored mail db.
Proof.
  unfold stored, replace_account. intros Hu Hd He Hne.
  assert (forall x, In x db -> _id x = _id d -> x = d) as Huniq
    by (intros x Hx; apply (unique_ids_In_eq db); assumption).
  clear Hu Hd. induction db as [|x rest IH]; [reflexivity|].
  cbn [find map]. destruct (Nat.eqb (_id x) (_id d)) eqn:E.
  - apply Nat.eqb_eq in E. rewrite (Huniq x (or_introl eq_refl) E), He.
    destruct (String.eqb (email d) (email_setter mail)) eqn:Ed;
      [apply String.eqb_eq in Ed; congruence|].
    apply IH. intros y Hy. apply Huniq. right. exact Hy.
  - destruct (String.eqb (email x) (email_setter mail)); [reflexivity|].
    apply IH. intros y Hy. apply Huniq. right. exact Hy.
Qed.

(** [save] on a document loaded from the stored account [d], when the
    validators pass. *)
Lemma save_replace (u u' : user) (ev : env) (db : collection) (d : user) :
  unique_ids db = true -> In d db -> _id u = _id d ->
  validate_loaded u = None -> pre_save (genSalt ev) u = Val u' ->
  save u ev db = (replace_account d (merge u' d) db, Val (clean u')).
Proof.
  intros Hu Hd Hid Hv Hp.
  destruct (pre_save_inv _ _ _ Hp) as [Hid' _].
  destruct (update_by_id_In u' d db Hd ltac:(congruence)) as [db' Hup].
  unfold save. rewrite Hv, Hp, Hup.
  rewrite (update_by_id_map _ _ _ Hu Hup).
  rewrite (map_written_replace u' d db Hu Hd) by congruence. reflexivity.
Qed.

Lemma save_throw (u : user) (ev : env) (db db' : collection) (msg : string) :
  save u ev db = (db', Throw msg) -> db' = db.
Proof.
  unfold save. intros H.
  repeat match type of H with
         | (match ?v with _ => _ end) = _ => destruct v
         end; congruence.
Qed.

(** ** Further properties of the routes *)

Lemma verify_email_accepted (mail : string) (otp : JS.jsval) (ev : env)
    (db : collection) (d : user) :
  unique_ids db = true ->
  stored mail db = Some d ->
  validate_email d = None -> validate_name d = None ->
  isVerified d = false ->
  verifyVerificationOTP d otp (Date_now ev) = true ->
  verify_email mail otp ev db
  = (replace_account d (after_verify d) db,
     json_data 200 true "Email verified successfully"
       (Session (generateToken (_id d) ev) (_id d) (email d) (name d))).
Proof.
  intros Hu Hs Hve Hvn Hv Hok. destruct (stored_email _ _ _ Hs) as [Hin _].
  unfold verify_email, try_catch, bind, User_findOne. rewrite Hs.
  cbn [option_map]. rewrite verifyVerificationOTP_project.
  change (isVerified (project [PverificationOTP; PverificationOTPExpire] d))
    with (isVerified d).
  rewrite Hv, Hok. cbn [negb].
  match goal with
  | |- context [save ?u ev db] =>
      rewrite (save_replace u u ev db d Hu Hin eq_refl
                 (validate_loaded_None u Hve Hvn ltac:(discriminate)) eq_refl)
  end.
  reflexivity.
Qed.

(** X1. For a stored account that passes the validators of the schema,
    verify-email with the code of a verification challenge that has not
    expired marks the account verified, clears the verification challenge
    and answers 200 with a token for the account; the password and the
    reset challenge of the account, and every other account, are as
    before. *)
Theorem verify_email_verifies (mail code salt : string) (ev : env)
    (db : collection) (d : user) (t : Z) :
  unique_ids db = true ->
  stored mail db = Some d ->
  valid_account d = true ->
  isVerified d = false ->
  verificationOTP d = Some (bcrypt_hash code salt) ->
  verificationOTPExpire d = Some t ->
  Date_now ev <= t ->
  verify_email mail (JS.JString code) ev db
  = (replace_account d (after_verify d) db,
     json_data 200 true "Email verified successfully"
       (Session (jwt_sign (_id d) (Date_now ev)) (_id d) (email d) (name d))) /\
  stored mail (fst (verify_email mail (JS.JString code) ev db)) = Some (after_verify d) /\
  password (after_verify d) = password d /\
  resetPasswordOTP (after_verify d) = resetPasswordOTP d /\
  resetPasswordExpire (after_verify d) = resetPasswordExpire d /\
  (forall other,
      email_setter other <> email_setter mail ->
      stored other (fst (verify_email mail (JS.JString code) ev db)) = stored other db).
Proof.
  intros Hu Hs Hva Hv Hh He Ht. destruct (stored_email _ _ _ Hs) as [Hin Hmail].
  assert (verifyVerificationOTP d (JS.JString code) (Date_now ev) = true) as Hok
    by (rewrite (verifyVerificationOTP_live d code _ _ t He Hh Ht); apply bcrypt_compare_hash).
  destruct (valid_account_validators d Hva) as [Hve Hvn].
  rewrite (verify_email_accepted _ _ _ _ _ Hu Hs Hve Hvn Hv Hok). cbn [fst].
  split; [reflexivity|]. split; [apply stored_replace_account; [exact Hs|reflexivity]|].
  repeat split.
  intros other Hne. apply stored_replace_account_other; auto. congruence.
Qed.

(** X2. verify-email changes the collection only when it answers 200.  An
    e-mail that matches no account is answered 400 "Invalid email"; an
    account that is already verified is answered 400 "User already
    verified" whatever the code, so an account is verified at most once. *)
Theorem verify_email_rejections (mail : string) (otp : JS.jsval) (ev : env)
    (db : collection) :
  (status (snd (verify_email mail otp ev db)) <> 200 ->
   fst (verify_email mail otp ev db) = db) /\
  (stored mail db = None ->
   verify_email mail otp ev db = (db, json 400 false "Invalid email")) /\
  (forall d, stored mail db = Some d -> isVerified d = true ->
             verify_email mail otp ev db = (db, json 400 false "User already verified")).
Proof.
  split; [|split].
  - unfold verify_email, try_catch, bind, User_findOne.
    destruct (stored mail db) as [d|]; cbn [option_map]; [|reflexivity].
    destruct (isVerified _); [reflexivity|].
    destruct (negb _); [reflexivity|].
    match goal with |- context [save ?u ev db] => destruct (save u ev db) as [db' [u'|msg]] eqn:Hs end.
    + cbn. intros H. contradiction H. reflexivity.
    + intros _. cbn. exact (save_throw _ _ _ _ _ Hs).
  - intros Hs. unfold verify_email, try_catch, bind, User_findOne. rewrite Hs. reflexivity.
  - intros d Hs Hv. unfold verify_email, try_catch, bind, User_findOne. rewrite Hs.
    cbn [option_map].
    change (isVerified (project [PverificationOTP; PverificationOTPExpire] d))
      with (isVerified d).
    rewrite Hv. reflexivity.
Qed.

Lemma stored_same_email (mail other : string) (db : collection) :
  email_setter other = email_setter mail -> stored other db = stored mail db.
Proof. intros H. unfold stored. rewrite H. reflexivity. Qed.

Lemma forgot_password_replace (mail : string) (ev : env) (db : collection) (d : user) :
  unique_ids db = true ->
  stored mail db = Some d ->
  valid_account d = true ->
  forgot_password mail ev db
  = (replace_account d
       (with_reset_challenge d (bcrypt_hash (new_otp ev) (otp_salt ev))
          (Date_now ev + 600000)) db,
     match sendMail ev with
     | Val _ => json_data 200 true "OTP sent to your email. Valid for 10 minutes."
                  (SentTo mail)
     | Throw _ => json 500 false "Error sending email. Please try again later."
     end).
Proof.
  intros Hu Hs Hva. destruct (stored_email _ _ _ Hs) as [Hin _].
  destruct (valid_account_validators d Hva) as [Hve Hvn].
  unfold forgot_password, try_catch, bind, User_findOne. rewrite Hs.
  cbn [option_map generateResetOTP].
  match goal with
  | |- context [save ?u ev db] =>
      rewrite (save_replace u u ev db d Hu Hin eq_refl
                 (validate_loaded_None u Hve Hvn ltac:(discriminate)) eq_refl)
  end.
  unfold sendPasswordResetEmail, ret. destruct (sendMail ev); reflexivity.
Qed.

(** Whatever the stored account holds, forgot-password either writes the
    reset challenge or leaves the collection as it was. *)
Lemma forgot_password_fst (mail : string) (ev : env) (db : collection) (d : user) :
  unique_ids db = true ->
  stored mail db = Some d ->
  fst (forgot_password mail ev db) = db \/
  fst (forgot_password mail ev db)
  = replace_account d
      (with_reset_challenge d (bcrypt_hash (new_otp ev) (otp_salt ev))
         (Date_now ev + 600000)) db.
Proof.
  intros Hu Hs. destruct (stored_email _ _ _ Hs) as [Hin _].
  unfold forgot_password, try_catch, bind, User_findOne. rewrite Hs.
  cbn [option_map generateResetOTP].
  match goal with
  | |- context [save ?u ev db] => destruct (validate_loaded u) as [err|] eqn:Hv;
      [left; unfold save; rewrite Hv; reflexivity
      |right; rewrite (save_replace u u ev db d Hu Hin eq_refl Hv eq_refl)]
  end.
  unfold sendPasswordResetEmail, ret. destruct (sendMail ev); reflexivity.
Qed.

(** X3. For a stored account that passes the validators of the schema,
    the code that forgot-password issues is accepted by verify-otp for 10
    minutes and refused afterwards, also when the e-mail that carries it
    could not be sent: the challenge is stored before the mail goes out
    and is not withdrawn when the response is 500. *)
Theorem forgot_password_code_lifetime (mail : string) (ev ev' : env)
    (db : collection) (d : user) :
  unique_ids db = true ->
  stored mail db = Some d ->
  valid_account d = true ->
  (Date_now ev' <= Date_now ev + 600000 ->
   verify_otp mail (JS.JString (new_otp ev)) ev' (fst (forgot_password mail ev db))
   = (fst (forgot_password mail ev db), json 200 true "OTP verified successfully")) /\
  (Date_now ev + 600000 < Date_now ev' ->
   verify_otp mail (JS.JString (new_otp ev)) ev' (fst (forgot_password mail ev db))
   = (fst (forgot_password mail ev db), json 400 false "Invalid or expired OTP")).
Proof.
  intros Hu Hs Hva. rewrite (forgot_password_replace _ _ _ _ Hu Hs Hva). cbn [fst].
  set (d' := with_reset_challenge d (bcrypt_hash (new_otp ev) (otp_salt ev))
               (Date_now ev + 600000)).
  assert (stored mail (replace_account d d' db) = Some d') as Hs'
    by (apply stored_replace_account; [exact Hs|reflexivity]).
  rewrite (verify_otp_found _ _ _ _ _ Hs').
  change (falsy (resetPasswordOTP d'))
    with (falsy (Some (bcrypt_hash (new_otp ev) (otp_salt ev)))).
  rewrite falsy_hash. split; intros Ht.
  - rewrite (verifyResetOTP_live d' (new_otp ev) _ _ _ eq_refl eq_refl Ht).
    rewrite bcrypt_compare_hash. reflexivity.
  - rewrite (verifyResetOTP_expired d' _ _ _ eq_refl Ht). reflexivity.
Qed.

(** X4. forgot-password changes nothing but the reset challenge of the
    account it matches, which it writes when the stored account passes the
    validators of the schema: every login is answered after it exactly as
    before it, so asking for a reset code neither locks the account nor
    changes its password or its verification. *)
Theorem forgot_password_keeps_login (mail : string) (ev : env) (db : collection)
    (d : user) :
  unique_ids db = true ->
  stored mail db = Some d ->
  (valid_account d = true ->
   fst (forgot_password mail ev db)
   = replace_account d
       (with_reset_challenge d (bcrypt_hash (new_otp ev) (otp_salt ev))
          (Date_now ev + 600000)) db) /\
  (forall other pw ev',
      snd (login other pw ev' (fst (forgot_password mail ev db)))
      = snd (login other pw ev' db)).
Proof.
  intros Hu Hs. destruct (stored_email _ _ _ Hs) as [Hin Hmail].
  split; [intros Hva; rewrite (forgot_password_replace _ _ _ _ Hu Hs Hva); reflexivity|].
  intros other pw ev'.
  destruct (forgot_password_fst mail ev db d Hu Hs) as [->| ->]; [reflexivity|].
  set (d' := with_reset_challenge d (bcrypt_hash (new_otp ev) (otp_salt ev))
               (Date_now ev + 600000)).
  destruct (String.eqb (email_setter other) (email_setter mail)) eqn:E.
  - apply String.eqb_eq in E.
    assert (stored other db = Some d) as Ho by (rewrite (stored_same_email mail other db E); exact Hs).
    assert (stored other (replace_account d d' db) = Some d') as Ho'
      by (apply stored_replace_account; [exact Ho|reflexivity]).
    rewrite (login_found _ _ _ _ _ Ho), (login_found _ _ _ _ _ Ho'). reflexivity.
  - apply String.eqb_neq in E.
    assert (stored other (replace_account d d' db) = stored other db) as Ho
      by (apply stored_replace_account_other; auto; congruence).
    destruct (stored other db) as [x|] eqn:Hx.
    + rewrite (login_found _ _ _ _ _ Ho), (login_found _ _ _ _ _ Hx). reflexivity.
    + rewrite (login_not_found _ _ _ _ Ho), (login_not_found _ _ _ _ Hx). reflexivity.
Qed.

(** What a signup answered 201 has done. *)
Lemma signup_created (mail : string) (pw : JS.jsval) (nm : option string) (ev : env)
    (db : collection) :
  status (snd (signup mail pw nm ev db)) = 201 ->
  exists plain,
    cast_string pw = Some plain /\
    stored mail db = None /\
    existsb (fun d => Nat.eqb (_id d) (ObjectId ev)) db = false /\
    Regex.test email_regex (email_setter mail) = true /\
    JS.trim (signup_name mail nm) <> "" /\
    fst (signup mail pw nm ev db)
    = db ++ [mkUser (ObjectId ev) (email_setter mail)
               (Some (bcrypt_hash plain (genSalt ev)))
               (JS.trim (signup_name mail nm)) false
               (Some (bcrypt_hash (new_otp ev) (otp_salt ev)))
               (Some (Date_now ev + 600000)) None None (created_now ev) []].
Proof.
  intros Hst. unfold signup in *.
  destruct (stored mail db) as [d|] eqn:Hs.
  - rewrite (signup_with_duplicate _ _ _ _ _ _ _ Hs) in Hst. discriminate.
  - destruct (User_create mail pw (signup_name mail nm) false ev db) as [db1 [u|msg]] eqn:Hc.
    + rewrite (signup_with_created _ _ _ _ _ _ _ _ Hs Hc), sendVerificationEmail_success.
      destruct (User_create_valid _ _ _ _ _ _ _ _ Hc) as [Hve Hvn].
      destruct (User_create_inv _ _ _ _ _ _ _ _ Hc) as [_ [Hfree [plain [Hp ->]]]].
      unfold validate_email in Hve. unfold validate_name in Hvn. cbn [email name] in Hve, Hvn.
      exists plain. split; [exact Hp|]. split; [reflexivity|]. split; [exact Hfree|].
      split; [|split; [|reflexivity]].
      * destruct (String.eqb (email_setter mail) ""); [discriminate|].
        destruct (Regex.test email_regex (email_setter mail)); [reflexivity|discriminate].
      * intros E. rewrite E in Hvn. discriminate.
    + rewrite (signup_with_not_created _ _ _ _ _ _ _ _ Hs Hc) in Hst. discriminate.
Qed.

(** X5. The life of an account: after a signup answered 201, login with
    the password is refused with 403 until the address is verified;
    verify-email with the code that was issued, within 10 minutes, answers
    200; and from then on login with the password answers 200 with a token
    for the new account. *)
Theorem signup_verify_login (mail plain : string) (nm : option string)
    (ev1 ev2 ev3 : env) (db : collection) :
  unique_ids db = true ->
  status (snd (signup mail (JS.JString plain) nm ev1 db)) = 201 ->
  Date_now ev2 <= Date_now ev1 + 600000 ->
  status (snd (login mail (JS.JString plain) ev3
                 (fst (signup mail (JS.JString plain) nm ev1 db)))) = 403 /\
  status (snd (verify_email mail (JS.JString (new_otp ev1)) ev2
                 (fst (signup mail (JS.JString plain) nm ev1 db)))) = 200 /\
  snd (login mail (JS.JString plain) ev3
         (fst (verify_email mail (JS.JString (new_otp ev1)) ev2
                 (fst (signup mail (JS.JString plain) nm ev1 db)))))
  = json_data 200 true "Login successful"
      (Session (jwt_sign (ObjectId ev1) (Date_now ev3)) (ObjectId ev1)
         (email_setter mail) (JS.trim (signup_name mail nm))).
Proof.
  intros Hu Hst Ht.
  destruct (signup_created _ _ _ _ _ Hst) as [p [Hp [Hs [Hfree [Hmatch [Hname ->]]]]]].
  cbn in Hp. injection Hp as <-.
  set (u := mkUser (ObjectId ev1) (email_setter mail)
              (Some (bcrypt_hash plain (genSalt ev1)))
              (JS.trim (signup_name mail nm)) false
              (Some (bcrypt_hash (new_otp ev1) (otp_salt ev1)))
              (Some (Date_now ev1 + 600000)) None None (created_now ev1) []).
  assert (stored mail (db ++ [u]) = Some u) as Hs1
    by (apply stored_app_new; [exact Hs|reflexivity]).
  assert (unique_ids (db ++ [u]) = true) as Hu1
    by (apply unique_ids_app; [exact Hu|exact Hfree]).
  assert (verifyVerificationOTP u (JS.JString (new_otp ev1)) (Date_now ev2) = true) as Hok
    by (rewrite (verifyVerificationOTP_live u _ _ _ _ eq_refl eq_refl Ht);
        apply bcrypt_compare_hash).
  assert (validate_email u = None) as Hve.
  { unfold validate_email. cbn [u email]. rewrite Hmatch.
    destruct (String.eqb_spec (email_setter mail) "") as [E|E]; [|reflexivity].
    rewrite E in Hmatch. vm_compute in Hmatch. discriminate. }
  assert (validate_name u = None) as Hvn.
  { unfold validate_name. cbn [u name].
    destruct (String.eqb_spec (JS.trim (signup_name mail nm)) "") as [E|E];
      [contradiction|reflexivity]. }
  split; [|split].
  - rewrite (login_found _ _ _ _ _ Hs1). cbn [u password js_of bcrypt_compare_js isVerified].
    rewrite bcrypt_compare_hash. reflexivity.
  - rewrite (verify_email_accepted _ _ _ _ _ Hu1 Hs1 Hve Hvn eq_refl Hok). reflexivity.
  - rewrite (verify_email_accepted _ _ _ _ _ Hu1 Hs1 Hve Hvn eq_refl Hok). cbn [fst].
    assert (stored mail (replace_account u (after_verify u) (db ++ [u]))
            = Some (after_verify u)) as Hs2
      by (apply stored_replace_account; [exact Hs1|reflexivity]).
    rewrite (login_found _ _ _ _ _ Hs2).
    cbn [u after_verify password js_of bcrypt_compare_js isVerified _id email name].
    rewrite bcrypt_compare_hash. reflexivity.
Qed.

Lemma signup_with_well_formed (send : string -> string -> string -> env -> Email.result)
    (mail : string) (pw : JS.jsval) (nm : option string) (ev : env) (db : collection) :
  well_formed db = true -> well_formed (fst (signup_with send mail pw nm ev db)) = true.
Proof.
  intros Hwf. unfold signup_with, try_catch, bind, User_findOne.
  destruct (stored mail db); cbn [option_map]; [exact Hwf|].
  pose proof (User_create_well_formed mail pw (signup_name mail nm) false ev db Hwf) as H1.
  destruct (User_create mail pw (signup_name mail nm) false ev db) as [db1 [u|msg]] eqn:Hc;
    cbn [fst] in H1; [|exact H1].
  destruct (User_create_inv _ _ _ _ _ _ _ _ Hc) as [_ [_ [plain [_ ->]]]].
  cbn [generateVerificationOTP].
  match goal with
  | |- context [save ?x ev db1] =>
      pose proof (save_well_formed x ev db1 H1 eq_refl eq_refl) as H2;
      destruct (save x ev db1) as [db2 [u2|msg]]
  end; cbn [fst] in H2; [|exact H2].
  destruct (negb _); [|exact H2].
  unfold User_findByIdAndDelete, ret. cbn. apply delete_by_id_well_formed, H2.
Qed.

Lemma verify_email_well_formed (mail : string) (otp : JS.jsval) (ev : env) (db : collection) :
  well_formed db = true -> well_formed (fst (verify_email mail otp ev db)) = true.
Proof.
  intros Hwf. unfold verify_email, try_catch, bind, User_findOne.
  destruct (stored mail db); cbn [option_map]; [|exact Hwf].
  destruct (isVerified _); [exact Hwf|]. destruct (negb _); [exact Hwf|].
  match goal with
  | |- context [save ?x ev db] =>
      pose proof (save_well_formed x ev db Hwf eq_refl eq_refl) as H2;
      destruct (save x ev db) as [db2 [u2|msg]]
  end; exact H2.
Qed.

Lemma forgot_password_well_formed (mail : string) (ev : env) (db : collection) :
  well_formed db = true -> well_formed (fst (forgot_password mail ev db)) = true.
Proof.
  intros Hwf. unfold forgot_password, try_catch, bind, User_findOne.
  destruct (stored mail db); cbn [option_map]; [|exact Hwf].
  cbn [generateResetOTP].
  match goal with
  | |- context [save ?x ev db] =>
      pose proof (save_well_formed x ev db Hwf eq_refl eq_refl) as H2;
      destruct (save x ev db) as [db2 [u2|msg]]
  end; [|exact H2].
  destruct (negb _); exact H2.
Qed.

Lemma reset_password_well_formed (mail : string) (otp np : JS.jsval) (ev : env)
    (db : collection) :
  well_formed db = true -> well_formed (fst (reset_password mail otp np ev db)) = true.
Proof.
  intros Hwf. unfold reset_password, try_catch, bind, User_findOne.
  destruct (stored mail db); cbn [option_map]; [|exact Hwf].
  destruct (falsy _); [exact Hwf|]. destruct (negb _); [exact Hwf|].
  match goal with
  | |- context [save ?x ev db] =>
      pose proof (save_well_formed x ev db Hwf eq_refl eq_refl) as H2;
      destruct (save x ev db) as [db2 [u2|msg]]
  end; exact H2.
Qed.

Lemma delete_account_well_formed (authorization : option string) (ev : env)
    (db : collection) :
  well_formed db = true -> well_formed (fst (delete_account authorization ev db)) = true.
Proof.
  intros Hwf. unfold delete_account, protect.
  destruct (bearer_token authorization) as [token|]; [|exact Hwf].
  destruct (String.eqb token ""); [exact Hwf|].
  destruct (jwt_verify token (Date_now ev)) as [id|name].
  - destruct (User_findById id db); [|exact Hwf].
    cbn. apply delete_by_id_well_formed, Hwf.
  - destruct (String.eqb name "JsonWebTokenError"); [exact Hwf|].
    destruct (String.eqb name "TokenExpiredError"); exact Hwf.
Qed.

(** X6. Every route of the authentication API keeps the collection
    well-formed: no two accounts share an [_id] or an e-mail, and every
    account has an e-mail that matches the pattern of the schema, a
    non-empty name and a 60-character bcrypt hash as password; no route
    ever stores a password as it was sent. *)
Theorem auth_routes_keep_well_formed (db : collection) :
  well_formed db = true ->
  (forall mail pw nm ev, well_formed (fst (signup mail pw nm ev db)) = true) /\
  (forall mail otp ev, well_formed (fst (verify_email mail otp ev db)) = true) /\
  (forall mail pw ev, well_formed (fst (login mail pw ev db)) = true) /\
  (forall mail ev, well_formed (fst (forgot_password mail ev db)) = true) /\
  (forall mail otp ev, well_formed (fst (verify_otp mail otp ev db)) = true) /\
  (forall mail otp np ev, well_formed (fst (reset_password mail otp np ev db)) = true) /\
  (forall authorization ev, well_formed (fst (delete_account authorization ev db)) = true).
Proof.
  intros Hwf. repeat split; intros.
  - apply signup_with_well_formed, Hwf.
  - apply verify_email_well_formed, Hwf.
  - destruct (stored mail db) as [d|] eqn:Hs.
    + rewrite (login_found _ _ _ _ _ Hs). exact Hwf.
    + rewrite (login_not_found _ _ _ _ Hs). exact Hwf.
  - apply forgot_password_well_formed, Hwf.
  - destruct (stored mail db) as [d|] eqn:Hs.
    + rewrite (verify_otp_found _ _ _ _ _ Hs). exact Hwf.
    + rewrite (verify_otp_not_found _ _ _ _ Hs). exact Hwf.
  - apply reset_password_well_formed, Hwf.
  - apply delete_account_well_formed, Hwf.
Qed.

(** What [User.create] has checked when it succeeds. *)
Lemma User_create_checked (mail : string) (pw : JS.jsval) (nm : string) (v : bool)
    (ev : env) (db db1 : collection) (u : user) :
  User_create mail pw nm v ev db = (db1, Val u) ->
  Regex.test email_regex (email_setter mail) = true /\
  (exists plain, cast_string pw = Some plain /\ (6 <= String.length plain)%nat) /\
  JS.trim nm <> "" /\
  existsb (fun d => String.eqb (email d) (email_setter mail)) db = false.
Proof.
  unfold User_create. intros H.
  match type of H with context [validate ?x] => destruct (validate x) eqn:Hv end;
    [discriminate|].
  apply validate_inv in Hv. destruct Hv as [Hve [Hvp Hvn]].
  unfold pre_save in H. cbn [isModified modified existsb path_eqb orb negb password] in H.
  unfold validate_email in Hve. cbn [email] in Hve.
  unfold validate_password in Hvp. cbn [password] in Hvp.
  unfold validate_name in Hvn. cbn [name] in Hvn.
  destruct (cast_string pw) as [plain|]; [|discriminate].
  cbn [_id email] in H.
  match type of H with (if ?c then _ else _) = _ => destruct c eqn:Ec; [discriminate|] end.
  destruct (String.eqb (email_setter mail) ""); [discriminate|].
  destruct (Regex.test email_regex (email_setter mail)); [|discriminate].
  destruct (String.eqb plain ""); [discriminate|].
  destruct (Nat.ltb (String.length plain) 6) eqn:Hl; [discriminate|].
  apply Nat.ltb_ge in Hl.
  destruct (String.eqb (JS.trim nm) "") eqn:Hn; [discriminate|].
  apply String.eqb_neq in Hn.
  repeat split; eauto.
  clear - Ec. induction db as [|x rest IH]; [reflexivity|].
  cbn in *. apply orb_false_iff in Ec. destruct Ec as [Hx Hr].
  apply orb_false_iff in Hx. destruct Hx as [_ Hx]. rewrite Hx. exact (IH Hr).
Qed.

Lemma signup_created_email (mail : string) (pw : JS.jsval) (nm : option string)
    (ev : env) (db : collection) :
  status (snd (signup mail pw nm ev db)) = 201 ->
  Regex.test email_regex (email_setter mail) = true.
Proof.
  intros Hst. unfold signup in Hst. destruct (stored mail db) as [d|] eqn:Hs.
  - rewrite (signup_with_duplicate _ _ _ _ _ _ _ Hs) in Hst. discriminate.
  - destruct (User_create mail pw (signup_name mail nm) false ev db) as [db1 [u|msg]] eqn:Hc.
    + apply (User_create_checked _ _ _ _ _ _ _ _ Hc).
    + rewrite (signup_with_not_created _ _ _ _ _ _ _ _ Hs Hc) in Hst. discriminate.
Qed.

(** X7. signup changes the collection only when it answers 201, and it
    answers 201 only when the e-mail, lower-cased and trimmed, matches the
    pattern of the schema and the password has at least 6 characters.  A
    document that the schema rejects on one path only is answered 500
    "Error creating user", with the message of the validator of that
    path, and nothing is stored: so it is for an e-mail that does not
    match the pattern, and for a password of 1 to 5 characters, when the
    other paths are as the schema wants them. *)
Theorem signup_checks (mail : string) (pw : JS.jsval) (nm : option string)
    (ev : env) (db : collection) :
  (status (snd (signup mail pw nm ev db)) <> 201 -> fst (signup mail pw nm ev db) = db) /\
  (status (snd (signup mail pw nm ev db)) = 201 ->
   Regex.test email_regex (email_setter mail) = true /\
   exists plain, cast_string pw = Some plain /\ (6 <= String.length plain)%nat) /\
  (forall plain,
      stored mail db = None ->
      email_setter mail <> "" ->
      Regex.test email_regex (email_setter mail) = false ->
      cast_string pw = Some plain ->
      (6 <= String.length plain)%nat ->
      JS.trim (signup_name mail nm) <> "" ->
      signup mail pw nm ev db
      = (db, json_error 500 "Error creating user"
               "User validation failed: email: Please enter a valid email")) /\
  (forall plain,
      stored mail db = None ->
      Regex.test email_regex (email_setter mail) = true ->
      cast_string pw = Some plain ->
      (0 < String.length plain < 6)%nat ->
      JS.trim (signup_name mail nm) <> "" ->
      signup mail pw nm ev db
      = (db, json_error 500 "Error creating user"
               "User validation failed: password: Password must be at least 6 characters")).
Proof.
  unfold signup. split; [|split; [|split]].
  - intros Hst. destruct (stored mail db) as [d|] eqn:Hs.
    + rewrite (signup_with_duplicate _ _ _ _ _ _ _ Hs). reflexivity.
    + destruct (User_create mail pw (signup_name mail nm) false ev db) as [db1 [u|msg]] eqn:Hc.
      * rewrite (signup_with_created _ _ _ _ _ _ _ _ Hs Hc), sendVerificationEmail_success in Hst.
        contradiction Hst. reflexivity.
      * rewrite (signup_with_not_created _ _ _ _ _ _ _ _ Hs Hc). reflexivity.
  - intros Hst. destruct (stored mail db) as [d|] eqn:Hs.
    + rewrite (signup_with_duplicate _ _ _ _ _ _ _ Hs) in Hst. discriminate.
    + destruct (User_create mail pw (signup_name mail nm) false ev db) as [db1 [u|msg]] eqn:Hc.
      * destruct (User_create_checked _ _ _ _ _ _ _ _ Hc) as [H1 [H2 _]]. split; assumption.
      * rewrite (signup_with_not_created _ _ _ _ _ _ _ _ Hs Hc) in Hst. discriminate.
  - intros plain Hs Hne Hre Hp Hlen Hnm.
    apply signup_with_not_created with (db1 := db); [exact Hs|].
    unfold User_create, validate, validate_email, validate_password, validate_name.
    cbn [email password name].
    apply String.eqb_neq in Hne, Hnm. rewrite Hne, Hre, Hp, Hnm.
    assert (String.eqb plain "" = false) as ->
      by (destruct plain; [cbn in Hlen; lia|reflexivity]).
    assert (Nat.ltb (String.length plain) 6 = false) as -> by (apply Nat.ltb_ge; lia).
    reflexivity.
  - intros plain Hs Hre Hp Hlen Hnm.
    apply signup_with_not_created with (db1 := db); [exact Hs|].
    unfold User_create, validate, validate_email, validate_password, validate_name.
    cbn [email password name].
    apply String.eqb_neq in Hnm. rewrite Hre, Hp, Hnm.
    assert (String.eqb (email_setter mail) "" = false) as ->.
    { destruct (email_setter mail); [discriminate Hre|reflexivity]. }
    assert (String.eqb plain "" = false) as ->
      by (destruct plain; [cbn in Hlen; lia|reflexivity]).
    assert (Nat.ltb (String.length plain) 6 = true) as -> by (apply Nat.ltb_lt; lia).
    reflexivity.
Qed.

(** X8. After a signup answered 201, a second signup with the same
    address, in any letter case and with any white space around it, is
    refused with 400 "User with this email already exists" and changes
    nothing. *)
Theorem signup_refuses_same_address (mail other : string) (pw pw' : JS.jsval)
    (nm nm' : option string) (ev ev' : env) (db : collection) :
  status (snd (signup mail pw nm ev db)) = 201 ->
  email_setter other = email_setter mail ->
  signup other pw' nm' ev' (fst (signup mail pw nm ev db))
  = (fst (signup mail pw nm ev db), json 400 false "User with this email already exists").
Proof.
  intros Hst He.
  destruct (signup_created _ _ _ _ _ Hst) as [p [_ [Hs [_ [_ [_ ->]]]]]].
  unfold signup. eapply signup_with_duplicate.
  rewrite (stored_same_email mail other _ He).
  apply stored_app_new; [exact Hs|reflexivity].
Qed.

(** ** What the e-mail pattern accepts *)

Lemma matches_nothing_deriv (c : ascii) (r : Regex.regex) :
  matches_nothing r = true ->
  Regex.nullable r = false /\ matches_nothing (Regex.deriv c r) = true.
Proof.
  induction r as [| |p|a IHa b IHb|a IHa b IHb|a IHa]; cbn; try discriminate.
  - auto.
  - intros H. apply orb_true_iff in H. destruct (Regex.nullable a) eqn:Na.
    + destruct H as [H|H]; [destruct (IHa H); discriminate|].
      destruct (IHb H) as [Nb Db]. rewrite Nb. cbn. rewrite H, Db, orb_true_r. auto.
    + destruct H as [H|H].
      * destruct (IHa H) as [_ Da]. cbn. rewrite Da. auto.
      * cbn. rewrite H, orb_true_r. auto.
  - intros H. apply andb_true_iff in H. destruct H as [Ha Hb].
    destruct (IHa Ha) as [-> ->], (IHb Hb) as [-> ->]. auto.
Qed.

Lemma matches_nothing_test (r : Regex.regex) (s : string) :
  matches_nothing r = true -> Regex.test r s = false.
Proof.
  revert r. induction s as [|c s IH]; intros r H; cbn.
  - apply (matches_nothing_deriv "a" r H).
  - apply IH. apply (matches_nothing_deriv c r H).
Qed.

Lemma reads_only_deriv (P : ascii -> bool) (c : ascii) (r : Regex.regex) :
  reads_only P r ->
  reads_only P (Regex.deriv c r) /\
  (P c = false -> matches_nothing (Regex.deriv c r) = true).
Proof.
  induction r as [| |p|a IHa b IHb|a IHa b IHb|a IHa]; cbn.
  - auto.
  - auto.
  - intros H. destruct (p c) eqn:Hp; cbn; split; auto.
    intros Hc. rewrite (H c Hp) in Hc. discriminate.
  - intros [Ha Hb]. destruct (IHa Ha) as [Ra Ea], (IHb Hb) as [Rb Eb].
    destruct (Regex.nullable a); cbn; split; auto.
    + intros Hc. rewrite (Ea Hc), (Eb Hc). reflexivity.
    + intros Hc. rewrite (Ea Hc). reflexivity.
  - intros [Ha Hb]. destruct (IHa Ha) as [Ra Ea], (IHb Hb) as [Rb Eb]. split; auto.
    intros Hc. rewrite (Ea Hc), (Eb Hc). reflexivity.
  - intros Ha. destruct (IHa Ha) as [Ra Ea]. split; auto.
    intros Hc. rewrite (Ea Hc). reflexivity.
Qed.

Lemma reads_only_test (P : ascii -> bool) (r : Regex.regex) (s : string) :
  reads_only P r -> Regex.test r s = true -> JS.all_chars P s = true.
Proof.
  revert r. induction s as [|c s IH]; intros r Hr Ht; [reflexivity|].
  cbn in *. destruct (reads_only_deriv P c r Hr) as [Hd He].
  destruct (P c) eqn:Hc.
  - cbn. exact (IH _ Hd Ht).
  - rewrite (matches_nothing_test _ s (He eq_refl)) in Ht. discriminate.
Qed.

Lemma has_to_read_nullable (Q : ascii -> bool) (r : Regex.regex) :
  has_to_read Q r -> Regex.nullable r = false.
Proof.
  induction r as [| |p|a IHa b IHb|a IHa b IHb|a IHa]; cbn; try tauto.
  - intros [H|H]; [rewrite (IHa H)|rewrite (IHb H), andb_false_r]; reflexivity.
  - intros [Ha Hb]. rewrite (IHa Ha), (IHb Hb). reflexivity.
Qed.

Lemma has_to_read_deriv (Q : ascii -> bool) (c : ascii) (r : Regex.regex) :
  has_to_read Q r -> Q c = false -> has_to_read Q (Regex.deriv c r).
Proof.
  intros Hr Hc. induction r as [| |p|a IHa b IHb|a IHa b IHb|a IHa]; cbn in *; try tauto.
  - destruct (p c) eqn:Hp; cbn; [|exact I]. rewrite (Hr c Hp) in Hc. discriminate.
  - destruct (Regex.nullable a) eqn:Na; cbn.
    + destruct Hr as [Ha|Hb].
      * rewrite (has_to_read_nullable Q a Ha) in Na. discriminate.
      * split; [right; exact Hb|exact (IHb Hb)].
    + destruct Hr as [Ha|Hb]; [left; exact (IHa Ha)|right; exact Hb].
Qed.

Lemma has_to_read_test (Q : ascii -> bool) (r : Regex.regex) (s : string) :
  has_to_read Q r -> Regex.test r s = true -> some_char Q s = true.
Proof.
  revert r. induction s as [|c s IH]; intros r Hr Ht; cbn in *.
  - rewrite (has_to_read_nullable Q r Hr) in Ht. discriminate.
  - destruct (Q c) eqn:Hc; [reflexivity|].
    exact (IH _ (has_to_read_deriv Q c r Hr Hc) Ht).
Qed.

(** A property of characters holds when it holds of the 256 of them. *)
Lemma ascii_forall (f : ascii -> bool) :
  forallb (fun n => f (ascii_of_nat n)) (seq 0 256) = true -> forall c, f c = true.
Proof.
  intros H c. rewrite forallb_forall in H.
  rewrite <- (ascii_nat_embedding c). apply H. apply in_seq.
  pose proof (nat_ascii_bounded c). lia.
Qed.

Lemma ascii_implies (p q : ascii -> bool) :
  forallb (fun n => implb (p (ascii_of_nat n)) (q (ascii_of_nat n))) (seq 0 256) = true ->
  forall c, p c = true -> q c = true.
Proof.
  intros H c Hp. pose proof (ascii_forall (fun c => implb (p c) (q c)) H c) as Hc.
  cbn beta in Hc. rewrite Hp in Hc. exact Hc.
Qed.

Lemma email_char_not_space (c : ascii) : email_char c = true -> JS.is_space c = false.
Proof.
  intros H.
  pose proof (ascii_implies email_char (fun c => negb (JS.is_space c))
                ltac:(vm_compute; reflexivity) c H) as Hc.
  apply negb_true_iff in Hc. exact Hc.
Qed.

(** X9. An e-mail that the pattern of the schema accepts is made of
    letters, digits, [_], [.], [-] and [@] only, holds an [@], and so is
    never empty and never holds white space. *)
Theorem email_regex_accepts (s : string) :
  Regex.test email_regex s = true ->
  JS.all_chars email_char s = true /\
  some_char (Ascii.eqb "@") s = true /\
  JS.all_chars (fun c => negb (JS.is_space c)) s = true /\
  s <> "".
Proof.
  intros Ht.
  assert (JS.all_chars email_char s = true) as Hall.
  { apply (reads_only_test email_char email_regex s); [|exact Ht].
    unfold email_regex, Regex.plus, Regex.opt, Regex.chr. cbn [reads_only].
    repeat split; apply ascii_implies; vm_compute; reflexivity. }
  assert (some_char (Ascii.eqb "@") s = true) as Hat.
  { apply (has_to_read_test (Ascii.eqb "@") email_regex s); [|exact Ht].
    unfold email_regex, Regex.chr. cbn [has_to_read]. right. left. auto. }
  split; [exact Hall|]. split; [exact Hat|]. split.
  - clear - Hall. induction s as [|c s IH]; [reflexivity|].
    cbn in *. apply andb_true_iff in Hall. destruct Hall as [Hc Hs].
    rewrite (email_char_not_space c Hc), (IH Hs). reflexivity.
  - intros ->. discriminate Hat.
Qed.

(** ** The default name and the stored e-mail *)

Lemma trimStart_map (f : ascii -> ascii) (s : string) :
  (forall c, JS.is_space (f c) = JS.is_space c) ->
  JS.trimStart (JS.map_string f s) = JS.map_string f (JS.trimStart s).
Proof.
  intros Hf. induction s as [|c s IH]; [reflexivity|].
  cbn. rewrite Hf. destruct (JS.is_space c); [exact IH|reflexivity].
Qed.

Lemma trimEnd_map (f : ascii -> ascii) (s : string) :
  (forall c, JS.is_space (f c) = JS.is_space c) ->
  JS.trimEnd (JS.map_string f s) = JS.map_string f (JS.trimEnd s).
Proof.
  intros Hf. induction s as [|c s IH]; [reflexivity|].
  cbn. rewrite IH, Hf. destruct (JS.trimEnd s); cbn; [|reflexivity].
  destruct (JS.is_space c); reflexivity.
Qed.

Lemma split_head_map (f : ascii -> ascii) (s : string) :
  (forall c, Ascii.eqb (f c) "@" = Ascii.eqb c "@") ->
  JS.split_head "@" (JS.map_string f s) = JS.map_string f (JS.split_head "@" s).
Proof.
  intros Hf. induction s as [|c s IH]; [reflexivity|].
  cbn. rewrite Hf. destruct (Ascii.eqb c "@"); [reflexivity|]. cbn. rewrite IH. reflexivity.
Qed.

Lemma trimStart_split_head (s : string) :
  JS.trimStart (JS.split_head "@" s) = JS.split_head "@" (JS.trimStart s).
Proof.
  induction s as [|c s IH]; [reflexivity|].
  cbn [JS.split_head JS.trimStart].
  destruct (JS.is_space c) eqn:Hs.
  - assert (Ascii.eqb c "@" = false) as ->.
    { destruct (Ascii.eqb c "@") eqn:E; [|reflexivity].
      apply Ascii.eqb_eq in E. subst c. discriminate Hs. }
    cbn [JS.trimStart]. rewrite Hs. exact IH.
  - cbn [JS.split_head]. destruct (Ascii.eqb c "@"); [reflexivity|].
    cbn [JS.trimStart]. rewrite Hs. reflexivity.
Qed.

Lemma split_head_trimEnd (t : string) :
  some_char (Ascii.eqb "@") (JS.trimEnd t) = true ->
  JS.split_head "@" t = JS.split_head "@" (JS.trimEnd t).
Proof.
  induction t as [|c t IH]; [reflexivity|].
  cbn [JS.trimEnd JS.split_head].
  destruct (Ascii.eqb c "@") eqn:E.
  - apply Ascii.eqb_eq in E. subst c. intros _.
    destruct (JS.trimEnd t); reflexivity.
  - destruct (JS.trimEnd t) as [|c' t'] eqn:Ht.
    + destruct (JS.is_space c); cbn [some_char]; [discriminate|].
      rewrite (Ascii.eqb_sym "@" c), E. discriminate.
    + cbn [some_char JS.split_head]. rewrite (Ascii.eqb_sym "@" c), E. cbn [orb].
      intros H. rewrite (IH H). reflexivity.
Qed.

Lemma trimEnd_no_space (s : string) :
  JS.all_chars (fun c => negb (JS.is_space c)) s = true -> JS.trimEnd s = s.
Proof.
  induction s as [|c s IH]; [reflexivity|].
  cbn. intros H. apply andb_true_iff in H. destruct H as [Hc Hs].
  rewrite (IH Hs). apply negb_true_iff in Hc. rewrite Hc. destruct s; reflexivity.
Qed.

Lemma all_chars_split_head (p : ascii -> bool) (s : string) :
  JS.all_chars p s = true -> JS.all_chars p (JS.split_head "@" s) = true.
Proof.
  induction s as [|c s IH]; [reflexivity|].
  cbn. intros H. apply andb_true_iff in H. destruct H as [Hc Hs].
  destruct (Ascii.eqb c "@"); [reflexivity|]. cbn. rewrite Hc. exact (IH Hs).
Qed.

Lemma all_chars_map (p : ascii -> bool) (f : ascii -> ascii) (s : string) :
  (forall c, p (f c) = p c) -> JS.all_chars p (JS.map_string f s) = JS.all_chars p s.
Proof.
  intros Hf. induction s as [|c s IH]; [reflexivity|]. cbn. rewrite Hf, IH. reflexivity.
Qed.

Lemma some_char_map (p : ascii -> bool) (f : ascii -> ascii) (s : string) :
  (forall c, p (f c) = p c) -> some_char p (JS.map_string f s) = some_char p s.
Proof.
  intros Hf. induction s as [|c s IH]; [reflexivity|]. cbn. rewrite Hf, IH. reflexivity.
Qed.

Lemma map_string_map (f g h : ascii -> ascii) (s : string) :
  (forall c, f (g c) = h c) -> JS.map_string f (JS.map_string g s) = JS.map_string h s.
Proof.
  intros H. induction s as [|c s IH]; [reflexivity|]. cbn. rewrite H, IH. reflexivity.
Qed.

Lemma ascii_eq_forall (f g : ascii -> ascii) :
  forallb (fun n => Ascii.eqb (f (ascii_of_nat n)) (g (ascii_of_nat n))) (seq 0 256) = true ->
  forall c, f c = g c.
Proof.
  intros H c. apply Ascii.eqb_eq. exact (ascii_forall (fun c => Ascii.eqb (f c) (g c)) H c).
Qed.

Lemma bool_eq_forall (f g : ascii -> bool) :
  forallb (fun n => Bool.eqb (f (ascii_of_nat n)) (g (ascii_of_nat n))) (seq 0 256) = true ->
  forall c, f c = g c.
Proof.
  intros H c. apply Bool.eqb_prop.
  exact (ascii_forall (fun c => Bool.eqb (f c) (g c)) H c).
Qed.

Lemma lower_char_space (c : ascii) : JS.is_space (JS.lower_char c) = JS.is_space c.
Proof. revert c. apply bool_eq_forall. vm_compute. reflexivity. Qed.

Lemma upper_char_space (c : ascii) : JS.is_space (JS.upper_char c) = JS.is_space c.
Proof. revert c. apply bool_eq_forall. vm_compute. reflexivity. Qed.

Lemma lower_char_at (c : ascii) : Ascii.eqb (JS.lower_char c) "@" = Ascii.eqb c "@".
Proof.
  revert c. apply (bool_eq_forall (fun c => Ascii.eqb (JS.lower_char c) "@")).
  vm_compute. reflexivity.
Qed.

Lemma upper_lower_char (c : ascii) : JS.upper_char (JS.lower_char c) = JS.upper_char c.
Proof.
  revert c. apply (ascii_eq_forall (fun c => JS.upper_char (JS.lower_char c))).
  vm_compute. reflexivity.
Qed.

(** [trim] and the case mappings commute. *)
Lemma trim_toLowerCase (s : string) : JS.trim (JS.toLowerCase s) = JS.toLowerCase (JS.trim s).
Proof.
  unfold JS.trim, JS.toLowerCase.
  rewrite (trimStart_map _ _ lower_char_space), (trimEnd_map _ _ lower_char_space).
  reflexivity.
Qed.

Lemma trim_toUpperCase (s : string) : JS.trim (JS.toUpperCase s) = JS.toUpperCase (JS.trim s).
Proof.
  unfold JS.trim, JS.toUpperCase.
  rewrite (trimStart_map _ _ upper_char_space), (trimEnd_map _ _ upper_char_space).
  reflexivity.
Qed.

(** The name computed from the request and the local part of the e-mail
    that is stored are the same text, once the e-mail passes the pattern. *)
Lemma default_name_of_stored_email (mail : string) :
  Regex.test email_regex (email_setter mail) = true ->
  JS.trim (JS.toUpperCase (JS.split_head "@" mail))
  = JS.toUpperCase (JS.split_head "@" (email_setter mail)).
Proof.
  unfold email_setter. rewrite trim_toLowerCase. intros Ht.
  destruct (email_regex_accepts _ Ht) as [_ [Hat [Hsp _]]].
  unfold JS.toLowerCase in Hat, Hsp.
  rewrite some_char_map in Hat
    by (intros c; rewrite (Ascii.eqb_sym "@"), lower_char_at; apply Ascii.eqb_sym).
  rewrite all_chars_map in Hsp by (intros c; rewrite lower_char_space; reflexivity).
  rewrite trim_toUpperCase.
  unfold JS.toLowerCase, JS.toUpperCase.
  rewrite (split_head_map _ _ lower_char_at).
  rewrite (map_string_map _ _ JS.upper_char _ upper_lower_char).
  f_equal. unfold JS.trim in *.
  rewrite trimStart_split_head, (split_head_trimEnd _ Hat).
  apply trimEnd_no_space, all_chars_split_head, Hsp.
Qed.

(** X10. When a signup request supplies no name and an account is created,
    the name of the account is the part before the [@] of the e-mail that
    is stored for it, in upper case. *)
Theorem signup_default_name_of_account (mail : string) (pw : JS.jsval)
    (nm : option string) (ev : env) (db : collection) :
  falsy nm = true ->
  status (snd (signup mail pw nm ev db)) = 201 ->
  exists u,
    fst (signup mail pw nm ev db) = db ++ [u] /\
    stored mail (fst (signup mail pw nm ev db)) = Some u /\
    name u = JS.toUpperCase (JS.split_head "@" (email u)).
Proof.
  intros Hnm Hst.
  pose proof (signup_created_email _ _ _ _ _ Hst) as Hre.
  destruct (signup_created _ _ _ _ _ Hst) as [p [_ [Hs [_ [_ [_ Hdb]]]]]].
  rewrite Hdb. eexists. split; [reflexivity|].
  split; [apply stored_app_new; [exact Hs|reflexivity]|].
  cbn [name email]. unfold signup_name. rewrite Hnm.
  apply default_name_of_stored_email, Hre.
Qed.

(** *** The strings of a pattern *)

Lemma words_complete (n : nat) (r : Regex.regex) (s : string) :
  (String.length s <= n)%nat -> Regex.test r s = true -> In s (words n r).
Proof.
  revert n r. induction s as [|c s IH]; intros n r Hn Ht.
  - cbn in Ht. destruct n; cbn; rewrite Ht; left; reflexivity.
  - destruct n as [|n]; [cbn in Hn; lia|]. cbn [words]. apply in_or_app. right.
    apply in_flat_map. exists (nat_of_ascii c). split.
    + apply in_seq. pose proof (nat_ascii_bounded c). lia.
    + cbv zeta. rewrite ascii_nat_embedding. cbn [Regex.test] in Ht.
      destruct (matches_nothing (Regex.deriv c r)) eqn:E.
      * rewrite (matches_nothing_test _ s E) in Ht. discriminate.
      * apply in_map. apply IH; [cbn in Hn; lia|exact Ht].
Qed.

Lemma words_sound (n : nat) (r : Regex.regex) (s : string) :
  In s (words n r) -> Regex.test r s = true.
Proof.
  revert r s. induction n as [|n IH]; intros r s H; cbn [words] in H;
    apply in_app_or in H as [H|H].
  - destruct (Regex.nullable r) eqn:E; [|contradiction].
    destruct H as [<-|[]]. exact E.
  - contradiction.
  - destruct (Regex.nullable r) eqn:E; [|contradiction].
    destruct H as [<-|[]]. exact E.
  - apply in_flat_map in H as [k [_ H]]. cbv zeta in H.
    destruct (matches_nothing _); [contradiction|].
    apply in_map_iff in H as [s' [<- H]]. cbn [Regex.test]. apply IH, H.
Qed.

Lemma bounded_length (n : nat) (r : Regex.regex) (s : string) :
  bounded n r = true -> Regex.test r s = true -> (String.length s <= n)%nat.
Proof.
  revert n r. induction s as [|c s IH]; intros n r Hb Ht; [cbn; lia|].
  assert (Hc : In (nat_of_ascii c) (seq 0 256))
    by (apply in_seq; pose proof (nat_ascii_bounded c); lia).
  cbn [Regex.test] in Ht.
  destruct n as [|n]; cbn [bounded] in Hb; rewrite forallb_forall in Hb;
    specialize (Hb _ Hc); cbv zeta in Hb; rewrite ascii_nat_embedding in Hb;
    destruct (matches_nothing (Regex.deriv c r)) eqn:E;
    try (rewrite (matches_nothing_test _ s E) in Ht; discriminate).
  - discriminate.
  - cbn [String.length]. specialize (IH n _ Hb Ht). lia.
Qed.

Lemma clocks_spec (s : string) :
  In s clocks <->
  exists h m, (h < 24)%nat /\ (m < 60)%nat /\
              (s = clock h m \/ ((h < 10)%nat /\ s = short_clock h m)).
Proof.
  unfold clocks. rewrite in_flat_map. split.
  - intros [h [Hh H]]. apply in_flat_map in H as [m [Hm H]].
    apply in_seq in Hh, Hm. exists h, m. split; [lia|]. split; [lia|].
    destruct H as [<-|H]; [left; reflexivity|].
    destruct (Nat.ltb_spec h 10); [|contradiction].
    destruct H as [<-|[]]. right. split; [assumption|reflexivity].
  - intros [h [m [Hh [Hm H]]]]. exists h. split; [apply in_seq; lia|].
    apply in_flat_map. exists m. split; [apply in_seq; lia|].
    destruct H as [->|[H ->]]; [left; reflexivity|].
    right. apply Nat.ltb_lt in H. rewrite H. left. reflexivity.
Qed.

Lemma existsb_eqb_In (s : string) (l : list string) :
  existsb (String.eqb s) l = true -> In s l.
Proof.
  intros H. apply existsb_exists in H as [x [Hx E]]. apply String.eqb_eq in E.
  subst x. exact Hx.
Qed.

(** X28. The pattern that the validation of a task asks of [time] accepts
    exactly the times of a 24-hour clock, hours from 0 to 23 and minutes
    from 00 to 59, the hour written with two digits or, below 10, with
    one. *)
Theorem time_regex_accepts (s : string) :
  Regex.test Validation.time_regex s = true <->
  exists h m, (h < 24)%nat /\ (m < 60)%nat /\
              (s = clock h m \/ ((h < 10)%nat /\ s = short_clock h m)).
Proof.
  rewrite <- clocks_spec. split.
  - intros Ht.
    assert (Hb : bounded 5 Validation.time_regex = true) by (vm_compute; reflexivity).
    pose proof (words_complete 5 _ s (bounded_length 5 _ s Hb Ht) Ht) as Hin.
    assert (Hall : forallb (fun w => existsb (String.eqb w) clocks)
                     (words 5 Validation.time_regex) = true)
      by (vm_compute; reflexivity).
    rewrite forallb_forall in Hall. apply existsb_eqb_In, Hall, Hin.
  - intros Hc.
    assert (Hall : forallb (Regex.test Validation.time_regex) clocks = true)
      by (vm_compute; reflexivity).
    rewrite forallb_forall in Hall. apply Hall, Hc.
Qed.

(** ** The authentication gate and account deletion *)

Lemma String_split_no_sep (s : string) :
  JS.all_chars (fun c => negb (Ascii.eqb c " ")) s = true -> String_split " " s = [s].
Proof.
  induction s as [|c s IH]; [reflexivity|].
  cbn. intros H. apply andb_true_iff in H. destruct H as [Hc Hs].
  apply negb_true_iff in Hc. rewrite Hc, (IH Hs). reflexivity.
Qed.

Lemma bearer_token_of_header (token : string) :
  JS.all_chars (fun c => negb (Ascii.eqb c " ")) token = true ->
  bearer_token (Some ("Bearer " ++ token)%string) = Some token.
Proof.
  intros H. unfold bearer_token. cbn. rewrite (String_split_no_sep _ H).
  destruct token; reflexivity.
Qed.

Lemma User_findById_In (db : collection) (d : user) :
  unique_ids db = true -> In d db -> User_findById (_id d) db = Some d.
Proof.
  intros Hu Hd. unfold User_findById.
  destruct (find (fun x => Nat.eqb (_id x) (_id d)) db) as [x|] eqn:Hf.
  - apply find_some in Hf. destruct Hf as [Hx E]. apply Nat.eqb_eq in E.
    rewrite (unique_ids_In_eq db x d Hu Hx Hd E). reflexivity.
  - exfalso. pose proof (find_none _ _ Hf d Hd) as C. cbn in C.
    rewrite Nat.eqb_refl in C. discriminate.
Qed.

Lemma User_findById_Some (db : collection) (id : nat) (d : user) :
  User_findById id db = Some d -> In d db /\ _id d = id.
Proof.
  unfold User_findById. intros H. apply find_some in H. destruct H as [Hin E].
  apply Nat.eqb_eq in E. auto.
Qed.

Lemma User_findById_deleted (db : collection) (id : nat) :
  unique_ids db = true -> User_findById id (delete_by_id id db) = None.
Proof.
  unfold User_findById. induction db as [|x rest IH]; [reflexivity|].
  cbn [unique_ids delete_by_id]. intros Hu.
  apply andb_true_iff in Hu. destruct Hu as [Hx Hrest]. apply negb_true_iff in Hx.
  destruct (Nat.eqb (_id x) id) eqn:E.
  - apply Nat.eqb_eq in E. subst id.
    destruct (find (fun y => Nat.eqb (_id y) (_id x)) rest) as [y|] eqn:Hf; [|reflexivity].
    apply find_some in Hf. destruct Hf as [Hy Ey].
    assert (existsb (fun y => Nat.eqb (_id y) (_id x)) rest = true) as C
      by (apply existsb_exists; eauto).
    congruence.
  - cbn [find]. rewrite E. exact (IH Hrest).
Qed.

Lemma stored_deleted (mail : string) (db : collection) (d : user) :
  unique_ids db = true -> unique_emails db = true ->
  stored mail db = Some d -> stored mail (delete_by_id (_id d) db) = None.
Proof.
  unfold stored. induction db as [|x rest IH]; [discriminate|].
  cbn [unique_ids unique_emails find delete_by_id]. intros Hu He Hs.
  apply andb_true_iff in Hu. destruct Hu as [Hx Hrest]. apply negb_true_iff in Hx.
  apply andb_true_iff in He. destruct He as [Hex Herest]. apply negb_true_iff in Hex.
  destruct (String.eqb (email x) (email_setter mail)) eqn:Ex.
  - injection Hs as ->. rewrite Nat.eqb_refl.
    destruct (find (fun y => String.eqb (email y) (email_setter mail)) rest) as [y|] eqn:Hf;
      [|reflexivity].
    apply find_some in Hf. destruct Hf as [Hy Ey].
    apply String.eqb_eq in Ex, Ey.
    assert (existsb (fun y => String.eqb (email y) (email d)) rest = true) as C
      by (apply existsb_exists; exists y; split; [exact Hy|apply String.eqb_eq; congruence]).
    congruence.
  - assert (Nat.eqb (_id x) (_id d) = false) as Hne.
    { apply Nat.eqb_neq. intros E. apply find_some in Hs. destruct Hs as [Hin _].
      assert (existsb (fun y => Nat.eqb (_id y) (_id x)) rest = true) as C
        by (apply existsb_exists; exists d; split; [exact Hin|apply Nat.eqb_eq; congruence]).
      congruence. }
    rewrite Hne. cbn [find]. rewrite Ex. exact (IH Hrest Herest Hs).
Qed.

Lemma stored_deleted_other (other : string) (db : collection) (d : user) :
  unique_ids db = true -> In d db -> email_setter other <> email d ->
  stored other (delete_by_id (_id d) db) = stored other db.
Proof.
  unfold stored. intros Hu Hd Hne.
  assert (forall x, In x db -> _id x = _id d -> x = d) as Huniq
    by (intros x Hx; apply (unique_ids_In_eq db); assumption).
  clear Hu Hd. induction db as [|x rest IH]; [reflexivity|].
  cbn [delete_by_id find]. destruct (Nat.eqb (_id x) (_id d)) eqn:E.
  - apply Nat.eqb_eq in E. rewrite (Huniq x (or_introl eq_refl) E).
    destruct (String.eqb (email d) (email_setter other)) eqn:Ed; [|reflexivity].
    apply String.eqb_eq in Ed. congruence.
  - cbn [find]. destruct (String.eqb (email x) (email_setter other)); [reflexivity|].
    apply IH. intros y Hy. apply Huniq. right. exact Hy.
Qed.

(** X11. An account is deleted only for a request whose token verifies,
    and then it is the account of the token that is deleted: a request to
    DELETE /api/auth/delete either leaves the collection as it is, or
    carries a non-empty bearer token that [jwt.verify] accepts for the
    [_id] of an existing account, removes that account and is answered
    200. *)
Theorem delete_account_only_by_token (authorization : option string) (ev : env)
    (db : collection) :
  (fst (delete_account authorization ev db) = db /\
   status (snd (delete_account authorization ev db)) <> 200) \/
  (exists token id d,
      bearer_token authorization = Some token /\ token <> "" /\
      jwt_verify token (Date_now ev) = JwtOk id /\
      User_findById id db = Some d /\
      delete_account authorization ev db
      = (delete_by_id id db, json 200 true "Account deleted successfully")).
Proof.
  unfold delete_account, protect.
  destruct (bearer_token authorization) as [token|]; [|left; split; [reflexivity|discriminate]].
  destruct (String.eqb token "") eqn:Et; [left; split; [reflexivity|discriminate]|].
  apply String.eqb_neq in Et.
  destruct (jwt_verify token (Date_now ev)) as [id|name] eqn:Hv.
  - destruct (User_findById id db) as [d|] eqn:Hf; [|left; split; [reflexivity|discriminate]].
    right. exists token, id, d. repeat split; auto.
    destruct (User_findById_Some _ _ _ Hf) as [_ <-]. reflexivity.
  - left. destruct (String.eqb name "JsonWebTokenError");
      [|destruct (String.eqb name "TokenExpiredError")]; split; try reflexivity; discriminate.
Qed.

(** X12. The token that login and verify-email issue for an account opens
    the gate for that account, and only for the lifetime of the token:
    sent as [Bearer <token>] before it expires, it lets the request through
    with the account as [req.user], without its password hash; once the
    clock has reached the time of issue plus the lifetime, the request is
    answered 401 "Token expired". *)
Theorem protect_accepts_issued_token (A : Type) (d : user) (issued ev : env)
    (db : collection) (deny : response -> A) (next : user -> A) :
  unique_ids db = true ->
  In d db ->
  (Date_now ev / 1000 < Date_now issued / 1000 + jwtExpire ->
   protect (Some ("Bearer " ++ generateToken (_id d) issued)%string) ev db deny next
   = next (project [] d) /\
   password (project [] d) = None) /\
  (Date_now issued / 1000 + jwtExpire <= Date_now ev / 1000 ->
   protect (Some ("Bearer " ++ generateToken (_id d) issued)%string) ev db deny next
   = deny (json 401 false "Token expired. Please login again.")).
Proof.
  intros Hu Hd. unfold generateToken.
  destruct (jwt_sign_shape (_id d) (Date_now issued)) as [Hne Hsp].
  apply String.eqb_neq in Hne.
  split; intros Ht; unfold protect; rewrite (bearer_token_of_header _ Hsp), Hne.
  - rewrite (jwt_verify_sign _ _ _ Ht), (User_findById_In _ _ Hu Hd). split; reflexivity.
  - rewrite (jwt_verify_expired _ _ _ Ht). reflexivity.
Qed.

(** X13. Deleting an account with its token removes that account and no
    other: its e-mail no longer matches any account, every other e-mail is
    found as before, and the same token, still within its lifetime, is
    refused from then on with 401 "User not found". *)
Theorem delete_account_removes (mail : string) (d : user) (issued ev ev' : env)
    (db : collection) :
  unique_ids db = true ->
  unique_emails db = true ->
  stored mail db = Some d ->
  Date_now ev / 1000 < Date_now issued / 1000 + jwtExpire ->
  Date_now ev' / 1000 < Date_now issued / 1000 + jwtExpire ->
  delete_account (Some ("Bearer " ++ generateToken (_id d) issued)%string) ev db
  = (delete_by_id (_id d) db, json 200 true "Account deleted successfully") /\
  stored mail (delete_by_id (_id d) db) = None /\
  (forall other, email_setter other <> email_setter mail ->
                 stored other (delete_by_id (_id d) db) = stored other db) /\
  delete_account (Some ("Bearer " ++ generateToken (_id d) issued)%string) ev'
    (delete_by_id (_id d) db)
  = (delete_by_id (_id d) db, json 401 false "User not found. Please login again.").
Proof.
  intros Hu He Hs Ht Ht'. destruct (stored_email _ _ _ Hs) as [Hin Hmail].
  unfold generateToken.
  destruct (jwt_sign_shape (_id d) (Date_now issued)) as [Hne Hsp].
  apply String.eqb_neq in Hne.
  split; [|split; [|split]].
  - unfold delete_account, protect.
    rewrite (bearer_token_of_header _ Hsp), Hne, (jwt_verify_sign _ _ _ Ht),
      (User_findById_In _ _ Hu Hin).
    reflexivity.
  - apply stored_deleted; assumption.
  - intros other Hother. apply stored_deleted_other; auto. congruence.
  - unfold delete_account, protect.
    rewrite (bearer_token_of_header _ Hsp), Hne, (jwt_verify_sign _ _ _ Ht'),
      (User_findById_deleted _ _ Hu).
    reflexivity.
Qed.

Lemma String_split_app (a b : string) :
  JS.all_chars (fun c => negb (Ascii.eqb c " ")) a = true ->
  String_split " " (a ++ String " " b)%string = a :: String_split " " b.
Proof.
  induction a as [|c a IH]; [reflexivity|].
  cbn. intros H. apply andb_true_iff in H. destruct H as [Hc Ha].
  apply negb_true_iff in Hc. rewrite Hc, (IH Ha). reflexivity.
Qed.

(** X14. Which [Authorization] headers reach [jwt.verify].  A request
    without the header, with a header that does not start with [Bearer]
    (in that letter case), with no space in it, or with two spaces
    after [Bearer], is answered 401 "Not authorized" without the token
    being looked at; whatever follows [Bearer] up to the first space is
    ignored, so that [Bearer] need not be the whole scheme. *)
Theorem protect_header_shapes (A : Type) (ev : env) (db : collection)
    (deny : response -> A) (next : user -> A) :
  let refused := deny (json 401 false "Not authorized to access this route. Please login.") in
  protect None ev db deny next = refused /\
  (forall header, String.prefix "Bearer" header = false ->
                  protect (Some header) ev db deny next = refused) /\
  (forall header,
      JS.all_chars (fun c => negb (Ascii.eqb c " ")) header = true ->
      protect (Some header) ev db deny next = refused) /\
  (forall rest, protect (Some ("Bearer  " ++ rest)%string) ev db deny next = refused) /\
  (forall scheme token,
      JS.all_chars (fun c => negb (Ascii.eqb c " ")) scheme = true ->
      JS.all_chars (fun c => negb (Ascii.eqb c " ")) token = true ->
      bearer_token (Some ("Bearer" ++ scheme ++ String " " token)%string) = Some token).
Proof.
  cbv zeta. split; [reflexivity|]. split; [|split; [|split]].
  - intros header Hp. unfold protect, bearer_token. rewrite Hp, andb_false_r. reflexivity.
  - intros header Hs. unfold protect, bearer_token.
    rewrite (String_split_no_sep _ Hs). cbn [nth_error].
    destruct (negb (String.eqb header "") && String.prefix "Bearer" header); reflexivity.
  - intros rest. unfold protect, bearer_token. cbn.
    destruct (String_split " " rest); reflexivity.
  - intros scheme token Hs Ht. unfold bearer_token.
    change ("Bearer" ++ scheme ++ String " " token)%string
      with (String "B" (String "e" (String "a" (String "r" (String "e" (String "r"
              (scheme ++ String " " token)))))))%string.
    cbn [String.eqb negb andb String.prefix Ascii.eqb Bool.eqb].
    cbn [String_split Ascii.eqb Bool.eqb].
    rewrite (String_split_app _ _ Hs), (String_split_no_sep _ Ht).
    cbn. destruct scheme; reflexivity.
Qed.

(** *** Quotients, products and rounding *)

Lemma rne_div_lower (n d a : Z) : 0 < d -> a * d <= n -> a <= JSNumber.rne_div n d.
Proof.
  intros Hd Ha.
  pose proof (Z.div_mod n d ltac:(lia)) as Hn.
  pose proof (Z.mod_pos_bound n d Hd) as Hr.
  unfold JSNumber.rne_div.
  destruct (2 * (n mod d) <? d); [nia|].
  destruct (d <? 2 * (n mod d)); [nia|].
  destruct (Z.even (n / d)); nia.
Qed.

Lemma rne_div_upper (n d b : Z) : 0 < d -> n <= b * d -> JSNumber.rne_div n d <= b.
Proof.
  intros Hd Hb.
  pose proof (Z.div_mod n d ltac:(lia)) as Hn.
  pose proof (Z.mod_pos_bound n d Hd) as Hr.
  unfold JSNumber.rne_div.
  destruct (2 * (n mod d) <? d) eqn:E1; [nia|]. apply Z.ltb_ge in E1.
  destruct (d <? 2 * (n mod d)) eqn:E2; [apply Z.ltb_lt in E2; nia|]. apply Z.ltb_ge in E2.
  destruct (Z.even (n / d)); nia.
Qed.

(** [rne_div n d] is an integer nearest to [n / d]. *)
Lemma rne_div_nearest (n d : Z) :
  0 < d -> 2 * Z.abs (JSNumber.rne_div n d * d - n) <= d.
Proof.
  intros Hd.
  pose proof (Z.div_mod n d ltac:(lia)) as Hn.
  pose proof (Z.mod_pos_bound n d Hd) as Hr.
  unfold JSNumber.rne_div.
  destruct (2 * (n mod d) <? d) eqn:E1; [apply Z.ltb_lt in E1; nia|]. apply Z.ltb_ge in E1.
  destruct (d <? 2 * (n mod d)) eqn:E2; [apply Z.ltb_lt in E2; nia|]. apply Z.ltb_ge in E2.
  destruct (Z.even (n / d)); nia.
Qed.

Lemma log2_quotient_spec (a b : Z) :
  0 < a -> 0 < b ->
  let k := JSNumber.log2_quotient a b in
  (0 <= k -> b * 2 ^ k <= a < b * 2 ^ (k + 1)) /\
  (k < 0 -> b <= a * 2 ^ (- k) /\ a * 2 ^ (- k - 1) < b).
Proof.
  intros Ha Hb. unfold JSNumber.log2_quotient.
  pose proof (Z.log2_spec a Ha) as [La1 La2].
  pose proof (Z.log2_spec b Hb) as [Lb1 Lb2].
  pose proof (Z.log2_nonneg a) as La0. pose proof (Z.log2_nonneg b) as Lb0.
  set (la := Z.log2 a) in *. set (lb := Z.log2 b) in *.
  rewrite <- Z.add_1_r in La2, Lb2.
  destruct (0 <=? la - lb) eqn:Ed.
  - apply Z.leb_le in Ed.
    assert (Hla : la = lb + (la - lb)) by lia.
    assert (Hp : 2 ^ la = 2 ^ lb * 2 ^ (la - lb)) by (rewrite <- Z.pow_add_r by lia; f_equal; lia).
    assert (Hp1 : 2 ^ (la + 1) = 2 * 2 ^ la) by (rewrite Z.pow_add_r by lia; lia).
    assert (Hq1 : 2 ^ (lb + 1) = 2 * 2 ^ lb) by (rewrite Z.pow_add_r by lia; lia).
    assert (Hd1 : 2 ^ (la - lb + 1) = 2 * 2 ^ (la - lb)) by (rewrite Z.pow_add_r by lia; lia).
    pose proof (Z.pow_pos_nonneg 2 (la - lb) ltac:(lia) Ed) as Hpos.
    pose proof (Z.pow_pos_nonneg 2 lb ltac:(lia) Lb0) as Hposb.
    destruct (b * 2 ^ (la - lb) <=? a) eqn:Ec.
    + apply Z.leb_le in Ec. split; [intros _|lia]. split; [exact Ec|]. rewrite Hd1. nia.
    + apply Z.leb_gt in Ec. split.
      * intros Hk. replace (la - lb - 1 + 1) with (la - lb) by lia. split; [|exact Ec].
        assert (Hd2 : 2 ^ (la - lb) = 2 * 2 ^ (la - lb - 1))
          by (rewrite <- Z.pow_succ_r by lia; f_equal; lia).
        pose proof (Z.pow_pos_nonneg 2 (la - lb - 1) ltac:(lia) Hk). nia.
      * intros Hk. assert (la - lb = 0) as E0 by lia. rewrite E0 in *.
        replace (- (0 - 1)) with 1 by lia. replace (1 - 1) with 0 by lia.
        rewrite Z.pow_0_r in *. rewrite Z.pow_1_r. nia.
  - apply Z.leb_gt in Ed.
    assert (Hp : 2 ^ lb = 2 ^ la * 2 ^ (- (la - lb))) by (rewrite <- Z.pow_add_r by lia; f_equal; lia).
    assert (Hp1 : 2 ^ (la + 1) = 2 * 2 ^ la) by (rewrite Z.pow_add_r by lia; lia).
    assert (Hq1 : 2 ^ (lb + 1) = 2 * 2 ^ lb) by (rewrite Z.pow_add_r by lia; lia).
    pose proof (Z.pow_pos_nonneg 2 (- (la - lb)) ltac:(lia) ltac:(lia)) as Hpos.
    pose proof (Z.pow_pos_nonneg 2 la ltac:(lia) La0) as Hposa.
    assert (Hd2 : 2 ^ (- (la - lb)) = 2 * 2 ^ (- (la - lb) - 1))
      by (rewrite <- Z.pow_succ_r by lia; f_equal; lia).
    pose proof (Z.pow_pos_nonneg 2 (- (la - lb) - 1) ltac:(lia) ltac:(lia)) as Hpos'.
    destruct (b <=? a * 2 ^ (- (la - lb))) eqn:Ec.
    + apply Z.leb_le in Ec. split; [lia|]. intros _. split; [exact Ec|]. nia.
    + apply Z.leb_gt in Ec. split; [lia|]. intros _.
      replace (- (la - lb - 1)) with (- (la - lb) + 1) by lia.
      replace (- (la - lb) + 1 - 1) with (- (la - lb)) by lia.
      rewrite Z.pow_add_r by lia. rewrite Z.pow_1_r. split; [nia|exact Ec].
Qed.

Lemma log2_quotient_le (a b c : Z) :
  0 < a -> 0 < b -> 0 <= c -> a < b * 2 ^ (c + 1) -> JSNumber.log2_quotient a b <= c.
Proof.
  intros Ha Hb Hc Hlt.
  pose proof (log2_quotient_spec a b Ha Hb) as [H1 _]. cbv zeta in H1.
  destruct (Z.le_gt_cases (JSNumber.log2_quotient a b) c) as [|Hgt]; [assumption|].
  destruct (H1 ltac:(lia)) as [H _].
  assert (2 ^ (c + 1) <= 2 ^ JSNumber.log2_quotient a b)
    by (apply Z.pow_le_mono_r; lia).
  nia.
Qed.

Lemma Math_round_le (m e c : Z) :
  0 <= e -> 0 <= m <= c * 2 ^ e -> 0 <= JSNumber.Math_round (JS.mkDouble m e) <= c.
Proof.
  intros He [Hm0 Hm]. unfold JSNumber.Math_round. cbn [JS.mant JS.expo].
  pose proof (pow2_pos e He) as Hp.
  assert (Hp1 : 2 ^ (e + 1) = 2 * 2 ^ e) by (rewrite Z.pow_add_r by lia; lia).
  rewrite Hp1. split.
  - apply Z.div_pos; lia.
  - apply Z.lt_succ_r. apply Z.div_lt_upper_bound; lia.
Qed.

Lemma Math_round_exact (c e : Z) :
  0 <= e -> JSNumber.Math_round (JS.mkDouble (c * 2 ^ e) e) = c.
Proof.
  intros He. unfold JSNumber.Math_round. cbn [JS.mant JS.expo].
  pose proof (pow2_pos e He) as Hp.
  assert (Hp1 : 2 ^ (e + 1) = 2 * 2 ^ e) by (rewrite Z.pow_add_r by lia; lia).
  rewrite Hp1. symmetry. apply (Z.div_unique _ _ c (2 ^ e)); lia.
Qed.

Lemma rne_div_exact (c d : Z) : 0 < d -> JSNumber.rne_div (c * d) d = c.
Proof.
  intros Hd. unfold JSNumber.rne_div. rewrite Z.div_mul, Z.mod_mul by lia.
  destruct (2 * 0 <? d) eqn:E; [reflexivity|]. apply Z.ltb_ge in E. lia.
Qed.

(** [Math.round((c / t) * 100)] *)
Lemma percentage_range (c t : Z) :
  0 <= c <= t -> 0 < t ->
  0 <= JSNumber.Math_round (JSNumber.times (JSNumber.divide c t) 100) <= 100.
Proof.
  intros [Hc0 Hct] Ht. unfold JSNumber.divide.
  destruct (c =? 0) eqn:E0; [vm_compute; split; discriminate|].
  apply Z.eqb_neq in E0.
  pose proof (log2_quotient_le c t 0 ltac:(lia) Ht ltac:(lia)) as Hk.
  rewrite Z.pow_1_r in Hk. specialize (Hk ltac:(lia)).
  set (e := 52 - JSNumber.log2_quotient c t) in *.
  assert (He : 52 <= e) by (unfold e; lia).
  pose proof (pow2_pos e ltac:(lia)) as Hp.
  assert (Hm0 : 0 <= JSNumber.rne_div (c * 2 ^ e) t) by (apply rne_div_lower; nia).
  assert (Hm1 : JSNumber.rne_div (c * 2 ^ e) t <= 2 ^ e) by (apply rne_div_upper; nia).
  unfold JSNumber.times. cbn [JS.mant JS.expo].
  set (m := JSNumber.rne_div (c * 2 ^ e) t) in *.
  assert (He7 : 2 ^ e = 2 ^ 46 * 2 ^ (e - 46))
    by (rewrite <- Z.pow_add_r by lia; f_equal; lia).
  pose proof (pow2_pos (e - 46) ltac:(lia)) as Hp46.
  apply Math_round_le; [lia|]. split.
  - pose proof (round53_ge (m * 100) 0 (e - 46) ltac:(lia)) as H.
    rewrite Z.mul_0_l in H. apply H; [|lia].
    change (2 ^ 53) with (128 * 2 ^ 46). nia.
  - replace (100 * 2 ^ e) with ((100 * 2 ^ 46) * 2 ^ (e - 46)) by lia.
    apply round53_le; [lia| |nia].
    change (2 ^ 53) with (128 * 2 ^ 46). nia.
Qed.

Lemma log2_quotient_same (t : Z) : 0 < t -> JSNumber.log2_quotient t t = 0.
Proof.
  intros Ht. unfold JSNumber.log2_quotient. rewrite Z.sub_diag. cbn.
  rewrite Z.mul_1_r, Z.leb_refl. reflexivity.
Qed.

Lemma percentage_all (t : Z) :
  0 < t -> JSNumber.Math_round (JSNumber.times (JSNumber.divide t t) 100) = 100.
Proof.
  intros Ht. unfold JSNumber.divide.
  destruct (t =? 0) eqn:E0; [apply Z.eqb_eq in E0; lia|].
  rewrite (log2_quotient_same t Ht), Z.sub_0_r.
  rewrite (Z.mul_comm t), (rne_div_exact _ t Ht).
  unfold JSNumber.times. cbn [JS.mant JS.expo]. vm_compute. reflexivity.
Qed.

Lemma percentage_none (t : Z) :
  JSNumber.Math_round (JSNumber.times (JSNumber.divide 0 t) 100) = 0.
Proof. reflexivity. Qed.

(** [Math.floor(Math.random() * n)] is an index below [n]. *)
Lemma random_index_range (r : JS.double) (n : Z) :
  JS.unit_double r -> 0 < n < 2 ^ 53 ->
  0 <= JSNumber.Math_floor (JSNumber.times r n) < n.
Proof.
  destruct r as [m e]. unfold JS.unit_double, JSNumber.Math_floor, JSNumber.times.
  cbn [JS.mant JS.expo]. intros [[Hm0 Hm53] [[He0 He] Hm]] [Hn0 Hn].
  pose proof (pow2_pos e He0) as HU.
  assert (Hlo : 0 <= JS.round53 (m * n)).
  { pose proof (round53_ge (m * n) 0 53 ltac:(lia)) as H. rewrite Z.mul_0_l in H.
    apply H; nia. }
  assert (Hhi : JS.round53 (m * n) < n * 2 ^ e).
  { destruct (Z.lt_ge_cases (m * n) (2 ^ 53)) as [Hsmall|Hbig].
    - rewrite round53_exact by assumption. nia.
    - rewrite round53_rne. unfold JS.dropped_bits.
      assert (Hpos : 0 < m * n) by lia.
      pose proof (Z.log2_spec (m * n) Hpos) as [L1 L2]. rewrite <- Z.add_1_r in L2.
      assert (H53 : 53 <= Z.log2 (m * n)) by (apply Z.log2_le_pow2; lia).
      rewrite Z.max_r by lia.
      set (s := Z.log2 (m * n) - 52) in *.
      assert (Hs : 1 <= s) by (unfold s; lia).
      pose proof (pow2_pos s ltac:(lia)) as Hps.
      pose proof (pow2_pos (s - 1) ltac:(lia)) as Hps1.
      assert (Hlog : 2 ^ Z.log2 (m * n) = 2 ^ (s - 1) * 2 ^ 53)
        by (rewrite <- Z.pow_add_r by lia; f_equal; unfold s; lia).
      assert (Hss : 2 ^ s = 2 * 2 ^ (s - 1))
        by (rewrite <- Z.pow_succ_r by lia; f_equal; lia).
      assert (Hsn : 2 ^ (s - 1) < n) by nia.
      assert (Hse : s <= e).
      { destruct (Z.le_gt_cases s e) as [|Hgt]; [assumption|].
        assert (2 ^ e <= 2 ^ (s - 1)) by (apply Z.pow_le_mono_r; lia). nia. }
      rewrite (multiple_pow2 n s e) by lia.
      pose proof (pow2_pos (e - s) ltac:(lia)) as Hpes.
      assert (He2 : 2 ^ e = 2 ^ (e - s) * 2 ^ s)
        by (rewrite <- Z.pow_add_r by lia; f_equal; lia).
      apply Z.mul_lt_mono_pos_r; [assumption|].
      assert (JS.rne (m * n) s <= n * 2 ^ (e - s) - 1); [|lia].
      apply rne_upper_half; [lia|]. nia. }
  split.
  - apply Z.div_pos; lia.
  - apply Z.div_lt_upper_bound; lia.
Qed.

(** [Math.round(s / n)] for a sum [s] of [n] numbers from 0 to 100. *)
Lemma average_range (s n : Z) :
  0 <= s <= 100 * n -> 0 < n -> 0 <= JSNumber.Math_round (JSNumber.divide s n) <= 100.
Proof.
  intros [Hs0 Hs] Hn. unfold JSNumber.divide.
  destruct (s =? 0) eqn:E0; [vm_compute; split; discriminate|].
  apply Z.eqb_neq in E0.
  pose proof (log2_quotient_le s n 6 ltac:(lia) Hn ltac:(lia)) as Hk.
  change (2 ^ (6 + 1)) with 128 in Hk. specialize (Hk ltac:(lia)).
  set (e := 52 - JSNumber.log2_quotient s n) in *.
  assert (He : 46 <= e) by (unfold e; lia).
  pose proof (pow2_pos e ltac:(lia)) as Hp.
  apply Math_round_le; [lia|]. split.
  - apply rne_div_lower; nia.
  - apply rne_div_upper; nia.
Qed.

Lemma log2_quotient_100 (n : Z) : 0 < n -> JSNumber.log2_quotient (100 * n) n = 6.
Proof.
  intros Hn. pose proof (log2_quotient_spec (100 * n) n ltac:(lia) Hn) as [H1 H2].
  cbv zeta in H1, H2. set (k := JSNumber.log2_quotient (100 * n) n) in *.
  destruct (Z.lt_ge_cases k 0) as [Hneg|Hnn].
  - destruct (H2 Hneg) as [_ H]. pose proof (pow2_pos (- k - 1) ltac:(lia)). nia.
  - destruct (H1 Hnn) as [Ha Hb].
    destruct (Z.le_gt_cases k 5) as [H5|H5].
    + assert (2 ^ (k + 1) <= 2 ^ 6) by (apply Z.pow_le_mono_r; lia).
      change (2 ^ 6) with 64 in *. nia.
    + destruct (Z.le_gt_cases 7 k) as [H7|H7]; [|lia].
      assert (2 ^ 7 <= 2 ^ k) by (apply Z.pow_le_mono_r; lia).
      change (2 ^ 7) with 128 in *. nia.
Qed.

Lemma average_all (n : Z) :
  0 < n -> JSNumber.Math_round (JSNumber.divide (100 * n) n) = 100.
Proof.
  intros Hn. unfold JSNumber.divide.
  destruct (100 * n =? 0) eqn:E0; [apply Z.eqb_eq in E0; lia|].
  rewrite (log2_quotient_100 n Hn).
  replace (100 * n * 2 ^ (52 - 6)) with (100 * 2 ^ (52 - 6) * n) by lia.
  rewrite (rne_div_exact _ n Hn). apply (Math_round_exact 100 (52 - 6)). lia.
Qed.

(** *** The tasks collection *)

Lemma Task_matches_owned (i uid : nat) (t : Task.task) :
  Task_matches i uid t = true -> Task._id t = i /\ owned uid t = true.
Proof.
  unfold Task_matches, owned. intros H. apply andb_prop in H as [H1 H2].
  apply Nat.eqb_eq in H1. split; assumption.
Qed.

Lemma Task_in_owned (ids : list nat) (uid : nat) (t : Task.task) :
  Task_in ids uid t = true -> owned uid t = true.
Proof. unfold Task_in, owned. intros H. apply andb_prop in H as [_ H]. exact H. Qed.

Lemma tasks_of_others_app (uid : nat) (db : tasks) (t : Task.task) :
  owned uid t = true -> tasks_of_others uid (db ++ [t]) = tasks_of_others uid db.
Proof.
  intros H. unfold tasks_of_others. rewrite filter_app. cbn. rewrite H. cbn.
  apply app_nil_r.
Qed.

Lemma tasks_of_others_remove (uid : nat) (p : Task.task -> bool) (db : tasks) :
  (forall t, p t = true -> owned uid t = true) ->
  tasks_of_others uid (Task_remove p db) = tasks_of_others uid db.
Proof.
  intros Hp. unfold tasks_of_others. induction db as [|t rest IH]; [reflexivity|].
  cbn. destruct (p t) eqn:E.
  - rewrite (Hp t E). reflexivity.
  - cbn. rewrite IH. reflexivity.
Qed.

Lemma tasks_of_others_filter (uid : nat) (p : Task.task -> bool) (db : tasks) :
  (forall t, p t = true -> owned uid t = true) ->
  tasks_of_others uid (filter (fun t => negb (p t)) db) = tasks_of_others uid db.
Proof.
  intros Hp. unfold tasks_of_others. induction db as [|t rest IH]; [reflexivity|].
  cbn. destruct (p t) eqn:E; cbn.
  - rewrite (Hp t E). cbn. exact IH.
  - rewrite IH. reflexivity.
Qed.

Lemma Task_find_id (i uid : nat) (db : tasks) (old : Task.task) :
  find (Task_matches i uid) db = Some old ->
  existsb (fun x => Nat.eqb (Task._id x) i) db = true.
Proof.
  intros H. apply find_some in H as [Hin Hm]. apply existsb_exists.
  exists old. split; [assumption|]. apply Task_matches_owned in Hm as [Hm _].
  apply Nat.eqb_eq. exact Hm.
Qed.

(** With the [_id] index, [updateOne] writes over the document that the
    filter [{ _id, userId }] has found. *)
Lemma Task_updateOne_found (i uid : nat) (db : tasks) (old doc : Task.task) :
  Task_unique_ids db = true ->
  find (Task_matches i uid) db = Some old ->
  Task._id doc = i ->
  exists l1 l2,
    db = l1 ++ old :: l2 /\
    Task_updateOne doc db = l1 ++ doc :: l2 /\
    existsb (fun x => Nat.eqb (Task._id x) i) l1 = false /\
    existsb (fun x => Nat.eqb (Task._id x) i) l2 = false.
Proof.
  intros Hu Hf Hi. subst i. induction db as [|t rest IH]; [discriminate|].
  cbn in Hu. apply andb_prop in Hu as [Hnew Hu]. apply negb_true_iff in Hnew.
  cbn in Hf. cbn [Task_updateOne].
  destruct (Task_matches (Task._id doc) uid t) eqn:Hm.
  - injection Hf as ->. apply Task_matches_owned in Hm as [Hm _].
    rewrite Hm, Nat.eqb_refl. exists [], rest. rewrite <- Hm.
    repeat split; try reflexivity. exact Hnew.
  - destruct (Nat.eqb (Task._id t) (Task._id doc)) eqn:Hti.
    + apply Nat.eqb_eq in Hti. apply Task_find_id in Hf.
      rewrite Hti in Hnew. congruence.
    + destruct (IH Hu Hf) as [l1 [l2 [E1 [E2 [N1 N2]]]]].
      exists (t :: l1), l2. rewrite E2, E1.
      repeat split; try reflexivity; [|exact N2].
      cbn. rewrite Hti, N1. reflexivity.
Qed.

Lemma tasks_of_others_middle (uid : nat) (l1 l2 : tasks) (a b : Task.task) :
  owned uid a = true -> owned uid b = true ->
  tasks_of_others uid (l1 ++ a :: l2) = tasks_of_others uid (l1 ++ b :: l2).
Proof.
  intros Ha Hb. unfold tasks_of_others. rewrite !filter_app. cbn.
  rewrite Ha, Hb. reflexivity.
Qed.

Lemma update_fields_id (b : TaskBody.t) (t : Task.task) :
  Task._id (update_fields b t) = Task._id t /\
  Task.userId (update_fields b t) = Task.userId t.
Proof.
  destruct t as [i uid n ti d dl p c ic co].
  destruct b as [[bn|] [bti|] [bd|] [bp|] [v|] [bic|] [bco|]];
    cbv -[JS.trim String.append castBoolean truthy];
    try destruct (castBoolean v); try destruct (truthy v); split; reflexivity.
Qed.

(** *** The task routes, case by case *)

Lemma get_task_cases (id : option nat) (u : user) (db : tasks) :
  get_task id u db
  = (db,
     match id with
     | None => task_json 500 false "Error fetching task"
     | Some i =>
         match find (Task_matches i (_id u)) db with
         | Some t => Task.mkResponse 200 true None (Task.One t)
         | None => task_json 404 false "Task not found"
         end
     end).
Proof.
  unfold get_task, try_catch, bind, Task_findOne, throw, ret.
  destruct id as [i|]; [|reflexivity].
  destruct (find (Task_matches i (_id u)) db); reflexivity.
Qed.

Lemma update_task_cases (id : option nat) (b : TaskBody.t) (u : user) (db : tasks) :
  update_task id b u db
  = match id with
    | None => (db, task_json 500 false "Error updating task")
    | Some i =>
        match find (Task_matches i (_id u)) db with
        | None => (db, task_json 404 false "Task not found")
        | Some old =>
            if negb (castError (TaskBody.completed b)) &&
               Task_validate (update_fields b old)
            then (Task_updateOne (update_fields b old) db,
                  task_json_data 200 "Task updated successfully"
                    (Task.One (update_fields b old)))
            else (db, task_json 500 false "Error updating task")
        end
    end.
Proof.
  unfold update_task, try_catch, bind, Task_findOne, Task_save, throw, ret.
  destruct id as [i|]; [|reflexivity].
  destruct (find (Task_matches i (_id u)) db) as [old|]; [|reflexivity].
  destruct (castError (TaskBody.completed b)); [reflexivity|].
  destruct (Task_validate (update_fields b old)); reflexivity.
Qed.

Lemma delete_task_cases (id : option nat) (u : user) (db : tasks) :
  delete_task id u db
  = match id with
    | None => (db, task_json 500 false "Error deleting task")
    | Some i =>
        match find (Task_matches i (_id u)) db with
        | None => (db, task_json 404 false "Task not found")
        | Some t =>
            (Task_remove (Task_matches i (_id u)) db,
             task_json_data 200 "Task deleted successfully" (Task.One t))
        end
    end.
Proof.
  unfold delete_task, try_catch, bind, Task_findOneAndDelete, throw, ret.
  destruct id as [i|]; [|reflexivity].
  destruct (find (Task_matches i (_id u)) db) as [t|] eqn:Hf; [reflexivity|].
  f_equal. induction db as [|t rest IH]; [reflexivity|].
  cbn in Hf |- *. destruct (Task_matches i (_id u) t); [discriminate|].
  rewrite (IH Hf). reflexivity.
Qed.

Lemma bulk_delete_cases (taskIds : option (list (option nat))) (u : user) (db : tasks) :
  bulk_delete taskIds u db
  = match taskIds with
    | None | Some [] => (db, task_json 400 false "Please provide an array of task IDs")
    | Some l =>
        match cast_ids l with
        | None => (db, task_json 500 false "Error deleting tasks")
        | Some ids =>
            (filter (fun t => negb (Task_in ids (_id u) t)) db,
             task_json_data 200
               (JS.Number_toString
                  (Z.of_nat (List.length (filter (Task_in ids (_id u)) db)))
                ++ " task(s) deleted successfully")
               (Task.Deleted (List.length (filter (Task_in ids (_id u)) db))))
        end
    end.
Proof.
  unfold bulk_delete, try_catch, bind, Task_deleteMany, throw, ret.
  destruct taskIds as [[|i l]|]; try reflexivity.
  destruct (cast_ids (i :: l)); reflexivity.
Qed.

(** The document that POST /api/tasks inserts. *)
Lemma create_task_cases (b : TaskBody.t) (ev : env) (u : user) (db : tasks) :
  (exists t,
      create_task b ev u db
      = (db ++ [t], task_json_data 201 "Task created successfully" (Task.One t)) /\
      existsb (fun x => Nat.eqb (Task._id x) (ObjectId ev)) db = false /\
      Task._id t = ObjectId ev /\
      Task.userId t = _id u /\
      option_map JS.trim (TaskBody.name b) = Some (Task.name t) /\
      TaskBody.time b = Some (Task.time t) /\
      TaskBody.date b = Some (Task.date t) /\
      Task.deadline t = (Task.date t ++ " " ++ Task.time t)%string /\
      Task.progress t = or_number (TaskBody.progress b) 0 /\
      castBoolean (or_value (TaskBody.completed b) false) = Some (Task.completed t) /\
      Task.icon t = or_string (TaskBody.icon b) route_icon /\
      Task.color t = or_string (TaskBody.color b) "purple" /\
      task_ok t = true) \/
  create_task b ev u db = (db, task_json 500 false "Error creating task").
Proof.
  unfold create_task, try_catch, bind, Task_create, ret.
  destruct b as [nm ti da pr co ic cl]. cbn [TaskBody.name TaskBody.time TaskBody.date
    TaskBody.progress TaskBody.completed TaskBody.icon TaskBody.color].
  destruct nm as [nm|]; [|right; reflexivity].
  destruct ti as [ti|]; [|right; reflexivity].
  destruct da as [da|]; [|right; reflexivity].
  cbn [option_map template].
  destruct (castBoolean (or_value co false)) as [c|] eqn:Hc; [|right; reflexivity].
  match goal with |- context [if ?c then _ else (db, Throw "ValidationError")] =>
    destruct c eqn:Hv end; [|right; reflexivity].
  destruct (existsb (fun x => Nat.eqb (Task._id x) (ObjectId ev)) db) eqn:Hid;
    [right; reflexivity|].
  left. eexists. split; [reflexivity|]. cbn.
  unfold Task_validate in Hv.
  cbn [Task.deadline Task.date Task.time Task.name Task.progress Task.color] in Hv.
  repeat (apply andb_prop in Hv as [Hv ?]).
  repeat split; try reflexivity.
  unfold task_ok. cbn [Task.deadline Task.date Task.time Task.name Task.progress Task.color].
  rewrite String.eqb_refl. unfold Task.required in *.
  rewrite Hv, H3, H2, H0. exact H.
Qed.

(** *** Tasks belong to one user *)

Lemma get_tasks_fst (q : TaskQuery.t) (u : user) (db : tasks) :
  fst (get_tasks q u db) = db.
Proof.
  unfold get_tasks, try_catch, bind, ret.
  destruct (Task_sort _ _ _); reflexivity.
Qed.

Lemma stats_summary_fst (u : user) (db : tasks) : fst (stats_summary u db) = db.
Proof. reflexivity. Qed.

Lemma find_tasks_of (p : Task.task -> bool) (uid : nat) (db : tasks) :
  (forall t, p t = true -> owned uid t = true) ->
  find p (tasks_of uid db) = find p db.
Proof.
  intros Hp. unfold tasks_of. induction db as [|t rest IH]; [reflexivity|].
  cbn. destruct (owned uid t) eqn:Ho; cbn.
  - destruct (p t); [reflexivity|exact IH].
  - destruct (p t) eqn:E; [|exact IH]. rewrite (Hp t E) in Ho. discriminate.
Qed.

Lemma filter_tasks_of (p : Task.task -> bool) (uid : nat) (db : tasks) :
  (forall t, p t = true -> owned uid t = true) ->
  filter p (tasks_of uid db) = filter p db.
Proof.
  intros Hp. unfold tasks_of. induction db as [|t rest IH]; [reflexivity|].
  cbn. destruct (owned uid t) eqn:Ho; cbn.
  - destruct (p t); [rewrite IH|]; auto.
  - destruct (p t) eqn:E; [|exact IH]. rewrite (Hp t E) in Ho. discriminate.
Qed.

Lemma tasks_query_owned (q : TaskQuery.t) (uid : nat) (t : Task.task) :
  tasks_query q uid t = true -> owned uid t = true.
Proof.
  unfold tasks_query, owned. intros H.
  apply andb_prop in H as [H _]. apply andb_prop in H as [H _]. exact H.
Qed.

Lemma update_task_fst_others (id : option nat) (b : TaskBody.t) (u : user) (db : tasks) :
  Task_unique_ids db = true ->
  tasks_of_others (_id u) (fst (update_task id b u db)) = tasks_of_others (_id u) db.
Proof.
  intros Hu. rewrite update_task_cases.
  destruct id as [i|]; [|reflexivity].
  destruct (find (Task_matches i (_id u)) db) as [old|] eqn:Hf; [|reflexivity].
  destruct (negb (castError (TaskBody.completed b)) && Task_validate (update_fields b old));
    [|reflexivity].
  cbn [fst]. pose proof (update_fields_id b old) as [Hid Huid].
  pose proof (find_some _ _ Hf) as [_ Hm]. apply Task_matches_owned in Hm as [Hi Ho].
  destruct (Task_updateOne_found i (_id u) db old (update_fields b old) Hu Hf)
    as [l1 [l2 [E1 [E2 _]]]]; [congruence|].
  rewrite E2, E1. apply tasks_of_others_middle; [|exact Ho].
  unfold owned in *. rewrite Huid. exact Ho.
Qed.

Lemma create_task_fst_others (b : TaskBody.t) (ev : env) (u : user) (db : tasks) :
  tasks_of_others (_id u) (fst (create_task b ev u db)) = tasks_of_others (_id u) db.
Proof.
  destruct (create_task_cases b ev u db) as [[t [E [_ [_ [Huid _]]]]]|E];
    rewrite E; [|reflexivity].
  cbn [fst]. apply tasks_of_others_app. unfold owned. rewrite Huid. apply Nat.eqb_refl.
Qed.

Lemma delete_task_fst_others (id : option nat) (u : user) (db : tasks) :
  tasks_of_others (_id u) (fst (delete_task id u db)) = tasks_of_others (_id u) db.
Proof.
  rewrite delete_task_cases. destruct id as [i|]; [|reflexivity].
  destruct (find (Task_matches i (_id u)) db); [|reflexivity].
  cbn [fst]. apply tasks_of_others_remove. intros x Hx.
  apply Task_matches_owned in Hx as [_ Hx]. exact Hx.
Qed.

Lemma bulk_delete_fst_others (taskIds : option (list (option nat))) (u : user)
    (db : tasks) :
  tasks_of_others (_id u) (fst (bulk_delete taskIds u db)) = tasks_of_others (_id u) db.
Proof.
  rewrite bulk_delete_cases.
  destruct taskIds as [[|i l]|]; try reflexivity.
  destruct (cast_ids (i :: l)) as [ids|]; [|reflexivity].
  cbn [fst]. apply (tasks_of_others_filter (_id u) (Task_in ids (_id u))).
  intros t. apply Task_in_owned.
Qed.

(** The frame of a task route: the tasks of the other users. *)
Lemma task_route_fst_others (r : task_request) (ev : env) (u : user) (db : tasks) :
  Task_unique_ids db = true ->
  tasks_of_others (_id u) (fst (task_route r ev u db)) = tasks_of_others (_id u) db.
Proof.
  intros Hu. destruct r; cbn [task_route].
  - rewrite get_tasks_fst. reflexivity.
  - rewrite get_task_cases. reflexivity.
  - apply create_task_fst_others.
  - apply update_task_fst_others, Hu.
  - apply delete_task_fst_others.
  - apply bulk_delete_fst_others.
  - reflexivity.
Qed.

(** Every task that a route sends belongs to [req.user]. *)
Lemma task_route_sent_owned (r : task_request) (ev : env) (u : user) (db : tasks) :
  forallb (owned (_id u)) (tasks_sent (snd (task_route r ev u db))) = true.
Proof.
  assert (Hm : forall i t, Task_matches i (_id u) t = true -> owned (_id u) t = true)
    by (intros i t Ht; apply Task_matches_owned in Ht as [_ Ht]; exact Ht).
  destruct r; cbn [task_route].
  - unfold get_tasks, try_catch, bind, ret.
    destruct (Task_sort _ _ _) as [l'|] eqn:Hs; [|reflexivity].
    cbn. apply forallb_forall. intros t Ht.
    apply Task_sort_Permutation in Hs.
    apply (Permutation_in _ (Permutation_sym Hs)) in Ht.
    apply filter_In in Ht as [_ Ht]. apply (tasks_query_owned q), Ht.
  - rewrite get_task_cases. destruct id as [i|]; [|reflexivity].
    destruct (find (Task_matches i (_id u)) db) as [t|] eqn:Hf; [|reflexivity].
    cbn. apply find_some in Hf as [_ Hf]. rewrite (Hm i t Hf). reflexivity.
  - destruct (create_task_cases b ev u db) as [[t [E [_ [_ [Huid _]]]]]|E];
      rewrite E; [|reflexivity].
    cbn. unfold owned. rewrite Huid, Nat.eqb_refl. reflexivity.
  - rewrite update_task_cases. destruct id as [i|]; [|reflexivity].
    destruct (find (Task_matches i (_id u)) db) as [old|] eqn:Hf; [|reflexivity].
    destruct (negb (castError (TaskBody.completed b)) && Task_validate (update_fields b old));
    [|reflexivity].
    cbn. apply find_some in Hf as [_ Hf]. pose proof (Hm i old Hf) as Ho.
    unfold owned in *. rewrite (proj2 (update_fields_id b old)), Ho. reflexivity.
  - rewrite delete_task_cases. destruct id as [i|]; [|reflexivity].
    destruct (find (Task_matches i (_id u)) db) as [t|] eqn:Hf; [|reflexivity].
    cbn. apply find_some in Hf as [_ Hf]. rewrite (Hm i t Hf). reflexivity.
  - rewrite bulk_delete_cases. destruct taskIds as [[|i l]|]; try reflexivity.
    destruct (cast_ids (i :: l)); reflexivity.
  - reflexivity.
Qed.

(** The response of a route is the one it gives on the tasks of
    [req.user] alone; POST is left out, which also looks for the new
    [_id] among the tasks of everybody. *)
Lemma task_route_snd_own (r : task_request) (ev : env) (u : user) (db : tasks) :
  (forall b, r <> CreateTask b) ->
  snd (task_route r ev u db) = snd (task_route r ev u (tasks_of (_id u) db)).
Proof.
  assert (Hm : forall i t, Task_matches i (_id u) t = true -> owned (_id u) t = true)
    by (intros i t Ht; apply Task_matches_owned in Ht as [_ Ht]; exact Ht).
  intros Hr. destruct r; cbn [task_route].
  - unfold get_tasks, try_catch, bind, ret.
    rewrite (filter_tasks_of _ _ db (tasks_query_owned q (_id u))).
    destruct (Task_sort _ _ _); reflexivity.
  - rewrite !get_task_cases. destruct id as [i|]; [|reflexivity].
    cbn [snd]. rewrite (find_tasks_of _ _ db (Hm i)). reflexivity.
  - exfalso. exact (Hr b eq_refl).
  - rewrite !update_task_cases. destruct id as [i|]; [|reflexivity].
    rewrite (find_tasks_of _ _ db (Hm i)).
    destruct (find (Task_matches i (_id u)) db) as [old|]; [|reflexivity].
    destruct (negb (castError (TaskBody.completed b)) && Task_validate (update_fields b old));
      reflexivity.
  - rewrite !delete_task_cases. destruct id as [i|]; [|reflexivity].
    rewrite (find_tasks_of _ _ db (Hm i)).
    destruct (find (Task_matches i (_id u)) db); reflexivity.
  - rewrite !bulk_delete_cases.
    destruct taskIds as [[|i l]|]; try reflexivity.
    destruct (cast_ids (i :: l)) as [ids|]; [|reflexivity].
    cbn [snd]. rewrite (filter_tasks_of (Task_in ids (_id u)) (_id u) db); [reflexivity|].
    intros t. apply Task_in_owned.
  - unfold stats_summary, try_catch, bind, ret. cbn [snd].
    rewrite (filter_tasks_of (fun t => Nat.eqb (Task.userId t) (_id u)) (_id u) db);
      [reflexivity|]. intros t Ht. exact Ht.
Qed.

(** X15. A request to a task route leaves the tasks of every other user as
    they are, in the same order: the three reading routes change nothing
    and the four writing routes only insert, change or remove tasks of
    [req.user]. *)
Theorem task_routes_keep_other_users_tasks (u : user) (db : tasks) :
  Task_unique_ids db = true ->
  (forall q, fst (get_tasks q u db) = db) /\
  (forall id, fst (get_task id u db) = db) /\
  fst (stats_summary u db) = db /\
  (forall b ev,
      tasks_of_others (_id u) (fst (create_task b ev u db)) = tasks_of_others (_id u) db) /\
  (forall id b,
      tasks_of_others (_id u) (fst (update_task id b u db)) = tasks_of_others (_id u) db) /\
  (forall id,
      tasks_of_others (_id u) (fst (delete_task id u db)) = tasks_of_others (_id u) db) /\
  (forall taskIds,
      tasks_of_others (_id u) (fst (bulk_delete taskIds u db)) = tasks_of_others (_id u) db).
Proof.
  intros Hu.
  split; [intros q; apply get_tasks_fst|].
  split; [intros id; rewrite get_task_cases; reflexivity|].
  split; [reflexivity|].
  split; [intros b ev; apply create_task_fst_others|].
  split; [intros id b; apply update_task_fst_others, Hu|].
  split; [intros id; apply delete_task_fst_others|].
  intros taskIds. apply bulk_delete_fst_others.
Qed.

(** X16. What a task route answers depends on the tasks of [req.user]
    only: the response of every route but POST is the one it would give if
    the collection held no task of anybody else, so that the task of
    another user is answered like a task that does not exist; and every
    task that a response carries, of any route, belongs to [req.user]. *)
Theorem task_routes_answer_from_own_tasks (r : task_request) (ev : env) (u : user)
    (db : tasks) :
  ((forall b, r <> CreateTask b) ->
   snd (task_route r ev u db) = snd (task_route r ev u (tasks_of (_id u) db))) /\
  forallb (owned (_id u)) (tasks_sent (snd (task_route r ev u db))) = true.
Proof.
  split; [apply task_route_snd_own|apply task_route_sent_owned].
Qed.

(** *** What PUT writes, and the invariant of the collection *)

Lemma update_fields_paths (b : TaskBody.t) (old : Task.task) :
  Task.name (update_fields b old)
  = match TaskBody.name b with Some v => JS.trim v | None => Task.name old end /\
  Task.time (update_fields b old)
  = match TaskBody.time b with Some v => v | None => Task.time old end /\
  Task.date (update_fields b old)
  = match TaskBody.date b with Some v => v | None => Task.date old end /\
  Task.deadline (update_fields b old)
  = match TaskBody.time b, TaskBody.date b with
    | None, None => Task.deadline old
    | _, _ => (Task.date (update_fields b old) ++ " " ++ Task.time (update_fields b old))%string
    end /\
  Task.progress (update_fields b old)
  = (if match TaskBody.completed b with Some v => truthy v | None => false end
     then 100
     else match TaskBody.progress b with Some p => p | None => Task.progress old end) /\
  Task.completed (update_fields b old)
  = match TaskBody.completed b with
    | Some v => match castBoolean v with Some c => c | None => Task.completed old end
    | None => Task.completed old
    end /\
  Task.icon (update_fields b old)
  = match TaskBody.icon b with Some v => v | None => Task.icon old end /\
  Task.color (update_fields b old)
  = match TaskBody.color b with Some v => v | None => Task.color old end.
Proof.
  destruct old as [i uid n ti d dl p c ic co].
  destruct b as [[bn|] [bti|] [bd|] [bp|] [v|] [bic|] [bco|]];
    cbv -[JS.trim String.append castBoolean truthy];
    try destruct (castBoolean v); try destruct (truthy v); repeat split; reflexivity.
Qed.

(** A document that passes the validators is as the schema wants it, if
    the stored document was. *)
Lemma update_fields_ok (b : TaskBody.t) (old : Task.task) :
  task_ok old = true ->
  Task_validate (update_fields b old) = true ->
  task_ok (update_fields b old) = true.
Proof.
  intros Hok Hv. pose proof (update_fields_paths b old) as [_ [Ht [Hd [Hdl _]]]].
  unfold task_ok in *. unfold Task_validate, Task.required in Hv.
  rewrite !andb_true_iff in Hok, Hv |- *.
  destruct Hok as [[[[[O1 O2] O3] O4] O5] O6].
  destruct Hv as [[[[[V1 V2] V3] V4] V5] V6].
  repeat split; try assumption.
  rewrite Hdl. destruct (TaskBody.time b) as [ti|] eqn:Eti.
  - apply String.eqb_refl.
  - destruct (TaskBody.date b) as [da|] eqn:Eda; [apply String.eqb_refl|].
    rewrite Ht, Hd. exact O1.
Qed.

(** A stored task as the schema and the routes want it passes the
    validators. *)
Lemma task_ok_validate (t : Task.task) : task_ok t = true -> Task_validate t = true.
Proof.
  unfold task_ok, Task_validate, Task.required. rewrite !andb_true_iff.
  intros [[[[[O1 O2] O3] O4] O5] O6]. repeat split; try assumption.
  apply String.eqb_eq in O1. rewrite O1.
  destruct (Task.date t); [discriminate O4|reflexivity].
Qed.

Lemma Task_unique_ids_app (db : tasks) (t : Task.task) :
  Task_unique_ids db = true ->
  existsb (fun x => Nat.eqb (Task._id x) (Task._id t)) db = false ->
  Task_unique_ids (db ++ [t]) = true.
Proof.
  intros Hu Hn. induction db as [|d rest IH]; [reflexivity|].
  cbn in Hu, Hn |- *. apply andb_prop in Hu as [H1 H2].
  apply orb_false_iff in Hn as [Hn1 Hn2].
  rewrite existsb_app. cbn. rewrite (IH H2 Hn2).
  apply negb_true_iff in H1. rewrite H1, Nat.eqb_sym, Hn1. reflexivity.
Qed.

Lemma existsb_filter_false {A} (p q : A -> bool) (l : list A) :
  existsb p l = false -> existsb p (filter q l) = false.
Proof.
  induction l as [|a l IH]; [reflexivity|]. cbn. intros H.
  apply orb_false_iff in H as [H1 H2]. destruct (q a); cbn; [rewrite H1|]; auto.
Qed.

Lemma Task_unique_ids_filter (q : Task.task -> bool) (db : tasks) :
  Task_unique_ids db = true -> Task_unique_ids (filter q db) = true.
Proof.
  induction db as [|d rest IH]; [reflexivity|]. cbn. intros H.
  apply andb_prop in H as [H1 H2]. apply negb_true_iff in H1.
  destruct (q d); cbn; [|auto]. rewrite (existsb_filter_false _ q _ H1), (IH H2). reflexivity.
Qed.

Lemma existsb_Task_remove_false (p q : Task.task -> bool) (l : tasks) :
  existsb p l = false -> existsb p (Task_remove q l) = false.
Proof.
  induction l as [|a l IH]; [reflexivity|]. cbn. intros H.
  apply orb_false_iff in H as [H1 H2]. destruct (q a); cbn; [|rewrite H1]; auto.
Qed.

Lemma Task_unique_ids_remove (q : Task.task -> bool) (db : tasks) :
  Task_unique_ids db = true -> Task_unique_ids (Task_remove q db) = true.
Proof.
  induction db as [|d rest IH]; [reflexivity|]. cbn. intros H.
  apply andb_prop in H as [H1 H2]. apply negb_true_iff in H1.
  destruct (q d); cbn; [assumption|].
  rewrite (existsb_Task_remove_false _ q _ H1), (IH H2). reflexivity.
Qed.

Lemma forallb_Task_remove (p q : Task.task -> bool) (db : tasks) :
  forallb p db = true -> forallb p (Task_remove q db) = true.
Proof.
  induction db as [|d rest IH]; [reflexivity|]. cbn. intros H.
  apply andb_prop in H as [H1 H2]. destruct (q d); cbn; [assumption|].
  rewrite H1, (IH H2). reflexivity.
Qed.

Lemma forallb_filter_keep {A} (p q : A -> bool) (l : list A) :
  forallb p l = true -> forallb p (filter q l) = true.
Proof.
  induction l as [|a l IH]; [reflexivity|]. cbn. intros H.
  apply andb_prop in H as [H1 H2]. destruct (q a); cbn; [rewrite H1|]; auto.
Qed.

Lemma Task_unique_ids_middle (l1 l2 : tasks) (a b : Task.task) :
  Task._id a = Task._id b ->
  Task_unique_ids (l1 ++ a :: l2) = Task_unique_ids (l1 ++ b :: l2).
Proof.
  intros Hab. induction l1 as [|d l1 IH]; cbn.
  - rewrite Hab. reflexivity.
  - rewrite IH, !existsb_app. cbn. rewrite Hab. reflexivity.
Qed.

Lemma update_task_well_formed (id : option nat) (b : TaskBody.t) (u : user) (db : tasks) :
  tasks_well_formed db = true -> tasks_well_formed (fst (update_task id b u db)) = true.
Proof.
  intros Hwf. rewrite update_task_cases.
  destruct id as [i|]; [|exact Hwf].
  destruct (find (Task_matches i (_id u)) db) as [old|] eqn:Hf; [|exact Hwf].
  destruct (castError (TaskBody.completed b)); [exact Hwf|]. cbn [negb andb].
  destruct (Task_validate (update_fields b old)) eqn:Hv; [|exact Hwf].
  cbn [fst]. unfold tasks_well_formed in *. apply andb_prop in Hwf as [Hu Hall].
  pose proof (update_fields_id b old) as [Hid _].
  pose proof (find_some _ _ Hf) as [Hin Hm]. apply Task_matches_owned in Hm as [Hi _].
  destruct (Task_updateOne_found i (_id u) db old (update_fields b old) Hu Hf)
    as [l1 [l2 [E1 [E2 _]]]]; [congruence|].
  rewrite E2. rewrite E1 in Hu, Hall.
  rewrite (Task_unique_ids_middle l1 l2 _ old Hid), Hu.
  rewrite forallb_app in Hall |- *. cbn in Hall |- *.
  apply andb_prop in Hall as [H1 H2]. apply andb_prop in H2 as [H2 H3].
  rewrite H1, H3, (update_fields_ok b old H2 Hv). reflexivity.
Qed.

(** X17. Every task route keeps the [tasks] collection in the shape the
    schema and the routes give it: no two tasks share an [_id], and for
    every task the deadline is the date, a space and the time, the
    name, the time and the date are not empty, the progress is between 0
    and 100 and the color is one of the five of the schema. *)
Theorem task_routes_keep_well_formed (u : user) (db : tasks) :
  tasks_well_formed db = true ->
  (forall q, tasks_well_formed (fst (get_tasks q u db)) = true) /\
  (forall id, tasks_well_formed (fst (get_task id u db)) = true) /\
  tasks_well_formed (fst (stats_summary u db)) = true /\
  (forall b ev, tasks_well_formed (fst (create_task b ev u db)) = true) /\
  (forall id b, tasks_well_formed (fst (update_task id b u db)) = true) /\
  (forall id, tasks_well_formed (fst (delete_task id u db)) = true) /\
  (forall taskIds, tasks_well_formed (fst (bulk_delete taskIds u db)) = true).
Proof.
  intros Hwf.
  split; [intros q; rewrite get_tasks_fst; exact Hwf|].
  split; [intros id; rewrite get_task_cases; exact Hwf|].
  split; [exact Hwf|].
  split.
  { intros b ev.
    destruct (create_task_cases b ev u db) as [[t [E [Hn [Hid [_ Hrest]]]]]|E];
      rewrite E; [|exact Hwf].
    cbn [fst]. unfold tasks_well_formed in *. apply andb_prop in Hwf as [Hu Hall].
    rewrite <- Hid in Hn. rewrite (Task_unique_ids_app db t Hu Hn), forallb_app, Hall.
    cbn. destruct Hrest as [_ [_ [_ [_ [_ [_ [_ [_ Hok]]]]]]]]. rewrite Hok. reflexivity. }
  split; [intros id b; apply update_task_well_formed, Hwf|].
  unfold tasks_well_formed in *. apply andb_prop in Hwf as [Hu Hall].
  assert (Hsame : Task_unique_ids db && forallb task_ok db = true)
    by (rewrite Hu, Hall; reflexivity).
  split.
  { intros id. rewrite delete_task_cases. destruct id as [i|]; [|exact Hsame].
    destruct (find (Task_matches i (_id u)) db); [|exact Hsame].
    cbn [fst]. rewrite (Task_unique_ids_remove _ db Hu), (forallb_Task_remove _ _ db Hall).
    reflexivity. }
  intros taskIds. rewrite bulk_delete_cases.
  destruct taskIds as [[|i l]|]; try exact Hsame.
  destruct (cast_ids (i :: l)) as [ids|]; [|exact Hsame].
  cbn [fst]. rewrite (Task_unique_ids_filter _ db Hu), (forallb_filter_keep _ _ db Hall).
  reflexivity.
Qed.

(** *** Writing a task and reading it back *)

Lemma find_middle (i uid : nat) (l1 l2 : tasks) (t : Task.task) :
  existsb (fun x => Nat.eqb (Task._id x) i) l1 = false ->
  Task_matches i uid t = true ->
  find (Task_matches i uid) (l1 ++ t :: l2) = Some t.
Proof.
  intros Hn Hm. induction l1 as [|d l1 IH]; cbn.
  - rewrite Hm. reflexivity.
  - cbn in Hn. apply orb_false_iff in Hn as [H1 H2].
    unfold Task_matches at 1. rewrite H1. cbn. exact (IH H2).
Qed.

Lemma find_absent (i uid : nat) (db : tasks) :
  existsb (fun x => Nat.eqb (Task._id x) i) db = false ->
  find (Task_matches i uid) db = None.
Proof.
  intros Hn. induction db as [|d rest IH]; [reflexivity|].
  cbn in Hn |- *. apply orb_false_iff in Hn as [H1 H2].
  unfold Task_matches at 1. rewrite H1. cbn. exact (IH H2).
Qed.

Lemma find_app_absent {A} (p : A -> bool) (l1 l2 : list A) :
  find p l1 = None -> find p (l1 ++ l2) = find p l2.
Proof.
  induction l1 as [|a l1 IH]; [reflexivity|]. cbn.
  destruct (p a); [discriminate|exact IH].
Qed.

Lemma Task_remove_last (i uid : nat) (db : tasks) (t : Task.task) :
  existsb (fun x => Nat.eqb (Task._id x) i) db = false ->
  Task_matches i uid t = true ->
  Task_remove (Task_matches i uid) (db ++ [t]) = db.
Proof.
  intros Hn Hm. induction db as [|d rest IH]; cbn.
  - rewrite Hm. reflexivity.
  - cbn in Hn. apply orb_false_iff in Hn as [H1 H2].
    unfold Task_matches at 1. rewrite H1. cbn. rewrite (IH H2). reflexivity.
Qed.

(** X18. What PUT /api/tasks/:id makes of [completed] and [progress], for
    a task that the query finds.  A [completed] that cannot be cast to a
    boolean is answered 500 and nothing is written.  When the request is
    answered 200, the task in the response is the task stored under the
    id; its [completed] is the value of the body cast to a boolean, and
    its progress is 100 when the value of the body is one that JavaScript
    takes for true, whatever progress the body carries, and otherwise,
    and without [completed], the progress of the body, or the stored one:
    [completed] is not derived from the progress, and progress 100 alone
    does not complete a task.  So [completed: true] stores a completed
    task with progress 100; the strings [false] and [0], which the
    validation chain lets through, store a task that is not completed
    with progress 100; and a body with [completed] set to
    [progress === 100], as the client builds it, stores a task that is
    completed exactly when its progress is 100. *)
Theorem update_task_completion (i : nat) (b : TaskBody.t) (u : user) (db : tasks)
    (old : Task.task) :
  Task_unique_ids db = true ->
  find (Task_matches i (_id u)) db = Some old ->
  ((forall v, TaskBody.completed b = Some v -> castBoolean v = None ->
      update_task (Some i) b u db = (db, task_json 500 false "Error updating task")) /\
   (Task.status (snd (update_task (Some i) b u db)) = 200 ->
    exists t,
      snd (update_task (Some i) b u db)
      = task_json_data 200 "Task updated successfully" (Task.One t) /\
      find (Task_matches i (_id u)) (fst (update_task (Some i) b u db)) = Some t /\
      (forall v,
          TaskBody.completed b = Some v ->
          castBoolean v = Some (Task.completed t) /\
          Task.progress t
          = if truthy v then 100
            else match TaskBody.progress b with Some p => p | None => Task.progress old end) /\
      (TaskBody.completed b = None ->
       Task.completed t = Task.completed old /\
       Task.progress t
       = match TaskBody.progress b with Some p => p | None => Task.progress old end) /\
      (TaskBody.completed b = Some (TaskBody.VBool true) ->
       Task.completed t = true /\ Task.progress t = 100) /\
      (TaskBody.completed b = Some (TaskBody.VString "false") \/
       TaskBody.completed b = Some (TaskBody.VString "0") ->
       Task.completed t = false /\ Task.progress t = 100) /\
      (forall p,
          TaskBody.progress b = Some p ->
          TaskBody.completed b = Some (TaskBody.VBool (p =? 100)) ->
          (Task.completed t = true <-> Task.progress t = 100)))).
Proof.
  intros Hu Hf. rewrite update_task_cases, Hf. split.
  { intros v Ev Hcast. unfold castError. rewrite Ev, Hcast. reflexivity. }
  destruct (castError (TaskBody.completed b)) eqn:Hce; [cbn; discriminate|].
  cbn [negb andb].
  destruct (Task_validate (update_fields b old)) eqn:Hv; [|cbn; discriminate].
  intros _. exists (update_fields b old). cbn [fst snd].
  pose proof (update_fields_id b old) as [Hid Huid].
  pose proof (find_some _ _ Hf) as [_ Hm].
  pose proof (Task_matches_owned _ _ _ Hm) as [Hi Ho].
  destruct (Task_updateOne_found i (_id u) db old (update_fields b old) Hu Hf)
    as [l1 [l2 [E1 [E2 [N1 _]]]]]; [congruence|].
  pose proof (update_fields_paths b old) as [_ [_ [_ [_ [Hp [Hc _]]]]]].
  assert (Hgen : forall v,
             TaskBody.completed b = Some v ->
             castBoolean v = Some (Task.completed (update_fields b old)) /\
             Task.progress (update_fields b old)
             = if truthy v then 100
               else match TaskBody.progress b with
                    | Some p => p
                    | None => Task.progress old
                    end).
  { intros v Ev. rewrite Hp, Hc, Ev. unfold castError in Hce. rewrite Ev in Hce.
    destruct (castBoolean v); [|discriminate]. split; reflexivity. }
  split; [reflexivity|]. split.
  { rewrite E2. apply find_middle; [exact N1|].
    unfold Task_matches, owned in *. rewrite Hid, Huid, Hi, Ho, Nat.eqb_refl. reflexivity. }
  split; [exact Hgen|].
  split; [intros E; rewrite Hp, Hc, E; split; reflexivity|].
  split.
  { intros E. destruct (Hgen _ E) as [H1 H2]. cbn in H1, H2. split; congruence. }
  split.
  { intros [E|E]; destruct (Hgen _ E) as [H1 H2]; cbn in H1, H2; split; congruence. }
  intros p Ep Ec. destruct (Hgen _ Ec) as [H1 H2]. cbn in H1, H2. rewrite Ep in H2.
  injection H1 as H1. rewrite <- H1, H2.
  destruct (p =? 100) eqn:E100.
  - split; reflexivity.
  - apply Z.eqb_neq in E100. split; [discriminate|]. intros H. contradiction.
Qed.

(** X19. The life of a task.  When POST /api/tasks is answered 201 the task
    of the response is appended to the collection: it belongs to
    [req.user], its name is the trimmed name of the body, its deadline is
    the date, a space and the time, its progress and its [completed] are
    those of the body, 0 and [false] when absent, [completed] cast to a
    boolean when the body has it as a number or a string, and its color
    is [purple] when the body has none.  GET with its id returns it to its
    owner and answers 404 to everybody else; DELETE by its owner removes it
    and gives back the collection as it was, where the id is answered
    404.  When POST is not answered 201, it is answered 500 and nothing is
    stored. *)
Theorem create_get_delete_task (b : TaskBody.t) (ev : env) (u : user) (db : tasks) :
  (Task.status (snd (create_task b ev u db)) <> 201 ->
   create_task b ev u db = (db, task_json 500 false "Error creating task")) /\
  (Task.status (snd (create_task b ev u db)) = 201 ->
   exists t,
     create_task b ev u db
     = (db ++ [t], task_json_data 201 "Task created successfully" (Task.One t)) /\
     Task.userId t = _id u /\
     option_map JS.trim (TaskBody.name b) = Some (Task.name t) /\
     Task.deadline t = (Task.date t ++ " " ++ Task.time t)%string /\
     Task.progress t = match TaskBody.progress b with Some p => p | None => 0 end /\
     Some (Task.completed t)
     = match TaskBody.completed b with
       | Some v => if truthy v then castBoolean v else Some false
       | None => Some false
       end /\
     (forall c, TaskBody.completed b = Some (TaskBody.VBool c) -> Task.completed t = c) /\
     (TaskBody.color b = None -> Task.color t = "purple") /\
     get_task (Some (Task._id t)) u (db ++ [t])
     = (db ++ [t], Task.mkResponse 200 true None (Task.One t)) /\
     (forall v, _id v <> _id u ->
                get_task (Some (Task._id t)) v (db ++ [t])
                = (db ++ [t], task_json 404 false "Task not found")) /\
     delete_task (Some (Task._id t)) u (db ++ [t])
     = (db, task_json_data 200 "Task deleted successfully" (Task.One t)) /\
     get_task (Some (Task._id t)) u db = (db, task_json 404 false "Task not found")).
Proof.
  destruct (create_task_cases b ev u db)
    as [[t [E [Hn [Hid [Huid [Hname [_ [_ [Hdl [Hp [Hc [_ [Hcol _]]]]]]]]]]]]]|E];
    rewrite E; cbn [snd Task.status task_json task_json_data].
  2: { split; [reflexivity|discriminate]. }
  split; [intros H; contradiction|]. intros _. exists t.
  rewrite <- Hid in Hn.
  assert (Hm : Task_matches (Task._id t) (_id u) t = true)
    by (unfold Task_matches; rewrite Huid, !Nat.eqb_refl; reflexivity).
  split; [reflexivity|]. split; [exact Huid|]. split; [exact Hname|].
  split; [exact Hdl|].
  split; [rewrite Hp; destruct (TaskBody.progress b) as [p|]; [|reflexivity];
          cbn; destruct (p =? 0) eqn:E0; [apply Z.eqb_eq in E0; congruence|reflexivity]|].
  assert (Hcompleted : Some (Task.completed t)
                       = match TaskBody.completed b with
                         | Some v => if truthy v then castBoolean v else Some false
                         | None => Some false
                         end).
  { rewrite <- Hc. unfold or_value. destruct (TaskBody.completed b) as [v|]; [|reflexivity].
    destruct (truthy v); reflexivity. }
  split; [exact Hcompleted|].
  split; [intros c Ec; rewrite Ec in Hcompleted; cbn in Hcompleted;
          destruct c; congruence|].
  split; [intros Ecol; rewrite Hcol, Ecol; reflexivity|].
  assert (Hfind : find (Task_matches (Task._id t) (_id u)) (db ++ [t]) = Some t)
    by (apply find_middle; assumption).
  split; [rewrite get_task_cases, Hfind; reflexivity|].
  split.
  { intros v Hv. rewrite get_task_cases.
    replace (find (Task_matches (Task._id t) (_id v)) (db ++ [t])) with (@None Task.task);
      [reflexivity|].
    symmetry. rewrite (find_app_absent _ db [t] (find_absent _ _ db Hn)). cbn.
    unfold Task_matches. rewrite Huid.
    destruct (Nat.eqb_spec (_id u) (_id v)); [congruence|].
    rewrite andb_false_r. reflexivity. }
  split.
  { rewrite delete_task_cases, Hfind, (Task_remove_last _ _ db t Hn Hm). reflexivity. }
  rewrite get_task_cases, (find_absent _ _ db Hn). reflexivity.
Qed.

(** *** The task routes behind the gate *)

Lemma tasks_of_others_tasks_of (uid v : nat) (db : tasks) :
  v <> uid -> tasks_of v (tasks_of_others uid db) = tasks_of v db.
Proof.
  intros Hv. unfold tasks_of, tasks_of_others, owned.
  induction db as [|t rest IH]; [reflexivity|]. cbn.
  destruct (Nat.eqb_spec (Task.userId t) uid) as [E|E]; cbn.
  - destruct (Nat.eqb_spec (Task.userId t) v); [congruence|exact IH].
  - rewrite IH. reflexivity.
Qed.

Lemma protected_cases (authorization : option string) (ev : env) (users : collection)
    (route : user -> tasks -> tasks * Task.response) (db : tasks) :
  (exists st msg,
      protected authorization ev users route db = (db, task_json st false msg) /\
      (st = 401 \/ st = 500)) \/
  (exists token d,
      bearer_token authorization = Some token /\
      jwt_verify token (Date_now ev) = JwtOk (_id d) /\
      In d users /\
      protected authorization ev users route db = route (project [] d) db).
Proof.
  unfold protected, protect.
  destruct (bearer_token authorization) as [token|];
    [|left; eexists _, _; split; [reflexivity|left; reflexivity]].
  destruct (String.eqb token "");
    [left; eexists _, _; split; [reflexivity|left; reflexivity]|].
  destruct (jwt_verify token (Date_now ev)) as [id|name] eqn:Hv.
  - destruct (User_findById id users) as [d|] eqn:Hf;
      [|left; eexists _, _; split; [reflexivity|left; reflexivity]].
    right. exists token, d. apply find_some in Hf as [Hin Hid].
    apply Nat.eqb_eq in Hid. subst id. repeat split; assumption || reflexivity.
  - left. destruct (String.eqb name "JsonWebTokenError");
      [eexists _, _; split; [reflexivity|left; reflexivity]|].
    destruct (String.eqb name "TokenExpiredError");
      eexists _, _; (split; [reflexivity|]); [left|right]; reflexivity.
Qed.

(** X20. A request to /api/tasks whose [Authorization] header does not
    carry a token that [jwt.verify] accepts for a user neither changes a
    task of that user nor sends one: whatever the request, and whoever
    else the token is accepted for, the tasks of the user are afterwards
    what they were, and no task of the response is one of them. *)
Theorem tasks_router_needs_token (v : nat) (authorization : option string)
    (r : task_request) (ev : env) (users : collection) (db : tasks) :
  Task_unique_ids db = true ->
  (forall token,
      bearer_token authorization = Some token ->
      jwt_verify token (Date_now ev) <> JwtOk v) ->
  tasks_of v (fst (tasks_router authorization r ev users db)) = tasks_of v db /\
  forallb (fun t => negb (owned v t))
    (tasks_sent (snd (tasks_router authorization r ev users db))) = true.
Proof.
  intros Hu Hno. unfold tasks_router.
  destruct (protected_cases authorization ev users (task_route r ev) db)
    as [[st [msg [E _]]]|[token [d [Hb [Hv [_ E]]]]]]; rewrite E.
  - split; reflexivity.
  - assert (Hd : v <> _id (project [] d))
      by (cbn [project _id]; intros ->; exact (Hno token Hb Hv)).
    split.
    + rewrite <- (tasks_of_others_tasks_of _ v _ Hd),
        (task_route_fst_others r ev (project [] d) db Hu).
      apply tasks_of_others_tasks_of, Hd.
    + pose proof (task_route_sent_owned r ev (project [] d) db) as Hs.
      rewrite forallb_forall in Hs |- *. intros t Ht. specialize (Hs t Ht).
      unfold owned in *. apply Nat.eqb_eq in Hs. apply negb_true_iff.
      apply Nat.eqb_neq. congruence.
Qed.

(** *** Deleting many tasks, and counting them *)

Lemma cast_ids_In (l : list (option nat)) (ids : list nat) (i : nat) :
  cast_ids l = Some ids -> (In i ids <-> In (Some i) l).
Proof.
  revert ids. induction l as [|[j|] l IH]; intros ids H; cbn in H.
  - injection H as <-. reflexivity.
  - destruct (cast_ids l) as [ids'|]; [|discriminate]. injection H as <-.
    cbn. rewrite (IH ids' eq_refl). split; intros [E|E]; auto; left; congruence.
  - discriminate.
Qed.

Lemma cast_ids_None (l : list (option nat)) :
  cast_ids l = None <-> In None l.
Proof.
  induction l as [|[j|] l IH]; cbn.
  - split; [discriminate|contradiction].
  - destruct (cast_ids l); cbn; split; intros H.
    + discriminate.
    + destruct H as [H|H]; [discriminate|]. apply IH in H. discriminate.
    + right. apply IH. reflexivity.
    + reflexivity.
  - split; [left|]; reflexivity.
Qed.

Lemma filter_length_split {A} (p : A -> bool) (l : list A) :
  List.length l
  = (List.length (filter p l) + List.length (filter (fun x => negb (p x)) l))%nat.
Proof.
  induction l as [|a l IH]; [reflexivity|]. cbn.
  destruct (p a); cbn; lia.
Qed.

Lemma filter_none {A} (p : A -> bool) (l : list A) :
  filter p (filter (fun x => negb (p x)) l) = [].
Proof.
  induction l as [|a l IH]; [reflexivity|]. cbn.
  destruct (p a) eqn:E; cbn; [exact IH|]. rewrite E. exact IH.
Qed.

Lemma filter_negb_twice {A} (p : A -> bool) (l : list A) :
  filter (fun x => negb (p x)) (filter (fun x => negb (p x)) l)
  = filter (fun x => negb (p x)) l.
Proof.
  induction l as [|a l IH]; [reflexivity|]. cbn.
  destruct (p a) eqn:E; cbn; [exact IH|]. rewrite E. cbn. rewrite IH. reflexivity.
Qed.

(** X21. POST /api/tasks/bulk-delete with a list of ids that is not empty
    removes the tasks of [req.user] whose id is in the list, and no other:
    [deletedCount] is the number of tasks removed, a task stays exactly
    when it is not of [req.user] or its id is not in the list, and the same
    request once more deletes nothing and reports 0.  When one element of
    the list is no ObjectId, nothing is deleted and the answer is 500; a
    missing or empty list is answered 400. *)
Theorem bulk_delete_removes (l : list (option nat)) (u : user) (db : tasks) :
  l <> [] ->
  (In None l ->
   bulk_delete (Some l) u db = (db, task_json 500 false "Error deleting tasks")) /\
  (~ In None l ->
   exists n,
     Task.status (snd (bulk_delete (Some l) u db)) = 200 /\
     Task.data (snd (bulk_delete (Some l) u db)) = Task.Deleted n /\
     List.length db = (List.length (fst (bulk_delete (Some l) u db)) + n)%nat /\
     (forall t,
         In t (fst (bulk_delete (Some l) u db)) <->
         In t db /\ (owned (_id u) t = false \/ ~ In (Some (Task._id t)) l)) /\
     bulk_delete (Some l) u (fst (bulk_delete (Some l) u db))
     = (fst (bulk_delete (Some l) u db),
        task_json_data 200 "0 task(s) deleted successfully" (Task.Deleted 0))) /\
  bulk_delete None u db = (db, task_json 400 false "Please provide an array of task IDs") /\
  bulk_delete (Some []) u db
  = (db, task_json 400 false "Please provide an array of task IDs").
Proof.
  intros Hl. split; [|split; [|split; reflexivity]].
  - intros Hin. rewrite bulk_delete_cases. apply cast_ids_None in Hin. rewrite Hin.
    destruct l; [contradiction|reflexivity].
  - intros Hin. rewrite !bulk_delete_cases.
    destruct (cast_ids l) as [ids|] eqn:Hc; [|apply cast_ids_None in Hc; contradiction].
    destruct l as [|i l']; [contradiction|]. cbn [fst snd].
    exists (List.length (filter (Task_in ids (_id u)) db)). cbn [Task.status Task.data task_json_data].
    split; [reflexivity|]. split; [reflexivity|]. split.
    { rewrite (filter_length_split (Task_in ids (_id u)) db). lia. }
    split.
    { intros t. rewrite filter_In. unfold Task_in, owned.
      rewrite negb_true_iff, andb_false_iff.
      assert (Hex : existsb (Nat.eqb (Task._id t)) ids = false <-> ~ In (Some (Task._id t)) (i :: l')).
      { rewrite <- (cast_ids_In _ _ (Task._id t) Hc). split.
        - intros He Hi. assert (existsb (Nat.eqb (Task._id t)) ids = true); [|congruence].
          apply existsb_exists. exists (Task._id t). split; [assumption|apply Nat.eqb_refl].
        - intros Hn. destruct (existsb (Nat.eqb (Task._id t)) ids) eqn:He; [|reflexivity].
          apply existsb_exists in He as [x [Hx He]]. apply Nat.eqb_eq in He. subst x.
          contradiction. }
      rewrite <- Hex. tauto. }
    rewrite filter_none, filter_negb_twice. reflexivity.
Qed.

(** *** The statistics of the dashboard *)

Lemma stats_partition (l : list Task.task) :
  forallb (fun t => 0 <=? Task.progress t) l = true ->
  List.length l
  = (List.length (filter Task.completed l)
     + List.length (filter (fun t => negb (Task.completed t) && (0 <? Task.progress t)%Z) l)
     + List.length (filter (fun t => negb (Task.completed t) && (Task.progress t =? 0)%Z) l))%nat.
Proof.
  induction l as [|t l IH]; [reflexivity|]. cbn. intros H.
  apply andb_prop in H as [Hp H]. specialize (IH H). apply Z.leb_le in Hp.
  destruct (Task.completed t); cbn; [lia|].
  destruct (Z.ltb_spec 0 (Task.progress t)); destruct (Z.eqb_spec (Task.progress t) 0);
    cbn; lia.
Qed.

Lemma filter_length_le {A} (p : A -> bool) (l : list A) :
  (List.length (filter p l) <= List.length l)%nat.
Proof. induction l as [|a l IH]; cbn; [lia|]. destruct (p a); cbn; lia. Qed.

(** X22. GET /api/tasks/stats/summary counts the tasks of [req.user].  When
    none of them has a negative progress, every task is counted once:
    the total is the sum of the completed, the in-progress and the pending
    tasks.  The completion percentage is a whole number from 0 to 100; it
    is 0 when no task is completed, in particular when there is no task,
    and 100 when there are tasks and all are completed. *)
Theorem stats_summary_counts (u : user) (db : tasks) :
  forallb (fun t => 0 <=? Task.progress t) (tasks_of (_id u) db) = true ->
  exists completedTasks inProgressTasks pendingTasks completionPercentage,
    stats_summary u db
    = (db, Task.mkResponse 200 true None
             (Task.Summary (List.length (tasks_of (_id u) db)) completedTasks
                inProgressTasks pendingTasks completionPercentage)) /\
    completedTasks = List.length (filter Task.completed (tasks_of (_id u) db)) /\
    List.length (tasks_of (_id u) db)
    = (completedTasks + inProgressTasks + pendingTasks)%nat /\
    0 <= completionPercentage <= 100 /\
    (completedTasks = 0%nat -> completionPercentage = 0) /\
    (completedTasks = List.length (tasks_of (_id u) db) -> completedTasks <> 0%nat ->
     completionPercentage = 100).
Proof.
  intros Hp. unfold stats_summary, try_catch, bind, ret.
  fold (owned (_id u)). fold (tasks_of (_id u) db).
  set (own := tasks_of (_id u) db) in *.
  eexists _, _, _, _. split; [reflexivity|]. split; [reflexivity|].
  split; [apply stats_partition, Hp|].
  pose proof (filter_length_le Task.completed own) as Hle.
  destruct (0 <? List.length own)%nat eqn:E0.
  - apply Nat.ltb_lt in E0. split; [apply percentage_range; lia|].
    split.
    + intros ->. reflexivity.
    + intros -> _. apply percentage_all. lia.
  - apply Nat.ltb_ge in E0. split; [lia|]. split; [reflexivity|]. intros H1 H2. lia.
Qed.

(** *** [toggleComplete] *)

(** X23. [toggleComplete] on a stored task that is as the schema wants it
    turns [completed] over and sets the progress to 100 when the task
    becomes completed and to 0 when it no longer is; it passes the
    validators and writes the task under its id.  Twice in a row it gives
    back the [completed] the task had, with the progress 100 or 0 that
    goes with it, whatever the progress was. *)
Theorem toggleComplete_twice (i uid : nat) (old : Task.task) (db : tasks) :
  Task_unique_ids db = true ->
  find (Task_matches i uid) db = Some old ->
  task_ok old = true ->
  exists once db1 twice db2,
    toggleComplete old db = (db1, Val once) /\
    find (Task_matches i uid) db1 = Some once /\
    Task.completed once = negb (Task.completed old) /\
    Task.progress once = (if Task.completed old then 0 else 100) /\
    toggleComplete once db1 = (db2, Val twice) /\
    find (Task_matches i uid) db2 = Some twice /\
    twice = Task_set_progress (if Task.completed old then 100 else 0) old /\
    tasks_of_others uid db2 = tasks_of_others uid db.
Proof.
  intros Hu Hf Hok.
  pose proof (find_some _ _ Hf) as [_ Hm].
  pose proof (Task_matches_owned _ _ _ Hm) as [Hi Ho].
  set (once := Task_set_progress (if negb (Task.completed old) then 100 else 0)
                 (Task_set_completed (negb (Task.completed old)) old)).
  set (twice := Task_set_progress (if Task.completed old then 100 else 0) old).
  assert (Hv : forall a, Task.name a = Task.name old -> Task.time a = Task.time old ->
                         Task.date a = Task.date old ->
                         Task.deadline a = Task.deadline old ->
                         Task.color a = Task.color old ->
                         (Task.progress a = 0 \/ Task.progress a = 100) ->
                         Task_validate a = true).
  { intros a H1 H2 H3 H4 H5 H6. pose proof (task_ok_validate old Hok) as Hold.
    unfold Task_validate in *. rewrite H1, H2, H3, H4, H5.
    rewrite !andb_true_iff in Hold |- *.
    destruct Hold as [[[[[V1 V2] V3] V4] _] V6]. repeat split; try assumption.
    destruct H6 as [-> | ->]; reflexivity. }
  destruct (Task_updateOne_found i uid db old once Hu Hf Hi)
    as [l1 [l2 [E1 [E2 [N1 N2]]]]].
  assert (Hm1 : Task_matches i uid once = true) by exact Hm.
  assert (Hf1 : find (Task_matches i uid) (l1 ++ once :: l2) = Some once)
    by (apply find_middle; assumption).
  assert (Hu1 : Task_unique_ids (l1 ++ once :: l2) = true)
    by (rewrite (Task_unique_ids_middle l1 l2 once old eq_refl), <- E1; exact Hu).
  destruct (Task_updateOne_found i uid (l1 ++ once :: l2) once twice Hu1 Hf1 Hi)
    as [k1 [k2 [F1 [F2 [M1 M2]]]]].
  exists once, (l1 ++ once :: l2), twice, (k1 ++ twice :: k2).
  split.
  { change (toggleComplete old db) with (Task_save once db). unfold Task_save.
    rewrite (Hv once); try reflexivity; [rewrite E2; reflexivity|].
    unfold once. cbn. destruct (Task.completed old); auto. }
  split; [exact Hf1|].
  split; [reflexivity|].
  split; [unfold once; cbn; destruct (Task.completed old); reflexivity|].
  split.
  { replace (toggleComplete once (l1 ++ once :: l2))
      with (Task_save twice (l1 ++ once :: l2))
      by (unfold twice, once; destruct old as [a b c d e f g [|] h k]; reflexivity).
    unfold Task_save.
    rewrite (Hv twice); try reflexivity; [rewrite F2; reflexivity|].
    unfold twice. cbn. destruct (Task.completed old); auto. }
  split; [apply find_middle; [exact M1|exact Hm]|].
  split; [reflexivity|].
  rewrite E1, <- (tasks_of_others_middle uid l1 l2 once old Ho Ho), F1.
  apply tasks_of_others_middle; exact Ho.
Qed.

(** *** The client *)

Lemma random_element_defined (array : list string) (random : JS.double) :
  JS.unit_double random ->
  0 < Z.of_nat (List.length array) < 2 ^ 53 ->
  exists x, Frontend.random_element array random = Some x /\ In x array.
Proof.
  intros Hr Hlen. unfold Frontend.random_element.
  pose proof (random_index_range random _ Hr Hlen) as [H0 H1].
  destruct (nth_error array (Z.to_nat _)) as [x|] eqn:E.
  - exists x. split; [reflexivity|]. apply nth_error_In in E. exact E.
  - apply nth_error_None in E. lia.
Qed.

Lemma In_forallb {A} (p : A -> bool) (l : list A) (x : A) :
  forallb p l = true -> In x l -> p x = true.
Proof. intros H. apply forallb_forall. exact H. Qed.

Lemma getRandomIcon_defined (random : JS.double) :
  JS.unit_double random ->
  exists icon,
    Frontend.getRandomIcon random = Some icon /\ In icon Frontend.icons /\ icon <> "".
Proof.
  intros Hr.
  destruct (random_element_defined Frontend.icons random Hr) as [x [E Hin]];
    [vm_compute; split; reflexivity|].
  exists x. split; [exact E|]. split; [exact Hin|].
  pose proof (In_forallb (fun s => negb (String.eqb s "")) Frontend.icons x eq_refl Hin) as H.
  intros ->. discriminate.
Qed.

Lemma getRandomColor_defined (random : JS.double) :
  JS.unit_double random ->
  exists color,
    Frontend.getRandomColor random = Some color /\
    Task.valid_color color = true /\ color <> "".
Proof.
  intros Hr.
  destruct (random_element_defined Frontend.colors random Hr) as [x [E Hin]];
    [vm_compute; split; reflexivity|].
  exists x. split; [exact E|]. split.
  - exact (In_forallb Task.valid_color Frontend.colors x eq_refl Hin).
  - pose proof (In_forallb (fun s => negb (String.eqb s "")) Frontend.colors x eq_refl Hin) as H.
    intros ->. discriminate.
Qed.

(** X24. [getRandomIcon] and [getRandomColor] always return an element of
    their array, never [undefined]: for every double that [Math.random]
    may return, the index [Math.floor(Math.random() * length)], with the
    product rounded as a double, is below the length.  The color is one
    that the schema of a task accepts. *)
Theorem client_random_choice (random : JS.double) :
  JS.unit_double random ->
  (exists icon,
      Frontend.getRandomIcon random = Some icon /\ In icon Frontend.icons /\ icon <> "") /\
  (exists color,
      Frontend.getRandomColor random = Some color /\
      In color Frontend.colors /\ Task.valid_color color = true).
Proof.
  intros Hr. split; [apply getRandomIcon_defined, Hr|].
  destruct (random_element_defined Frontend.colors random Hr) as [x [E Hin]];
    [vm_compute; split; reflexivity|].
  exists x. split; [exact E|]. split; [exact Hin|].
  exact (In_forallb Task.valid_color Frontend.colors x eq_refl Hin).
Qed.

Lemma or_string_Some (s d : string) : s <> "" -> or_string (Some s) d = s.
Proof.
  intros H. cbn. destruct (String.eqb_spec s ""); [contradiction|reflexivity].
Qed.

(** X25. A task added by the client.  The body that [handleAddTask] posts
    is refused by POST /api/tasks only for its name, its time or its
    date: when the trimmed name, the time and the date are not empty (and
    the new [_id] is free) the answer is 201; and the task stored then has
    the icon and the color that the client picked, never the defaults of
    the route, progress 0, and is not completed. *)
Theorem client_add_task (taskName taskTime taskDate : string)
    (random1 random2 : JS.double) (ev : env) (u : user) (db : tasks) :
  JS.unit_double random1 ->
  JS.unit_double random2 ->
  let body := Frontend.handleAddTask taskName taskTime taskDate random1 random2 in
  (JS.trim taskName <> "" -> taskTime <> "" -> taskDate <> "" ->
   existsb (fun x => Nat.eqb (Task._id x) (ObjectId ev)) db = false ->
   Task.status (snd (create_task body ev u db)) = 201) /\
  (Task.status (snd (create_task body ev u db)) = 201 ->
   exists t,
     fst (create_task body ev u db) = db ++ [t] /\
     Task.name t = JS.trim taskName /\
     Task.deadline t = (taskDate ++ " " ++ taskTime)%string /\
     Frontend.getRandomIcon random1 = Some (Task.icon t) /\
     Frontend.getRandomColor random2 = Some (Task.color t) /\
     Task.progress t = 0 /\
     Task.completed t = false).
Proof.
  intros H1 H2 body.
  destruct (getRandomIcon_defined random1 H1) as [icon [Ei [_ Hi]]].
  destruct (getRandomColor_defined random2 H2) as [color [Ec [Hv Hc]]].
  split.
  - intros Hn Ht Hd Hfresh.
    unfold create_task, try_catch, bind, Task_create, ret, body, Frontend.handleAddTask.
    cbn [TaskBody.name TaskBody.time TaskBody.date TaskBody.progress TaskBody.completed
         TaskBody.icon TaskBody.color option_map template].
    rewrite Ec, (or_string_Some color "purple" Hc).
    cbn [or_value castBoolean]. unfold Task_validate, Task.required.
    cbn [Task.name Task.time Task.date Task.deadline Task.progress Task.color or_number].
    rewrite Hv, Hfresh.
    apply String.eqb_neq in Hn, Ht, Hd. rewrite Hn, Ht, Hd.
    destruct taskDate as [|c d]; [discriminate|]. reflexivity.
  - intros H201.
    destruct (create_task_cases body ev u db)
      as [[t [E [_ [_ [_ [Hname [Htime [Hdate [Hdl [Hp [Hco [Hic [Hcol _]]]]]]]]]]]]]|E];
      rewrite E in H201 |- *; [|discriminate].
    exists t. unfold body, Frontend.handleAddTask in *.
    cbn [TaskBody.name TaskBody.time TaskBody.date TaskBody.progress TaskBody.completed
         TaskBody.icon TaskBody.color option_map] in *.
    injection Hname as Hname. injection Htime as Htime. injection Hdate as Hdate.
    rewrite Ei, (or_string_Some icon route_icon Hi) in Hic.
    rewrite Ec, (or_string_Some color "purple" Hc) in Hcol.
    split; [reflexivity|]. split; [congruence|].
    split; [rewrite Hdl; congruence|].
    split; [congruence|]. split; [congruence|].
    split; [exact Hp|]. cbn in Hco. congruence.
Qed.

Lemma fold_left_sum (l : list Task.task) (acc : Z) :
  fold_left (fun sum task => sum + or_number (Some (Task.progress task)) 0) l acc
  = acc + fold_left (fun sum task => sum + or_number (Some (Task.progress task)) 0) l 0.
Proof.
  revert acc. induction l as [|t l IH]; intros acc; cbn [fold_left]; [lia|].
  rewrite (IH (acc + _)), (IH (0 + _)). lia.
Qed.

Lemma or_number_self (p : Z) : or_number (Some p) 0 = p.
Proof. cbn. destruct (Z.eqb_spec p 0); [congruence|reflexivity]. Qed.

Lemma total_progress_range (l : list Task.task) :
  forallb (fun t => Task.valid_progress (Task.progress t)) l = true ->
  0 <= fold_left (fun sum task => sum + or_number (Some (Task.progress task)) 0) l 0
    <= 100 * Z.of_nat (List.length l).
Proof.
  induction l as [|t l IH]; [cbn; lia|]. intros H. cbn [forallb] in H.
  apply andb_prop in H as [Ht H]. specialize (IH H).
  unfold Task.valid_progress in Ht. apply andb_prop in Ht as [Ha Hb].
  apply Z.leb_le in Ha, Hb.
  cbn [fold_left]. rewrite fold_left_sum, or_number_self.
  change (List.length (t :: l)) with (S (List.length l)). lia.
Qed.

Lemma total_progress_all (l : list Task.task) (p : Z) :
  forallb (fun t => Task.progress t =? p) l = true ->
  fold_left (fun sum task => sum + or_number (Some (Task.progress task)) 0) l 0
  = p * Z.of_nat (List.length l).
Proof.
  induction l as [|t l IH]; [cbn; lia|]. intros H. cbn [forallb] in H.
  apply andb_prop in H as [Ht H]. specialize (IH H). apply Z.eqb_eq in Ht.
  cbn [fold_left]. rewrite fold_left_sum, or_number_self, IH, Ht.
  change (List.length (t :: l)) with (S (List.length l)). lia.
Qed.

(** X26. The percentage that the client shows on the dashboard, the
    rounded mean of the progress of its tasks, is a whole number from 0 to
    100 when every progress is; it is 100 when every task has progress
    100 and also when there is no task, where the statistics of the
    server say 0, and 0 when there are tasks and every one has progress
    0. *)
Theorem client_completion_percentage (l : list Task.task) :
  forallb (fun t => Task.valid_progress (Task.progress t)) l = true ->
  0 <= Frontend.updateCompletionPercentage l <= 100 /\
  (forallb (fun t => Task.progress t =? 100) l = true ->
   Frontend.updateCompletionPercentage l = 100) /\
  (l <> [] -> forallb (fun t => Task.progress t =? 0) l = true ->
   Frontend.updateCompletionPercentage l = 0) /\
  Frontend.updateCompletionPercentage [] = 100.
Proof.
  intros Hv. destruct l as [|t l].
  { change (Frontend.updateCompletionPercentage []) with 100.
    split; [lia|]. split; [reflexivity|]. split; [intros H; contradiction|reflexivity]. }
  unfold Frontend.updateCompletionPercentage.
  set (n := Z.of_nat (List.length (t :: l))).
  assert (Hn : 0 < n) by (unfold n; cbn [List.length]; lia).
  split; [apply average_range; [apply total_progress_range, Hv|exact Hn]|].
  split; [|split; [|reflexivity]].
  - intros H. rewrite (total_progress_all _ 100 H). apply average_all, Hn.
  - intros _ H. rewrite (total_progress_all _ 0 H). reflexivity.
Qed.

(** X27. A task saved by the client.  When PUT /api/tasks/:id answers 200
    to the body that [saveUpdatedTask] builds from the task selected, the
    task stored under the id has the trimmed name, the time, the date and
    the progress of the task selected, a deadline made of that date and
    time, the icon and the color it had, and is completed exactly when its
    progress is 100. *)
Theorem client_save_task (i : nat) (selected old : Task.task) (u : user) (db : tasks) :
  Task_unique_ids db = true ->
  find (Task_matches i (_id u)) db = Some old ->
  Task.status (snd (update_task (Some i) (Frontend.saveUpdatedTask selected) u db)) = 200 ->
  exists t,
    find (Task_matches i (_id u))
      (fst (update_task (Some i) (Frontend.saveUpdatedTask selected) u db)) = Some t /\
    Task.name t = JS.trim (Task.name selected) /\
    Task.time t = Task.time selected /\
    Task.date t = Task.date selected /\
    Task.deadline t = (Task.date selected ++ " " ++ Task.time selected)%string /\
    Task.progress t = Task.progress selected /\
    (Task.completed t = true <-> Task.progress t = 100) /\
    Task.icon t = Task.icon old /\
    Task.color t = Task.color old.
Proof.
  intros Hu Hf. rewrite update_task_cases, Hf.
  set (b := Frontend.saveUpdatedTask selected).
  change (castError (TaskBody.completed b)) with false. cbn [negb andb].
  destruct (Task_validate (update_fields b old)) eqn:Hv; [|cbn; discriminate].
  intros _. exists (update_fields b old). cbn [fst].
  pose proof (update_fields_id b old) as [Hid Huid].
  pose proof (find_some _ _ Hf) as [_ Hm].
  pose proof (Task_matches_owned _ _ _ Hm) as [Hi Ho].
  destruct (Task_updateOne_found i (_id u) db old (update_fields b old) Hu Hf)
    as [l1 [l2 [E1 [E2 [N1 _]]]]]; [congruence|].
  pose proof (update_fields_paths b old) as [Hn [Ht [Hd [Hdl [Hp [Hc [Hic Hco]]]]]]].
  change (TaskBody.name b) with (Some (Task.name selected)) in Hn.
  change (TaskBody.time b) with (Some (Task.time selected)) in Ht, Hdl.
  change (TaskBody.date b) with (Some (Task.date selected)) in Hd.
  change (TaskBody.progress b) with (Some (Task.progress selected)) in Hp.
  change (TaskBody.completed b)
    with (Some (TaskBody.VBool (Task.progress selected =? 100))) in Hp, Hc.
  change (TaskBody.icon b) with (@None string) in Hic.
  change (TaskBody.color b) with (@None string) in Hco.
  cbn [truthy castBoolean] in Hp, Hc.
  cbv beta iota in Hn, Ht, Hd, Hdl, Hp, Hc, Hic, Hco.
  assert (Hprog : Task.progress (update_fields b old) = Task.progress selected).
  { rewrite Hp. destruct (Z.eqb_spec (Task.progress selected) 100) as [E|E]; congruence. }
  split.
  { rewrite E2. apply find_middle; [exact N1|].
    unfold Task_matches, owned in *. rewrite Hid, Huid, Hi, Ho, Nat.eqb_refl. reflexivity. }
  split; [exact Hn|]. split; [exact Ht|]. split; [exact Hd|].
  split; [rewrite Hdl, Hd, Ht; reflexivity|].
  split; [exact Hprog|].
  split; [rewrite Hc, Hprog; apply Z.eqb_eq|].
  split; [exact Hic|exact Hco].
Qed.

End Backend.

(** ** The stand-in satisfies the laws assumed of bcrypt *)

Lemma ToyBcrypt_pad_length (n : nat) (s : string) : String.length (ToyBcrypt.pad n s) = n.
Proof.
  revert s. induction n as [|n IH]; intros s; [reflexivity|].
  destruct s; cbn; rewrite IH; reflexivity.
Qed.

Lemma ToyBcrypt_hash_length (plain salt : string) :
  String.length (ToyBcrypt.hash plain salt) = 60%nat.
Proof. apply ToyBcrypt_pad_length. Qed.

Lemma ToyBcrypt_compare_hash (plain salt : string) :
  ToyBcrypt.compare plain (ToyBcrypt.hash plain salt) = true.
Proof. unfold ToyBcrypt.compare, ToyBcrypt.hash. apply String.eqb_refl. Qed.

(** ** The claims on concrete requests *)

(** C1 on the code.  The SMTP transport is down and [a@x.com] signs up
    into an empty collection: [sendVerificationEmail] reports success, the
    rollback branch of the route is skipped, signup answers 201 and the
    account stays, unverified.  With a helper that reports the failure, as
    [sendPasswordResetEmail] does, the route rolls the same request back
    and answers 500. *)
Lemma signup_keeps_account_when_mail_fails :
  stored "a@x.com" [] = None /\
  sendMail Example.ev_down = Throw "connect ECONNREFUSED 127.0.0.1:587" /\
  Email.success (sendVerificationEmail "a@x.com" "3250" "A" Example.ev_down) = true /\
  signup ToyBcrypt.hash "a@x.com" (JS.JString "pass123") None Example.ev_down []
  = ([Example.alice],
     json_data 201 true
       "User registered. Please check your email for the verification code."
       (Registered "a@x.com" false)) /\
  stored "a@x.com"
    (fst (signup ToyBcrypt.hash "a@x.com" (JS.JString "pass123") None
            Example.ev_down [])) = Some Example.alice /\
  isVerified Example.alice = false /\
  signup_with ToyBcrypt.hash sendPasswordResetEmail
    "a@x.com" (JS.JString "pass123") None Example.ev_down []
  = ([],
     json 500 false
       "Error sending verification email. Please check your email address and try again.").
Proof. repeat split. Qed.

(** C2 on the code: the three answers of forgot-password.  An unknown
    e-mail gets the generic message; a known e-mail gets another message
    and a [data] field, and a 500 when the transport is down. *)
Lemma forgot_password_reveals_account :
  snd (forgot_password ToyBcrypt.hash "nobody@x.com" Example.ev_ok [Example.alice])
  = json 200 true "If an account exists with this email, an OTP has been sent" /\
  snd (forgot_password ToyBcrypt.hash "a@x.com" Example.ev_ok [Example.alice])
  = json_data 200 true "OTP sent to your email. Valid for 10 minutes." (SentTo "a@x.com") /\
  snd (forgot_password ToyBcrypt.hash "a@x.com" Example.ev_down [Example.alice])
  = json 500 false "Error sending email. Please try again later." /\
  snd (forgot_password ToyBcrypt.hash "nobody@x.com" Example.ev_down [Example.alice])
  = json 200 true "If an account exists with this email, an OTP has been sent".
Proof. repeat split. Qed.

(** C3, at a request: the code 3250 of a challenge that expires at 1600000
    verifies at 1599999 and is rejected at 1600001. *)
Lemma otp_verify_expiry_witness :
  resetPasswordExpire Example.alice_resetting = Some 1600000 /\
  resetPasswordOTP Example.alice_resetting = Some (ToyBcrypt.hash "3250" "salt2") /\
  verifyResetOTP ToyBcrypt.compare Example.alice_resetting (JS.JString "3250") (1600000 - 1)
  = true /\
  verifyResetOTP ToyBcrypt.compare Example.alice_resetting (JS.JString "3250") (1600000 + 1)
  = false.
Proof.
  split; [reflexivity|]. split; [reflexivity|].
  destruct (otp_verify_expiry ToyBcrypt.hash ToyBcrypt.compare ToyBcrypt.sign
              ToyBcrypt_compare_hash Example.alice_resetting (JS.JString "3250") 1600001)
    as [_ [_ [_ [_ [H _]]]]].
  destruct (H 1600000 "3250" "salt2" eq_refl eq_refl) as [H1 [_ H2]].
  split; [exact H1|exact H2].
Defined.

(** C3 as stated fails at [now = expiresAt]: the code still verifies. *)
Lemma otp_verify_expiry_counterexample :
  resetPasswordExpire Example.alice_resetting = Some 1600000 /\
  1600000 >= 1600000 /\
  verifyResetOTP ToyBcrypt.compare Example.alice_resetting (JS.JString "3250") 1600000
  = true /\
  verificationOTPExpire Example.alice = Some 1600000 /\
  verifyVerificationOTP ToyBcrypt.compare Example.alice (JS.JString "3250") 1600000
  = true.
Proof. repeat split. lia. Qed.

(** C4, at a request: [a@x.com] logs in with the right password before
    verifying the address. *)
Lemma login_unverified_witness :
  stored "a@x.com" [Example.alice] = Some Example.alice /\
  isVerified Example.alice = false /\
  login ToyBcrypt.compare ToyBcrypt.sign "a@x.com" (JS.JString "pass123")
    Example.ev_ok [Example.alice]
  = ([Example.alice],
     json_data 403 false "Email not verified. Please verify your email."
       (NeedsVerification "a@x.com")).
Proof.
  split; [reflexivity|]. split; [reflexivity|].
  exact (proj1 (login_unverified ToyBcrypt.hash ToyBcrypt.compare ToyBcrypt.sign
                  ToyBcrypt_compare_hash "a@x.com" "pass123" "salt1" Example.ev_ok
                  [Example.alice] Example.alice eq_refl eq_refl eq_refl)).
Defined.



(** C6, at a request: a password sent as the JSON number 123456. *)
Lemma comparePassword_raises_witness :
  stored "a@x.com" [Example.alice] = Some Example.alice /\
  comparePassword ToyBcrypt.compare Example.alice (JS.JNumber 123456)
  = Throw "Password comparison failed" /\
  login ToyBcrypt.compare ToyBcrypt.sign "a@x.com" (JS.JNumber 123456)
    Example.ev_ok [Example.alice]
  = ([Example.alice], json_error 500 "Error logging in" "Password comparison failed").
Proof.
  split; [reflexivity|].
  destruct (comparePassword_raises ToyBcrypt.compare ToyBcrypt.sign
              Example.alice (JS.JNumber 123456)) as [_ [H1 H2]].
  split.
  - apply H1. left. intros plain. discriminate.
  - apply H2; [reflexivity|]. intros plain. discriminate.
Defined.

(** C6 as stated fails: on a comparison error [comparePassword] does not
    return false, it throws. *)
Lemma comparePassword_raises_counterexample :
  bcrypt_compare_js ToyBcrypt.compare (JS.JNumber 123456)
    (js_of (password Example.alice))
  = Throw "Illegal arguments: number, string" /\
  comparePassword ToyBcrypt.compare Example.alice (JS.JNumber 123456) <> Val false /\
  comparePassword ToyBcrypt.compare Example.alice (JS.JNumber 123456)
  = Throw "Password comparison failed".
Proof. repeat split. discriminate. Qed.

(** C7 (amended), at a request: [a@x.com] resets the password with the
    code 3250; afterwards the new password logs in, the old one is
    refused, and the code is spent. *)
Lemma reset_password_replaces_hash_witness :
  unique_ids [Example.alice_resetting] = true /\
  stored "a@x.com" [Example.alice_resetting] = Some Example.alice_resetting /\
  valid_account Example.alice_resetting = true /\
  Date_now Example.ev_ok < 1600000 /\
  ToyBcrypt.compare "pass123" (ToyBcrypt.hash "newpass1" "salt1") = false /\
  exists db',
    reset_password ToyBcrypt.hash ToyBcrypt.compare "a@x.com" (JS.JString "3250")
      (JS.JString "newpass1") Example.ev_ok [Example.alice_resetting]
    = (db', json 200 true
              "Password reset successful. You can now login with your new password.") /\
    stored "a@x.com" db'
    = Some (after_reset Example.alice_resetting (ToyBcrypt.hash "newpass1" "salt1")) /\
    login ToyBcrypt.compare ToyBcrypt.sign "a@x.com" (JS.JString "pass123")
      Example.ev_ok db'
    = (db', json 401 false "Invalid email or password") /\
    status (snd (login ToyBcrypt.compare ToyBcrypt.sign "a@x.com" (JS.JString "newpass1")
                   Example.ev_ok db')) = 200 /\
    reset_password ToyBcrypt.hash ToyBcrypt.compare "a@x.com" (JS.JString "3250")
      (JS.JString "newpass2") Example.ev_ok db'
    = (db', json 400 false "Invalid or expired OTP").
Proof.
  split; [reflexivity|]. split; [reflexivity|]. split; [reflexivity|].
  split; [reflexivity|]. split; [reflexivity|].
  destruct (reset_password_replaces_hash ToyBcrypt.hash ToyBcrypt.compare ToyBcrypt.sign
              ToyBcrypt_compare_hash ToyBcrypt_hash_length
              "a@x.com" "3250" "salt2" "newpass1" Example.ev_ok
              [Example.alice_resetting] Example.alice_resetting 1600000
              eq_refl eq_refl eq_refl eq_refl eq_refl)
    as [db' [Hrun [Hst [_ [Hold [Hnew Hagain]]]]]].
  - cbn. lia.
  - cbn. lia.
  - exists db'. split; [exact Hrun|]. split; [exact Hst|].
    split; [exact (proj1 (proj2 (Hold "pass123" Example.ev_ok)) eq_refl)|].
    split; [exact (Hnew Example.ev_ok eq_refl)|]. apply Hagain.
Defined.

(** C7 as stated fails when the new password is the old one: [a@x.com]
    resets the password [pass123] to [pass123] with the code 3250, and the
    old password verifies afterwards and logs in. *)
Lemma reset_password_replaces_hash_counterexample :
  isVerified Example.alice_resetting = true /\
  comparePassword ToyBcrypt.compare Example.alice_resetting (JS.JString "pass123")
  = Val true /\
  snd (reset_password ToyBcrypt.hash ToyBcrypt.compare "a@x.com" (JS.JString "3250")
         (JS.JString "pass123") Example.ev_ok [Example.alice_resetting])
  = json 200 true "Password reset successful. You can now login with your new password." /\
  stored "a@x.com"
    (fst (reset_password ToyBcrypt.hash ToyBcrypt.compare "a@x.com" (JS.JString "3250")
            (JS.JString "pass123") Example.ev_ok [Example.alice_resetting]))
  = Some (after_reset Example.alice_resetting (ToyBcrypt.hash "pass123" "salt1")) /\
  comparePassword ToyBcrypt.compare
    (after_reset Example.alice_resetting (ToyBcrypt.hash "pass123" "salt1"))
    (JS.JString "pass123") = Val true /\
  status (snd (login ToyBcrypt.compare ToyBcrypt.sign "a@x.com" (JS.JString "pass123")
                 Example.ev_ok
                 (fst (reset_password ToyBcrypt.hash ToyBcrypt.compare "a@x.com"
                         (JS.JString "3250") (JS.JString "pass123") Example.ev_ok
                         [Example.alice_resetting])))) = 200.
Proof. repeat split. Qed.

(** C8, at a request: [Math.random()] returns 0.25 and the code is 3250;
    forgot-password writes its challenge to the account of [a@x.com]. *)
Lemma otp_issue_witness :
  JS.unit_double (Math_random Example.ev_ok) /\
  fst (generateResetOTP ToyBcrypt.hash Example.alice Example.ev_ok) = "3250" /\
  resetPasswordOTP (snd (generateResetOTP ToyBcrypt.hash Example.alice Example.ev_ok))
  <> Some "3250" /\
  resetPasswordExpire (snd (generateResetOTP ToyBcrypt.hash Example.alice Example.ev_ok))
  = Some (1000000 + 600000) /\
  valid_account Example.alice = true /\
  stored "a@x.com"
    (fst (forgot_password ToyBcrypt.hash "a@x.com" Example.ev_ok [Example.alice]))
  = Some (with_reset_challenge Example.alice (ToyBcrypt.hash "3250" "salt2")
            (1000000 + 600000)).
Proof.
  assert (JS.unit_double (Math_random Example.ev_ok)) as Hr
    by (unfold JS.unit_double; cbn; lia).
  split; [exact Hr|].
  destruct (otp_issue ToyBcrypt.hash ToyBcrypt_hash_length Example.alice Example.ev_ok Hr)
    as [_ [[H1 [_ [H2 H3]]] [_ [H4 _]]]].
  split; [exact H1|]. split; [exact H2|]. split; [exact H3|]. split; [reflexivity|].
  exact (H4 "a@x.com" [Example.alice] Example.alice eq_refl eq_refl eq_refl).
Defined.

(** C9, at a request: the signup of [a@x.com] without a name. *)
Lemma signup_default_name_witness :
  falsy None = true /\
  exists u,
    fst (signup ToyBcrypt.hash "a@x.com" (JS.JString "pass123") None Example.ev_ok [])
    = [u] /\
    email u = "a@x.com" /\
    name u = "A".
Proof.
  split; [reflexivity|].
  exact (signup_default_name ToyBcrypt.hash "a@x.com" (JS.JString "pass123") None
           Example.ev_ok [] eq_refl eq_refl).
Defined.

(** C9 as stated fails: the name of the account is [A], the local part of
    the e-mail is [a]. *)
Lemma signup_default_name_counterexample :
  fst (signup ToyBcrypt.hash "a@x.com" (JS.JString "pass123") None Example.ev_ok [])
  = [Example.alice] /\
  name Example.alice = "A" /\
  JS.split_head "@" "a@x.com" = "a" /\
  name Example.alice <> JS.split_head "@" "a@x.com".
Proof. repeat split. discriminate. Qed.

(** C10, at a request: verify-otp accepts the code 3250 and changes
    nothing; reset-password then accepts the same code. *)
Lemma verify_otp_read_only_witness :
  verify_otp ToyBcrypt.compare "a@x.com" (JS.JString "3250") Example.ev_ok
    [Example.alice_resetting]
  = ([Example.alice_resetting], json 200 true "OTP verified successfully") /\
  status (snd (reset_password ToyBcrypt.hash ToyBcrypt.compare "a@x.com"
                 (JS.JString "3250") (JS.JString "newpass1")
                 (Example.at_time 1600000 Example.ev_ok)
                 (fst (verify_otp ToyBcrypt.compare "a@x.com" (JS.JString "3250")
                         Example.ev_ok [Example.alice_resetting])))) = 200.
Proof.
  destruct (verify_otp_read_only ToyBcrypt.hash ToyBcrypt.compare "a@x.com"
              (JS.JString "3250") Example.ev_ok [Example.alice_resetting])
    as [H1 [_ H3]].
  split; [reflexivity|].
  apply (H3 eq_refl eq_refl Example.alice_resetting); [reflexivity|reflexivity| |cbn; lia].
  intros t Ht. injection Ht as <-. cbn. lia.
Defined.

(** ** The stand-in satisfies the laws assumed of jsonwebtoken *)

Lemma ToyJwt_dec_pos_enc (p : positive) (rest : string) :
  ToyJwt.dec_pos (ToyJwt.enc_pos p ++ rest) = Some (p, rest).
Proof.
  induction p as [p IH|p IH|]; cbn; [rewrite IH|rewrite IH|]; reflexivity.
Qed.

Lemma ToyJwt_dec_enc (z : Z) (rest : string) :
  ToyJwt.dec (ToyJwt.enc z ++ rest) = Some (z, rest).
Proof.
  destruct z as [|p|p]; cbn; rewrite ?ToyJwt_dec_pos_enc; reflexivity.
Qed.

Lemma string_app_nil (s : string) : (s ++ "")%string = s.
Proof. induction s as [|c s IH]; [reflexivity|]. cbn. rewrite IH. reflexivity. Qed.

Lemma ToyJwt_dec_sign (id : nat) (iat : Z) :
  ToyJwt.dec (ToyJwt.sign id iat) = Some (Z.of_nat id, ToyJwt.enc iat) /\
  ToyJwt.dec (ToyJwt.enc iat) = Some (iat, "").
Proof.
  unfold ToyJwt.sign. split; [apply ToyJwt_dec_enc|].
  rewrite <- (string_app_nil (ToyJwt.enc iat)) at 1. apply ToyJwt_dec_enc.
Qed.

Lemma ToyJwt_verify_sign (expire : Z) (id : nat) (iat now : Z) :
  now / 1000 < iat / 1000 + expire ->
  ToyJwt.verify expire (ToyJwt.sign id iat) now = JwtOk id.
Proof.
  intros H. unfold ToyJwt.verify. destruct (ToyJwt_dec_sign id iat) as [-> ->].
  destruct (Z.of_nat id <? 0) eqn:E; [apply Z.ltb_lt in E; lia|].
  apply Z.ltb_lt in H. rewrite H, Nat2Z.id. reflexivity.
Qed.

Lemma ToyJwt_verify_expired (expire : Z) (id : nat) (iat now : Z) :
  iat / 1000 + expire <= now / 1000 ->
  ToyJwt.verify expire (ToyJwt.sign id iat) now = JwtError "TokenExpiredError".
Proof.
  intros H. unfold ToyJwt.verify. destruct (ToyJwt_dec_sign id iat) as [-> ->].
  destruct (Z.of_nat id <? 0) eqn:E; [apply Z.ltb_lt in E; lia|].
  apply Z.ltb_ge in H. rewrite H. reflexivity.
Qed.

Lemma all_chars_app (p : ascii -> bool) (a b : string) :
  JS.all_chars p (a ++ b) = JS.all_chars p a && JS.all_chars p b.
Proof.
  induction a as [|c a IH]; [reflexivity|]. cbn. rewrite IH, andb_assoc. reflexivity.
Qed.

Lemma ToyJwt_enc_shape (z : Z) :
  ToyJwt.enc z <> "" /\
  JS.all_chars (fun c => negb (Ascii.eqb c " ")) (ToyJwt.enc z) = true.
Proof.
  assert (forall p, JS.all_chars (fun c => negb (Ascii.eqb c " ")) (ToyJwt.enc_pos p) = true)
    as Hp by (induction p as [p IH|p IH|]; cbn; auto).
  destruct z as [|p|p]; cbn; split; try discriminate; auto.
Qed.

Lemma ToyJwt_sign_shape (id : nat) (iat : Z) :
  ToyJwt.sign id iat <> "" /\
  JS.all_chars (fun c => negb (Ascii.eqb c " ")) (ToyJwt.sign id iat) = true.
Proof.
  unfold ToyJwt.sign.
  destruct (ToyJwt_enc_shape (Z.of_nat id)) as [Hne Ha], (ToyJwt_enc_shape iat) as [_ Hb].
  split.
  - destruct (ToyJwt.enc (Z.of_nat id)); [contradiction Hne; reflexivity|discriminate].
  - rewrite all_chars_app, Ha, Hb. reflexivity.
Qed.

(** ** The further properties on concrete requests *)

(** X1, at a request: [a@x.com] verifies the address with the code 3250. *)
Lemma verify_email_verifies_witness :
  unique_ids [Example.alice] = true /\
  stored "a@x.com" [Example.alice] = Some Example.alice /\
  valid_account Example.alice = true /\
  Date_now Example.ev_ok <= 1600000 /\
  verify_email ToyBcrypt.hash ToyBcrypt.compare ToyBcrypt.sign "a@x.com"
    (JS.JString "3250") Example.ev_ok [Example.alice]
  = ([after_verify Example.alice],
     json_data 200 true "Email verified successfully"
       (Session (ToyBcrypt.sign 7 1000000) 7%nat "a@x.com" "A")).
Proof.
  split; [reflexivity|]. split; [reflexivity|]. split; [reflexivity|]. split; [cbn; lia|].
  refine (proj1 (verify_email_verifies ToyBcrypt.hash ToyBcrypt.compare ToyBcrypt.sign
                   ToyBcrypt_compare_hash "a@x.com" "3250" "salt2" Example.ev_ok
                   [Example.alice] Example.alice 1600000
                   eq_refl eq_refl eq_refl eq_refl eq_refl eq_refl _)).
  cbn. lia.
Defined.

(** X2, at a request: a second verify-email for a verified account. *)
Lemma verify_email_rejections_witness :
  stored "a@x.com" [Example.alice_resetting] = Some Example.alice_resetting /\
  isVerified Example.alice_resetting = true /\
  verify_email ToyBcrypt.hash ToyBcrypt.compare ToyBcrypt.sign "a@x.com"
    (JS.JString "3250") Example.ev_ok [Example.alice_resetting]
  = ([Example.alice_resetting], json 400 false "User already verified").
Proof.
  split; [reflexivity|]. split; [reflexivity|].
  exact (proj2 (proj2 (verify_email_rejections ToyBcrypt.hash ToyBcrypt.compare
                         ToyBcrypt.sign "a@x.com" (JS.JString "3250") Example.ev_ok
                         [Example.alice_resetting]))
           Example.alice_resetting eq_refl eq_refl).
Defined.

(** X3, at a request: the mail of forgot-password fails at 1000000; the
    code 3250 is accepted at 1600000 all the same. *)
Lemma forgot_password_code_lifetime_witness :
  unique_ids [Sample.bob] = true /\
  stored "b@x.com" [Sample.bob] = Some Sample.bob /\
  valid_account Sample.bob = true /\
  snd (forgot_password ToyBcrypt.hash "b@x.com" Example.ev_down [Sample.bob])
  = json 500 false "Error sending email. Please try again later." /\
  snd (verify_otp ToyBcrypt.compare "b@x.com" (JS.JString "3250") (Sample.ev_at 1600000)
         (fst (forgot_password ToyBcrypt.hash "b@x.com" Example.ev_down [Sample.bob])))
  = json 200 true "OTP verified successfully".
Proof.
  split; [reflexivity|]. split; [reflexivity|]. split; [reflexivity|].
  split; [reflexivity|].
  destruct (forgot_password_code_lifetime ToyBcrypt.hash ToyBcrypt.compare
              ToyBcrypt_compare_hash ToyBcrypt_hash_length
              "b@x.com" Example.ev_down (Sample.ev_at 1600000) [Sample.bob] Sample.bob
              eq_refl eq_refl eq_refl) as [H _].
  change (new_otp Example.ev_down) with "3250" in H.
  rewrite H; [reflexivity|]. cbn. lia.
Defined.

(** X4, at a request: [b@x.com] asks for a reset code and logs in with
    the old password afterwards. *)
Lemma forgot_password_keeps_login_witness :
  unique_ids [Sample.bob] = true /\
  stored "b@x.com" [Sample.bob] = Some Sample.bob /\
  valid_account Sample.bob = true /\
  stored "b@x.com"
    (fst (forgot_password ToyBcrypt.hash "b@x.com" Example.ev_ok [Sample.bob]))
  = Some (with_reset_challenge Sample.bob (ToyBcrypt.hash "3250" "salt2") 1600000) /\
  status (snd (login ToyBcrypt.compare ToyBcrypt.sign "b@x.com" (JS.JString "bobpass1")
                 Example.ev_ok
                 (fst (forgot_password ToyBcrypt.hash "b@x.com" Example.ev_ok [Sample.bob]))))
  = 200.
Proof.
  split; [reflexivity|]. split; [reflexivity|]. split; [reflexivity|].
  destruct (forgot_password_keeps_login ToyBcrypt.hash ToyBcrypt.compare ToyBcrypt.sign
              "b@x.com" Example.ev_ok [Sample.bob] Sample.bob eq_refl eq_refl) as [H1 H2].
  split; [rewrite (H1 eq_refl); reflexivity|].
  rewrite H2. reflexivity.
Defined.

(** X5, at a request: [a@x.com] signs up, verifies with 3250, logs in. *)
Lemma signup_verify_login_witness :
  unique_ids [] = true /\
  status (snd (signup ToyBcrypt.hash "a@x.com" (JS.JString "pass123") None
                 Example.ev_down [])) = 201 /\
  Date_now (Sample.ev_at 1600000) <= Date_now Example.ev_down + 600000 /\
  snd (login ToyBcrypt.compare ToyBcrypt.sign "a@x.com" (JS.JString "pass123")
         Example.ev_ok
         (fst (verify_email ToyBcrypt.hash ToyBcrypt.compare ToyBcrypt.sign "a@x.com"
                 (JS.JString "3250") (Sample.ev_at 1600000)
                 (fst (signup ToyBcrypt.hash "a@x.com" (JS.JString "pass123") None
                         Example.ev_down [])))))
  = json_data 200 true "Login successful"
      (Session (ToyBcrypt.sign 7 1000000) 7%nat "a@x.com" "A").
Proof.
  split; [reflexivity|]. split; [reflexivity|]. split; [cbn; lia|].
  refine (proj2 (proj2 (signup_verify_login ToyBcrypt.hash ToyBcrypt.compare ToyBcrypt.sign
                          ToyBcrypt_compare_hash "a@x.com" "pass123" None
                          Example.ev_down (Sample.ev_at 1600000) Example.ev_ok []
                          eq_refl eq_refl _))).
  cbn. lia.
Defined.

(** X6, at a request: a collection with one account stays well-formed
    when [b@x.com] signs up. *)
Lemma auth_routes_keep_well_formed_witness :
  well_formed [Example.alice] = true /\
  well_formed (fst (signup ToyBcrypt.hash "b@x.com" (JS.JString "bobpass1") (Some "Bob")
                      (mkEnv 1000000 999999 (JS.mkDouble 1 2) "salt1" "salt2" 8%nat
                         (Val "<2@todolist.com>"))
                      [Example.alice])) = true.
Proof.
  assert (H : well_formed [Example.alice] = true) by (vm_compute; reflexivity).
  split; [exact H|].
  exact (proj1 (auth_routes_keep_well_formed ToyBcrypt.hash ToyBcrypt.compare
                  ToyBcrypt.sign ToyBcrypt_hash_length (ToyJwt.verify Sample.seven_days)
                  [Example.alice] H)
           "b@x.com" (JS.JString "bobpass1") (Some "Bob")
           (mkEnv 1000000 999999 (JS.mkDouble 1 2) "salt1" "salt2" 8%nat
              (Val "<2@todolist.com>"))).
Defined.

(** X7, at a request: a password of five characters. *)
Lemma signup_checks_witness :
  stored "a@x.com" [] = None /\
  Regex.test email_regex (email_setter "a@x.com") = true /\
  JS.trim (signup_name "a@x.com" None) <> "" /\
  signup ToyBcrypt.hash "a@x.com" (JS.JString "pass1") None Example.ev_ok []
  = ([], json_error 500 "Error creating user"
           "User validation failed: password: Password must be at least 6 characters") /\
  Regex.test email_regex (email_setter "a@x") = false /\
  signup ToyBcrypt.hash "a@x" (JS.JString "pass123") None Example.ev_ok []
  = ([], json_error 500 "Error creating user"
           "User validation failed: email: Please enter a valid email").
Proof.
  split; [reflexivity|]. split; [reflexivity|]. split; [discriminate|].
  split; [|split; [reflexivity|]].
  - apply (proj2 (proj2 (proj2 (signup_checks ToyBcrypt.hash "a@x.com" (JS.JString "pass1")
                                  None Example.ev_ok []))) "pass1");
      try reflexivity; [cbn; lia|discriminate].
  - apply (proj1 (proj2 (proj2 (signup_checks ToyBcrypt.hash "a@x" (JS.JString "pass123")
                                  None Example.ev_ok []))) "pass123");
      try reflexivity; try discriminate. cbn. lia.
Defined.

(** X8, at a request: the same address in capitals, with spaces around. *)
Lemma signup_refuses_same_address_witness :
  status (snd (signup ToyBcrypt.hash "a@x.com" (JS.JString "pass123") None
                 Example.ev_ok [])) = 201 /\
  email_setter "  A@X.COM " = email_setter "a@x.com" /\
  snd (signup ToyBcrypt.hash "  A@X.COM " (JS.JString "other123") (Some "Al")
         Example.ev_ok
         (fst (signup ToyBcrypt.hash "a@x.com" (JS.JString "pass123") None
                 Example.ev_ok [])))
  = json 400 false "User with this email already exists".
Proof.
  split; [reflexivity|]. split; [reflexivity|].
  rewrite (signup_refuses_same_address ToyBcrypt.hash "a@x.com" "  A@X.COM "
             (JS.JString "pass123") (JS.JString "other123") None (Some "Al")
             Example.ev_ok Example.ev_ok [] eq_refl eq_refl).
  reflexivity.
Defined.

(** X9, at an address. *)
Lemma email_regex_accepts_witness :
  Regex.test email_regex "a.b-c@x-y.co.uk" = true /\
  some_char (Ascii.eqb "@") "a.b-c@x-y.co.uk" = true /\
  "a.b-c@x-y.co.uk" <> "".
Proof.
  split; [reflexivity|].
  destruct (email_regex_accepts "a.b-c@x-y.co.uk" eq_refl) as [_ [H1 [_ H2]]].
  split; assumption.
Defined.

(** X10, at a request: an address in mixed case with a space in front. *)
Lemma signup_default_name_of_account_witness :
  falsy None = true /\
  status (snd (signup ToyBcrypt.hash " Ab.c@X.com" (JS.JString "pass123") None
                 Example.ev_ok [])) = 201 /\
  exists u,
    stored " Ab.c@X.com"
      (fst (signup ToyBcrypt.hash " Ab.c@X.com" (JS.JString "pass123") None
              Example.ev_ok [])) = Some u /\
    name u = JS.toUpperCase (JS.split_head "@" (email u)).
Proof.
  split; [reflexivity|]. split; [reflexivity|].
  destruct (signup_default_name_of_account ToyBcrypt.hash " Ab.c@X.com"
              (JS.JString "pass123") None Example.ev_ok [] eq_refl eq_refl)
    as [u [_ [H1 H2]]].
  exists u. split; assumption.
Defined.

(** X12, at a request: the token issued to [b@x.com] at 1000000, six days
    later and eight days later. *)
Lemma protect_accepts_issued_token_witness :
  unique_ids [Example.alice; Sample.bob] = true /\
  In Sample.bob [Example.alice; Sample.bob] /\
  protect (ToyJwt.verify Sample.seven_days)
    (Some ("Bearer " ++ generateToken ToyJwt.sign 8 Example.ev_ok)%string)
    (Sample.ev_at (1000000 + 6 * 86400000)) [Example.alice; Sample.bob]
    (fun r => inl r) (fun u => inr (email u))
  = inr "b@x.com" /\
  protect (ToyJwt.verify Sample.seven_days)
    (Some ("Bearer " ++ generateToken ToyJwt.sign 8 Example.ev_ok)%string)
    (Sample.ev_at (1000000 + 8 * 86400000)) [Example.alice; Sample.bob]
    (fun r => inl r) (fun u => inr (email u))
  = inl (json 401 false "Token expired. Please login again.").
Proof.
  split; [reflexivity|]. split; [right; left; reflexivity|].
  destruct (protect_accepts_issued_token ToyJwt.sign (ToyJwt.verify Sample.seven_days)
              Sample.seven_days
              (ToyJwt_verify_sign Sample.seven_days)
              (ToyJwt_verify_expired Sample.seven_days) ToyJwt_sign_shape
              (response + string) Sample.bob Example.ev_ok
              (Sample.ev_at (1000000 + 6 * 86400000)) [Example.alice; Sample.bob]
              (fun r => inl r) (fun u => inr (email u)) eq_refl
              (or_intror (or_introl eq_refl))) as [H1 _].
  destruct (protect_accepts_issued_token ToyJwt.sign (ToyJwt.verify Sample.seven_days)
              Sample.seven_days
              (ToyJwt_verify_sign Sample.seven_days)
              (ToyJwt_verify_expired Sample.seven_days) ToyJwt_sign_shape
              (response + string) Sample.bob Example.ev_ok
              (Sample.ev_at (1000000 + 8 * 86400000)) [Example.alice; Sample.bob]
              (fun r => inl r) (fun u => inr (email u)) eq_refl
              (or_intror (or_introl eq_refl))) as [_ H2].
  split.
  - apply H1. vm_compute. reflexivity.
  - apply H2. vm_compute. discriminate.
Defined.

(** X13, at a request: [b@x.com] deletes the account and tries again. *)
Lemma delete_account_removes_witness :
  unique_ids [Example.alice; Sample.bob] = true /\
  unique_emails [Example.alice; Sample.bob] = true /\
  stored "b@x.com" [Example.alice; Sample.bob] = Some Sample.bob /\
  delete_account (ToyJwt.verify Sample.seven_days)
    (Some ("Bearer " ++ generateToken ToyJwt.sign 8 Example.ev_ok)%string)
    (Sample.ev_at 2000000) [Example.alice; Sample.bob]
  = ([Example.alice], json 200 true "Account deleted successfully") /\
  delete_account (ToyJwt.verify Sample.seven_days)
    (Some ("Bearer " ++ generateToken ToyJwt.sign 8 Example.ev_ok)%string)
    (Sample.ev_at 3000000) [Example.alice]
  = ([Example.alice], json 401 false "User not found. Please login again.").
Proof.
  split; [reflexivity|]. split; [reflexivity|]. split; [reflexivity|].
  destruct (delete_account_removes ToyJwt.sign (ToyJwt.verify Sample.seven_days)
              Sample.seven_days
              (ToyJwt_verify_sign Sample.seven_days) ToyJwt_sign_shape
              "b@x.com" Sample.bob Example.ev_ok (Sample.ev_at 2000000)
              (Sample.ev_at 3000000) [Example.alice; Sample.bob]
              eq_refl eq_refl eq_refl) as [H1 [_ [_ H2]]];
    [vm_compute; reflexivity|vm_compute; reflexivity|].
  split; [exact H1|exact H2].
Defined.

(** X14, at a request: a scheme that only starts with [Bearer]. *)
Lemma protect_header_shapes_witness :
  String.prefix "Bearer" "Basic abc" = false /\
  protect (ToyJwt.verify Sample.seven_days) (Some "Basic abc") Example.ev_ok
    [Sample.bob] (fun r => inl r) (fun u => inr (email u))
  = inl (json 401 false "Not authorized to access this route. Please login.") /\
  bearer_token (Some "Bearer123 abc") = Some "abc".
Proof.
  split; [reflexivity|].
  destruct (protect_header_shapes (ToyJwt.verify Sample.seven_days) (response + string)
              Example.ev_ok [Sample.bob] (fun r => inl r) (fun u => inr (email u)))
    as [_ [H1 [_ [_ H2]]]].
  split; [apply H1; reflexivity|].
  exact (H2 "123" "abc" eq_refl eq_refl).
Defined.

(** ** The properties of the tasks on concrete requests *)

Lemma TaskSample_unsorted_Permutation (sortBy : string) (direction : Z)
    (l l' : list Task.task) :
  TaskSample.unsorted sortBy direction l = Val l' -> Permutation l l'.
Proof. intros H. injection H as <-. apply Permutation_refl. Qed.

(** X15, at a request: the account 7 deletes its task 21. *)
Lemma task_routes_keep_other_users_tasks_witness :
  Task_unique_ids TaskSample.db = true /\
  tasks_of_others 7 (fst (delete_task (Some 21%nat) Example.alice TaskSample.db))
  = [TaskSample.shopping].
Proof.
  split; [reflexivity|].
  destruct (task_routes_keep_other_users_tasks TaskSample.unsorted Example.alice
              TaskSample.db eq_refl) as [_ [_ [_ [_ [_ [H _]]]]]].
  exact (eq_trans (H (Some 21%nat)) eq_refl).
Defined.

(** X16, at a request: the account 7 asks for the task 22 of the account
    8. *)
Lemma task_routes_answer_from_own_tasks_witness :
  (forall b, GetTask (Some 22%nat) <> CreateTask b) /\
  snd (task_route TaskSample.unsorted (GetTask (Some 22%nat)) TaskSample.ev Example.alice
         TaskSample.db)
  = task_json 404 false "Task not found".
Proof.
  assert (H : forall b, GetTask (Some 22%nat) <> CreateTask b) by (intros b; discriminate).
  split; [exact H|].
  rewrite (proj1 (task_routes_answer_from_own_tasks TaskSample.unsorted
                    TaskSample_unsorted_Permutation (GetTask (Some 22%nat)) TaskSample.ev
                    Example.alice TaskSample.db) H).
  reflexivity.
Defined.

(** X17, at a request: the account 7 completes its task 21. *)
Lemma task_routes_keep_well_formed_witness :
  tasks_well_formed TaskSample.db = true /\
  tasks_well_formed
    (fst (update_task (Some 21%nat) TaskSample.complete Example.alice TaskSample.db))
  = true.
Proof.
  assert (H : tasks_well_formed TaskSample.db = true) by (vm_compute; reflexivity).
  split; [exact H|].
  exact (proj1 (proj2 (proj2 (proj2 (proj2
           (task_routes_keep_well_formed TaskSample.unsorted Example.alice TaskSample.db H)))))
           (Some 21%nat) TaskSample.complete).
Defined.

(** X18, at two requests: [completed: true] with [progress: 60], and
    [completed: 'false'], on the task 21 with progress 40. *)
Lemma update_task_completion_witness :
  Task_unique_ids TaskSample.db = true /\
  find (Task_matches 21 7) TaskSample.db = Some TaskSample.report /\
  Task.status (snd (update_task (Some 21%nat) TaskSample.complete Example.alice
                      TaskSample.db)) = 200 /\
  (exists t,
      find (Task_matches 21 7)
        (fst (update_task (Some 21%nat) TaskSample.complete Example.alice TaskSample.db))
      = Some t /\
      Task.completed t = true /\ Task.progress t = 100) /\
  Task.status (snd (update_task (Some 21%nat) TaskSample.not_completed Example.alice
                      TaskSample.db)) = 200 /\
  (exists t,
      find (Task_matches 21 7)
        (fst (update_task (Some 21%nat) TaskSample.not_completed Example.alice
                TaskSample.db))
      = Some t /\
      Task.completed t = false /\ Task.progress t = 100).
Proof.
  split; [reflexivity|]. split; [reflexivity|]. split; [reflexivity|].
  split; [|split; [reflexivity|]].
  - destruct (proj2 (update_task_completion 21 TaskSample.complete Example.alice
                       TaskSample.db TaskSample.report eq_refl eq_refl) eq_refl)
      as [t [_ [Hf [_ [_ [Hc _]]]]]].
    exists t. split; [exact Hf|]. exact (Hc eq_refl).
  - destruct (proj2 (update_task_completion 21 TaskSample.not_completed Example.alice
                       TaskSample.db TaskSample.report eq_refl eq_refl) eq_refl)
      as [t [_ [Hf [_ [_ [_ [Hc _]]]]]]].
    exists t. split; [exact Hf|]. exact (Hc (or_introl eq_refl)).
Defined.

(** X19, at a request: the account 8 adds a task, reads it and deletes
    it. *)
Lemma create_get_delete_task_witness :
  Task.status (snd (create_task TaskSample.new_task TaskSample.ev Sample.bob TaskSample.db))
  = 201 /\
  exists t,
    fst (create_task TaskSample.new_task TaskSample.ev Sample.bob TaskSample.db)
    = (TaskSample.db ++ [t])%list /\
    Task.name t = "Plan trip" /\
    Task.deadline t = (Task.date t ++ " " ++ Task.time t)%string /\
    delete_task (Some (Task._id t)) Sample.bob (TaskSample.db ++ [t])%list
    = (TaskSample.db, task_json_data 200 "Task deleted successfully" (Task.One t)).
Proof.
  assert (H : Task.status (snd (create_task TaskSample.new_task TaskSample.ev Sample.bob
                                  TaskSample.db)) = 201) by reflexivity.
  split; [exact H|].
  destruct (proj2 (create_get_delete_task TaskSample.new_task TaskSample.ev Sample.bob
                     TaskSample.db) H)
    as [t [E [_ [Hn [Hd [_ [_ [_ [_ [_ [_ [Hdel _]]]]]]]]]]]].
  exists t. rewrite E. split; [reflexivity|].
  split; [injection Hn as Hn; rewrite <- Hn; reflexivity|].
  split; [exact Hd|exact Hdel].
Defined.

(** X20, at a request: the token of the account 8 on a task of the
    account 7. *)
Lemma tasks_router_needs_token_witness :
  Task_unique_ids TaskSample.db = true /\
  bearer_token (Some ("Bearer " ++ generateToken ToyJwt.sign 8 Example.ev_ok)%string)
  = Some (generateToken ToyJwt.sign 8 Example.ev_ok) /\
  ToyJwt.verify Sample.seven_days (generateToken ToyJwt.sign 8 Example.ev_ok)
    (Date_now TaskSample.ev) = JwtOk 8 /\
  tasks_router (ToyJwt.verify Sample.seven_days) TaskSample.unsorted
    (Some ("Bearer " ++ generateToken ToyJwt.sign 8 Example.ev_ok)%string)
    (DeleteTask (Some 21%nat)) TaskSample.ev [Example.alice; Sample.bob] TaskSample.db
  = (TaskSample.db, task_json 404 false "Task not found") /\
  tasks_of 7
    (fst (tasks_router (ToyJwt.verify Sample.seven_days) TaskSample.unsorted
            (Some ("Bearer " ++ generateToken ToyJwt.sign 8 Example.ev_ok)%string)
            (DeleteTask (Some 21%nat)) TaskSample.ev [Example.alice; Sample.bob]
            TaskSample.db))
  = [TaskSample.report; TaskSample.call].
Proof.
  assert (H : forall token,
             bearer_token
               (Some ("Bearer " ++ generateToken ToyJwt.sign 8 Example.ev_ok)%string)
             = Some token ->
             ToyJwt.verify Sample.seven_days token (Date_now TaskSample.ev) <> JwtOk 7).
  { intros token Ht. vm_compute in Ht. injection Ht as <-. vm_compute. discriminate. }
  split; [reflexivity|]. split; [vm_compute; reflexivity|].
  split; [vm_compute; reflexivity|]. split; [vm_compute; reflexivity|].
  rewrite (proj1 (tasks_router_needs_token (ToyJwt.verify Sample.seven_days)
                    TaskSample.unsorted TaskSample_unsorted_Permutation 7
                    (Some ("Bearer " ++ generateToken ToyJwt.sign 8 Example.ev_ok)%string)
                    (DeleteTask (Some 21%nat)) TaskSample.ev [Example.alice; Sample.bob]
                    TaskSample.db eq_refl H)).
  reflexivity.
Defined.

(** X21, at a request: the account 7 lists the ids 21, 22 and 99. *)
Lemma bulk_delete_removes_witness :
  [Some 21%nat; Some 22%nat; Some 99%nat] <> [] /\
  ~ In None [Some 21%nat; Some 22%nat; Some 99%nat] /\
  exists n,
    Task.data (snd (bulk_delete (Some [Some 21%nat; Some 22%nat; Some 99%nat])
                      Example.alice TaskSample.db)) = Task.Deleted n /\
    List.length TaskSample.db
    = (List.length (fst (bulk_delete (Some [Some 21%nat; Some 22%nat; Some 99%nat])
                           Example.alice TaskSample.db)) + n)%nat.
Proof.
  assert (H1 : [Some 21%nat; Some 22%nat; Some 99%nat] <> []) by discriminate.
  assert (H2 : ~ In None [Some 21%nat; Some 22%nat; Some 99%nat])
    by (intros [H|[H|[H|[]]]]; discriminate).
  split; [exact H1|]. split; [exact H2|].
  destruct (proj1 (proj2 (bulk_delete_removes _ Example.alice TaskSample.db H1)) H2)
    as [n [_ [Hd [Hl _]]]].
  exists n. split; assumption.
Defined.

(** X22, at a request: the statistics of the account 7. *)
Lemma stats_summary_counts_witness :
  forallb (fun t => 0 <=? Task.progress t) (tasks_of 7 TaskSample.db) = true /\
  exists completedTasks inProgressTasks pendingTasks completionPercentage,
    Task.data (snd (stats_summary Example.alice TaskSample.db))
    = Task.Summary 2 completedTasks inProgressTasks pendingTasks completionPercentage /\
    (2 = completedTasks + inProgressTasks + pendingTasks)%nat /\
    0 <= completionPercentage <= 100.
Proof.
  split; [reflexivity|].
  destruct (stats_summary_counts Example.alice TaskSample.db eq_refl)
    as [c [i [p [pct [E [_ [Hsum [Hpct _]]]]]]]].
  exists c, i, p, pct. rewrite E. split; [reflexivity|]. split; [exact Hsum|exact Hpct].
Defined.

(** X23, at a task: the task 21 toggled twice. *)
Lemma toggleComplete_twice_witness :
  Task_unique_ids TaskSample.db = true /\
  find (Task_matches 21 7) TaskSample.db = Some TaskSample.report /\
  task_ok TaskSample.report = true /\
  exists once db1 twice db2,
    toggleComplete TaskSample.report TaskSample.db = (db1, Val once) /\
    Task.progress once = 100 /\
    toggleComplete once db1 = (db2, Val twice) /\
    Task.progress twice = 0 /\ Task.completed twice = false.
Proof.
  split; [reflexivity|]. split; [reflexivity|]. split; [reflexivity|].
  destruct (toggleComplete_twice 21 7 TaskSample.report TaskSample.db eq_refl eq_refl
              eq_refl)
    as [once [db1 [twice [db2 [E1 [_ [_ [Hp [E2 [_ [Et _]]]]]]]]]]].
  exists once, db1, twice, db2.
  split; [exact E1|]. split; [exact Hp|]. split; [exact E2|].
  rewrite Et. split; reflexivity.
Defined.

(** X24, at a draw: [Math.random()] returns 0.25. *)
Lemma client_random_choice_witness :
  JS.unit_double (JS.mkDouble 1 2) /\
  (exists icon, Frontend.getRandomIcon (JS.mkDouble 1 2) = Some icon) /\
  Frontend.getRandomColor (JS.mkDouble 1 2) = Some "blue".
Proof.
  assert (Hr : JS.unit_double (JS.mkDouble 1 2)) by (unfold JS.unit_double; cbn; lia).
  split; [exact Hr|].
  destruct (client_random_choice (JS.mkDouble 1 2) Hr) as [[icon [Ei _]] _].
  split; [exists icon; exact Ei|reflexivity].
Defined.

(** X25, at a request: the account 8 adds a task with the client. *)
Lemma client_add_task_witness :
  JS.unit_double (JS.mkDouble 1 2) /\
  JS.unit_double (JS.mkDouble 3 2) /\
  Task.status
    (snd (create_task
            (Frontend.handleAddTask "Plan trip" "7:45" "2026-03-05"
               (JS.mkDouble 1 2) (JS.mkDouble 3 2))
            TaskSample.ev Sample.bob TaskSample.db)) = 201.
Proof.
  assert (H1 : JS.unit_double (JS.mkDouble 1 2)) by (unfold JS.unit_double; cbn; lia).
  assert (H2 : JS.unit_double (JS.mkDouble 3 2)) by (unfold JS.unit_double; cbn; lia).
  split; [exact H1|]. split; [exact H2|].
  apply (proj1 (client_add_task "Plan trip" "7:45" "2026-03-05" (JS.mkDouble 1 2)
                  (JS.mkDouble 3 2) TaskSample.ev Sample.bob TaskSample.db H1 H2));
    try discriminate; reflexivity.
Defined.

(** X26, at a list: the two tasks of the account 7. *)
Lemma client_completion_percentage_witness :
  forallb (fun t => Task.valid_progress (Task.progress t))
    [TaskSample.report; TaskSample.call] = true /\
  0 <= Frontend.updateCompletionPercentage [TaskSample.report; TaskSample.call] <= 100.
Proof.
  split; [reflexivity|].
  exact (proj1 (client_completion_percentage [TaskSample.report; TaskSample.call] eq_refl)).
Defined.

(** X27, at a request: the client saves the task 21 with progress 100. *)
Lemma client_save_task_witness :
  Task_unique_ids TaskSample.db = true /\
  find (Task_matches 21 7) TaskSample.db = Some TaskSample.report /\
  Task.status
    (snd (update_task (Some 21%nat)
            (Frontend.saveUpdatedTask (Task_set_progress 100 TaskSample.report))
            Example.alice TaskSample.db)) = 200 /\
  exists t,
    find (Task_matches 21 7)
      (fst (update_task (Some 21%nat)
              (Frontend.saveUpdatedTask (Task_set_progress 100 TaskSample.report))
              Example.alice TaskSample.db)) = Some t /\
    Task.progress t = 100 /\ Task.completed t = true.
Proof.
  split; [reflexivity|]. split; [reflexivity|]. split; [reflexivity|].
  destruct (client_save_task 21 (Task_set_progress 100 TaskSample.report) TaskSample.report
              Example.alice TaskSample.db eq_refl eq_refl eq_refl)
    as [t [Hf [_ [_ [_ [_ [Hp [Hc _]]]]]]]].
  exists t. split; [exact Hf|]. split; [exact Hp|]. apply Hc. exact Hp.
Defined.
